(** * CTViewer: the volume renderer and its C entry points

    A shallow embedding of [VolumeRenderer.cpp] and [CTViewer.cpp].

    - [float] is IEEE-754 binary32, built on the Standard Library's
      parametric [SpecFloat] operations (precision 24, emax 128), so
      rounding, infinities and NaN behave as they do in the program.
    - [int] and [HRESULT] are [Z]; the program does no overflowing integer
      arithmetic on the paths studied here.
    - A [ComPtr] is an [option] (or a [bool] when only its presence matters).
    - The outcome of every DirectX call is an input of the model: each
      operation takes the [HRESULT]s the driver will answer.
    - Effects are threaded through a small monad with three results: normal
      return, a propagating C++ exception, and undefined behaviour (an
      access outside a [std::vector] or a caller's array).
    - [Log] records every call (severity and message text); the arguments of
      the [sprintf_s]/[std::to_string] formatting are not rendered. *)

From Stdlib Require Import ZArith Bool String Lia.
From Stdlib Require Import Floats.SpecFloat.
From stdpp Require Import base option list.

Local Open Scope Z_scope.

(* ================================================================== *)
(** ** binary32 arithmetic *)
(* ================================================================== *)

Module F32.

Definition prec : Z := 24.
Definition emax : Z := 128.

Definition float : Type := spec_float.

Definition add : float -> float -> float := SFadd prec emax.
Definition sub : float -> float -> float := SFsub prec emax.
Definition mul : float -> float -> float := SFmul prec emax.
Definition div : float -> float -> float := SFdiv prec emax.
Definition opp : float -> float := SFopp.

(** [a < b], [a > b] and [a <= b] of C: false as soon as one side is NaN. *)
Definition ltb (a b : float) : bool := SFltb a b.
Definition gtb (a b : float) : bool := ltb b a.
Definition leb (a b : float) : bool := SFleb a b.

Definition is_nan (a : float) : bool :=
  match a with S754_nan => true | _ => false end.

Definition is_finite (a : float) : bool :=
  match a with S754_zero _ | S754_finite _ _ _ => true | _ => false end.

(** Conversion of an [int] to [float] (round to nearest even). *)
Definition of_Z (n : Z) : float := binary_normalize prec emax n 0 false.

(** A positive decimal literal [n/d] with an [f] suffix: the binary32
    number nearest to the quotient. *)
Definition of_ratio (n d : positive) : float :=
  let '(q, e, l) := SFdiv_core_binary prec emax (Zpos n) 0 (Zpos d) 0 in
  binary_round_aux prec emax false q e l.

Definition zero : float := S754_zero false.
Definition nan : float := S754_nan.

End F32.

Abbreviation float := F32.float.

Declare Scope f32_scope.
Delimit Scope f32_scope with f32.
Infix "+" := F32.add : f32_scope.
Infix "-" := F32.sub : f32_scope.
Infix "*" := F32.mul : f32_scope.
Infix "/" := F32.div : f32_scope.
Notation "- a" := (F32.opp a) : f32_scope.

(** The literals of the program. *)
Definition f0_0  : float := F32.zero.                               (* 0.0f  *)
Definition f1_0  : float := F32.of_Z 1.                             (* 1.0f  *)
Definition f2_0  : float := F32.of_Z 2.                             (* 2.0f  *)
Definition f5_0  : float := F32.of_Z 5.                             (* 5.0f  *)
Definition f10_0 : float := F32.of_Z 10.                            (* 10.0f *)
Definition f255_0 : float := F32.of_Z 255.                          (* 255.0f *)
Definition f0_5  : float := F32.of_ratio 1 2.                       (* 0.5f  *)
Definition f0_1  : float := F32.of_ratio 1 10.                      (* 0.1f  *)
Definition f0_05 : float := F32.of_ratio 5 100.                     (* 0.05f *)

(** DirectXMath.h: [XM_PIDIV2 = 1.570796327f]. *)
Definition XM_PIDIV2 : float := F32.of_ratio 1570796327 1000000000.

(** The Windows [min] and [max] macros (minwindef.h), which the program uses
    unqualified on [float] and on [int]:
    [max(a,b) = (((a) > (b)) ? (a) : (b))],
    [min(a,b) = (((a) < (b)) ? (a) : (b))]. *)
Definition fmax (a b : float) : float := if F32.gtb a b then a else b.
Definition fmin (a b : float) : float := if F32.ltb a b then a else b.
Definition imax (a b : Z) : Z := if a >? b then a else b.
Definition imin (a b : Z) : Z := if a <? b then a else b.

(** [sin] and [cos] of the C library at [float]; the program only calls them. *)
Record Libm : Type := {
  sinf : float -> float;
  cosf : float -> float
}.

(** What ISO C (Annex F) fixes for them at zero. *)
Definition libm_exact_at_zero (m : Libm) : Prop :=
  sinf m f0_0 = f0_0 /\ cosf m f0_0 = f1_0.

(** A small polynomial stand-in, to run the model on concrete inputs. *)
Definition poly_sinf (a : float) : float :=
  (a - (a * a * a) / F32.of_Z 6)%f32.
Definition poly_cosf (a : float) : float :=
  (f1_0 - (a * a) / f2_0)%f32.
Definition poly_libm : Libm := {| sinf := poly_sinf; cosf := poly_cosf |}.

(* ================================================================== *)
(** ** Data *)
(* ================================================================== *)

Module Float3.
Record XMFLOAT3 : Type := mk { x : float; y : float; z : float }.
End Float3.
Abbreviation XMFLOAT3 := Float3.XMFLOAT3.

Module Float4.
Record XMFLOAT4 : Type := mk { x : float; y : float; z : float; w : float }.
End Float4.
Abbreviation XMFLOAT4 := Float4.XMFLOAT4.

Definition HRESULT : Type := Z.
Definition FAILED (hr : HRESULT) : bool := hr <? 0.
Definition SUCCEEDED (hr : HRESULT) : bool := 0 <=? hr.
Definition S_OK : HRESULT := 0.
Definition E_FAIL : HRESULT := -2147467259.          (* 0x80004005 *)

Definition LOG_INFO : Z := 0.
Definition LOG_WARNING : Z := 1.
Definition LOG_ERROR : Z := 2.

Record LogEntry : Type := { severity : Z; message : string }.

(** A [const unsigned char*]: null, or the caller's array. *)
Definition bytes_ptr : Type := option (list Byte.byte).
(** A [const int*]: null, or the caller's array. *)
Definition ints_ptr : Type := option (list Z).

(** Conversion of an [int] expression to [UINT]. *)
Definition to_UINT (n : Z) : Z := n mod 2 ^ 32.

(** [D3D11_TEXTURE3D_DESC] and [D3D11_SUBRESOURCE_DATA] of a created 3D
    texture (format, usage and bind flags are the same constants for both
    textures of the program). *)
Record Texture3D : Type := {
  Width : Z;
  Height : Z;
  Depth : Z;
  pSysMem : list Byte.byte;
  SysMemPitch : Z;
  SysMemSlicePitch : Z
}.

(** *** The members of [VolumeRenderer], grouped as in the header *)

Record DeviceRes : Type := {
  m_device : bool;
  m_context : bool;
  m_swapChain : bool;
  m_renderTargetView : bool;
  m_depthStencilView : option (Z * Z)      (* size of the depth texture *)
}.

Record PipelineRes : Type := {
  m_vertexShader : bool;
  m_pixelShader : bool;
  m_inputLayout : bool;
  m_vertexBuffer : bool;
  m_indexBuffer : bool;
  m_constantBuffer : bool;
  m_volumeSampler : bool
}.

Record MaterialRes : Type := {
  m_materialBuffer : option (list XMFLOAT4);   (* contents on the GPU *)
  m_materialSRV : bool;
  m_materials : list XMFLOAT4                  (* the std::vector *)
}.

Record VolumeRes : Type := {
  m_volumeTexture : option Texture3D;
  m_volumeSRV : option Texture3D;              (* the texture it views *)
  m_labelTexture : option Texture3D;
  m_labelSRV : option Texture3D
}.

Record VolumeProps : Type := {
  m_volumeWidth : Z;
  m_volumeHeight : Z;
  m_volumeDepth : Z;
  m_voxelSize : float
}.

Record ViewportDims : Type := { m_width : Z; m_height : Z }.

Record Camera : Type := {
  m_cameraPosition : XMFLOAT3;
  m_focusPoint : XMFLOAT3;
  m_upVector : XMFLOAT3;
  m_cameraTheta : float;
  m_cameraPhi : float;
  m_cameraRadius : float
}.

Record RenderParams : Type := {
  m_opacity : float;
  m_brightness : float;
  m_contrast : float;
  m_renderMode : Z;
  m_showLabels : bool
}.

Record VolumeRenderer : Type := {
  dev : DeviceRes;
  pipe : PipelineRes;
  mat : MaterialRes;
  volres : VolumeRes;
  vol : VolumeProps;
  view : ViewportDims;
  cam : Camera;
  par : RenderParams
}.

Definition set_dev (f : DeviceRes -> DeviceRes) (r : VolumeRenderer) :=
  {| dev := f (dev r); pipe := pipe r; mat := mat r; volres := volres r;
     vol := vol r; view := view r; cam := cam r; par := par r |}.
Definition set_pipe (f : PipelineRes -> PipelineRes) (r : VolumeRenderer) :=
  {| dev := dev r; pipe := f (pipe r); mat := mat r; volres := volres r;
     vol := vol r; view := view r; cam := cam r; par := par r |}.
Definition set_mat (f : MaterialRes -> MaterialRes) (r : VolumeRenderer) :=
  {| dev := dev r; pipe := pipe r; mat := f (mat r); volres := volres r;
     vol := vol r; view := view r; cam := cam r; par := par r |}.
Definition set_volres (f : VolumeRes -> VolumeRes) (r : VolumeRenderer) :=
  {| dev := dev r; pipe := pipe r; mat := mat r; volres := f (volres r);
     vol := vol r; view := view r; cam := cam r; par := par r |}.
Definition set_vol (f : VolumeProps -> VolumeProps) (r : VolumeRenderer) :=
  {| dev := dev r; pipe := pipe r; mat := mat r; volres := volres r;
     vol := f (vol r); view := view r; cam := cam r; par := par r |}.
Definition set_view (f : ViewportDims -> ViewportDims) (r : VolumeRenderer) :=
  {| dev := dev r; pipe := pipe r; mat := mat r; volres := volres r;
     vol := vol r; view := f (view r); cam := cam r; par := par r |}.
Definition set_cam (f : Camera -> Camera) (r : VolumeRenderer) :=
  {| dev := dev r; pipe := pipe r; mat := mat r; volres := volres r;
     vol := vol r; view := view r; cam := f (cam r); par := par r |}.
Definition set_par (f : RenderParams -> RenderParams) (r : VolumeRenderer) :=
  {| dev := dev r; pipe := pipe r; mat := mat r; volres := volres r;
     vol := vol r; view := view r; cam := cam r; par := f (par r) |}.

(** *** What the program does to the outside *)

(** The constant data uploaded each frame. *)
Record RenderParamsBuffer : Type := {
  opacity : float;
  brightness : float;
  contrast : float;
  renderMode : Z;
  volumeScale : XMFLOAT4;
  showLabels : Z
}.

(** Calls on the device context and the swap chain. *)
Inductive GpuCall : Type :=
| ClearRenderTargetView (rtv : bool)
| ClearDepthStencilView (dsv : bool)
| OMSetRenderTargets
| IASetVertexBuffers
| IASetIndexBuffer
| IASetPrimitiveTopology
| IASetInputLayout
| VSSetShader
| UpdateSubresource_transform (eye focus up : XMFLOAT3) (aspectRatio : float)
| CreateBuffer_renderParams
| UpdateSubresource_renderParams (p : RenderParamsBuffer)
| VSSetConstantBuffers (slot : Z)
| PSSetConstantBuffers (slot : Z)
| PSSetShader
| PSSetShaderResources (slot : Z)
| PSSetSamplers (slot : Z)
| DrawIndexed (indexCount : Z)
| Present (syncInterval : Z)
| RSSetViewports (width height : float).   (* the viewport's Width and Height *)

Inductive exn : Type :=
| std_exception (what : string)
| unknown_exception.

Record World : Type := {
  logs : list LogEntry;       (* calls of [Log], oldest first *)
  gpu : list GpuCall          (* calls on the context, oldest first *)
}.

(** State seen by a member function, and state of the process. *)
Record Obj : Type := { this : VolumeRenderer; o_world : World }.
Record Proc : Type := { g_renderer : option VolumeRenderer; g_world : World }.

(* ================================================================== *)
(** ** The effect monad *)
(* ================================================================== *)

Inductive Res (S A : Type) : Type :=
| Ret (a : A) (s : S)          (* normal return *)
| Throw (e : exn) (s : S)      (* an exception leaves the call *)
| Undefined.                   (* undefined behaviour *)
Arguments Ret {S A} a s.
Arguments Throw {S A} e s.
Arguments Undefined {S A}.

Definition M (S A : Type) : Type := S -> Res S A.

Definition ret {S A} (a : A) : M S A := fun s => Ret a s.
Definition bind {S A B} (m : M S A) (k : A -> M S B) : M S B :=
  fun s => match m s with
           | Ret a s' => k a s'
           | Throw e s' => Throw e s'
           | Undefined => Undefined
           end.
Definition undefined {S A} : M S A := fun _ => Undefined.
Definition modify {S} (f : S -> S) : M S unit := fun s => Ret tt (f s).

(** [try { body } catch (std::exception& e) { h1 } catch (...) { h2 }] *)
Definition try_catch {S A} (body : M S A)
    (on_std : string -> M S A) (on_other : M S A) : M S A :=
  fun s => match body s with
           | Throw (std_exception what) s' => on_std what s'
           | Throw unknown_exception s' => on_other s'
           | r => r
           end.

#[export] Instance M_ret {S} : MRet (M S) := fun A a => ret a.
#[export] Instance M_bind {S} : MBind (M S) := fun A B k m => bind m k.

Class HasWorld (S : Type) : Type := {
  world_of : S -> World;
  with_world : World -> S -> S
}.
#[export] Instance Obj_world : HasWorld Obj :=
  {| world_of := o_world;
     with_world := fun w o => {| this := this o; o_world := w |} |}.
#[export] Instance Proc_world : HasWorld Proc :=
  {| world_of := g_world;
     with_world := fun w p => {| g_renderer := g_renderer p; g_world := w |} |}.

(** [Log(message, severity)] *)
Definition Log {S} `{HasWorld S} (msg : string) (sev : Z) : M S unit :=
  modify (fun s =>
    with_world {| logs := logs (world_of s) ++ [ {| severity := sev; message := msg |} ];
                  gpu := gpu (world_of s) |} s).

(** Access to the members of [*this]. *)
Definition self : M Obj VolumeRenderer := fun o => Ret (this o) o.
Definition update (f : VolumeRenderer -> VolumeRenderer) : M Obj unit :=
  modify (fun o => {| this := f (this o); o_world := o_world o |}).

(** [g_renderer->method(...)]: runs a member function on the object the
    global pointer owns. *)
Definition call_renderer {A} (r : VolumeRenderer) (m : M Obj A) : M Proc A :=
  fun p => match m {| this := r; o_world := g_world p |} with
           | Ret a o => Ret a {| g_renderer := Some (this o); g_world := o_world o |}
           | Throw e o => Throw e {| g_renderer := Some (this o); g_world := o_world o |}
           | Undefined => Undefined
           end.

(** [obj.~VolumeRenderer()] or any call on an object that is not kept. *)
Definition on_temporary {S A} `{HasWorld S} (r : VolumeRenderer) (m : M Obj A) : M S A :=
  fun s => match m {| this := r; o_world := world_of s |} with
           | Ret a o => Ret a (with_world (o_world o) s)
           | Throw e o => Throw e (with_world (o_world o) s)
           | Undefined => Undefined
           end.

(** A call on the device context or the swap chain. *)
Definition gpu_call {S} `{HasWorld S} (throws : GpuCall -> option exn) (c : GpuCall) : M S unit :=
  fun s =>
    let s' := with_world {| logs := logs (world_of s); gpu := gpu (world_of s) ++ [c] |} s in
    match throws c with
    | Some e => Throw e s
    | None => Ret tt s'
    end.

Definition no_throw : GpuCall -> option exn := fun _ => None.

(* ================================================================== *)
(** ** VolumeRenderer.cpp *)
(* ================================================================== *)

Definition default_position : XMFLOAT3 := Float3.mk f0_0 f0_0 (- f2_0)%f32.
Definition origin : XMFLOAT3 := Float3.mk f0_0 f0_0 f0_0.
Definition up_axis : XMFLOAT3 := Float3.mk f0_0 f1_0 f0_0.

Definition default_camera : Camera :=
  {| m_cameraPosition := default_position;
     m_focusPoint := origin;
     m_upVector := up_axis;
     m_cameraTheta := f0_0;
     m_cameraPhi := f0_0;
     m_cameraRadius := f2_0 |}.

Definition null_device : DeviceRes :=
  {| m_device := false; m_context := false; m_swapChain := false;
     m_renderTargetView := false; m_depthStencilView := None |}.
Definition null_pipeline : PipelineRes :=
  {| m_vertexShader := false; m_pixelShader := false; m_inputLayout := false;
     m_vertexBuffer := false; m_indexBuffer := false; m_constantBuffer := false;
     m_volumeSampler := false |}.

(** [VolumeRenderer::VolumeRenderer()].  The constructor does not assign
    [m_width] and [m_height]; [indeterminate] is what they hold. *)
Definition constructed (indeterminate : ViewportDims) : VolumeRenderer :=
  {| dev := null_device;
     pipe := null_pipeline;
     mat := {| m_materialBuffer := None; m_materialSRV := false; m_materials := [] |};
     volres := {| m_volumeTexture := None; m_volumeSRV := None;
                  m_labelTexture := None; m_labelSRV := None |};
     vol := {| m_volumeWidth := 0; m_volumeHeight := 0; m_volumeDepth := 0;
               m_voxelSize := f1_0 |};
     view := indeterminate;
     cam := default_camera;
     par := {| m_opacity := f0_05; m_brightness := f0_0; m_contrast := f1_0;
               m_renderMode := 0; m_showLabels := true |} |}.

Definition VolumeRenderer_ctor {S} `{HasWorld S} (indeterminate : ViewportDims)
    : M S VolumeRenderer :=
  Log "VolumeRenderer constructor called" LOG_INFO;;
  mret (constructed indeterminate).

(** *** Camera *)

Definition phi_min : float := (- XM_PIDIV2 + f0_1)%f32.
Definition phi_max : float := (XM_PIDIV2 - f0_1)%f32.
Definition radius_min : float := f0_5.
Definition radius_max : float := f10_0.

(** The assignments of [RotateCamera], in order. *)
Definition rotate_camera (lm : Libm) (deltaX deltaY : float) (c : Camera) : Camera :=
  let theta := (m_cameraTheta c + deltaX)%f32 in
  let phi := (m_cameraPhi c + deltaY)%f32 in
  let phi := fmax phi_min (fmin phi_max phi) in
  let sinTheta := sinf lm theta in
  let cosTheta := cosf lm theta in
  let sinPhi := sinf lm phi in
  let cosPhi := cosf lm phi in
  let f := m_focusPoint c in
  let r := m_cameraRadius c in
  {| m_cameraPosition :=
       Float3.mk (Float3.x f + r * cosPhi * sinTheta)%f32
                 (Float3.y f + r * sinPhi)%f32
                 (Float3.z f + r * cosPhi * cosTheta)%f32;
     m_focusPoint := f;
     m_upVector := m_upVector c;
     m_cameraTheta := theta;
     m_cameraPhi := phi;
     m_cameraRadius := r |}.

Definition RotateCamera (lm : Libm) (deltaX deltaY : float) : M Obj unit :=
  update (set_cam (rotate_camera lm deltaX deltaY));;
  Log "Camera rotated to theta: %f, phi: %f, radius: %f" LOG_INFO.

(** The two assignments to [m_cameraRadius] in [ZoomCamera]. *)
Definition zoom_radius (delta : float) (c : Camera) : Camera :=
  let r := (m_cameraRadius c - delta)%f32 in
  let r := fmax radius_min (fmin radius_max r) in
  {| m_cameraPosition := m_cameraPosition c;
     m_focusPoint := m_focusPoint c;
     m_upVector := m_upVector c;
     m_cameraTheta := m_cameraTheta c;
     m_cameraPhi := m_cameraPhi c;
     m_cameraRadius := r |}.

Definition ZoomCamera (lm : Libm) (delta : float) : M Obj unit :=
  update (set_cam (zoom_radius delta));;
  RotateCamera lm (F32.of_Z 0) (F32.of_Z 0);;
  Log "Camera zoomed to radius: %f" LOG_INFO.

Definition ResetCamera : M Obj unit :=
  Log "Resetting camera to default position" LOG_INFO;;
  update (set_cam (fun _ => default_camera)).

(** *** Rendering parameters *)

Definition SetOpacity (opacity : float) : M Obj unit :=
  update (set_par (fun p =>
    {| m_opacity := fmax f0_0 (fmin f1_0 opacity); m_brightness := m_brightness p;
       m_contrast := m_contrast p; m_renderMode := m_renderMode p;
       m_showLabels := m_showLabels p |})).

Definition SetBrightness (brightness : float) : M Obj unit :=
  update (set_par (fun p =>
    {| m_opacity := m_opacity p; m_brightness := fmax (- f1_0)%f32 (fmin f1_0 brightness);
       m_contrast := m_contrast p; m_renderMode := m_renderMode p;
       m_showLabels := m_showLabels p |})).

Definition SetContrast (contrast : float) : M Obj unit :=
  update (set_par (fun p =>
    {| m_opacity := m_opacity p; m_brightness := m_brightness p;
       m_contrast := fmax f0_1 (fmin f5_0 contrast); m_renderMode := m_renderMode p;
       m_showLabels := m_showLabels p |})).

Definition SetRenderMode (mode : Z) : M Obj unit :=
  update (set_par (fun p =>
    {| m_opacity := m_opacity p; m_brightness := m_brightness p;
       m_contrast := m_contrast p; m_renderMode := mode;
       m_showLabels := m_showLabels p |})).

Definition SetShowLabels (show : bool) : M Obj unit :=
  update (set_par (fun p =>
    {| m_opacity := m_opacity p; m_brightness := m_brightness p;
       m_contrast := m_contrast p; m_renderMode := m_renderMode p;
       m_showLabels := show |})).

(** *** Volume and label textures *)

(** What the device will answer to the two creation calls. *)
Record TexEnv : Type := {
  hrCreateTexture3D : HRESULT;
  hrCreateShaderResourceView : HRESULT
}.

Definition non_positive_dims (v : VolumeProps) : bool :=
  (m_volumeWidth v <=? 0) || (m_volumeHeight v <=? 0) || (m_volumeDepth v <=? 0).

(** The texture both creation functions describe: sized by the stored
    volume dimensions. *)
Definition texture_of (v : VolumeProps) (d : list Byte.byte) : Texture3D :=
  {| Width := m_volumeWidth v;
     Height := m_volumeHeight v;
     Depth := m_volumeDepth v;
     pSysMem := d;
     SysMemPitch := m_volumeWidth v;
     SysMemSlicePitch := to_UINT (m_volumeWidth v * m_volumeHeight v) |}.

(** [ComPtr::operator&] releases the pointer before the call fills it. *)
Definition created {A} (hr : HRESULT) (a : A) : option A :=
  if SUCCEEDED hr then Some a else None.

Definition CreateVolumeTexture (e : TexEnv) (data : bytes_ptr) : M Obj bool :=
  Log "CreateVolumeTexture called" LOG_INFO;;
  r ← self;
  if negb (m_device (dev r)) then
    Log "Cannot create volume texture - device is null" LOG_ERROR;;
    mret false
  else if non_positive_dims (vol r) then
    Log "Invalid volume dimensions: %dx%dx%d" LOG_ERROR;;
    mret false
  else match data with
  | None =>
    Log "Volume data pointer is null" LOG_ERROR;;
    mret false
  | Some d =>
    let tex := texture_of (vol r) d in
    Log "Creating 3D texture: %dx%dx%d" LOG_INFO;;
    update (set_volres (fun v =>
      {| m_volumeTexture := created (hrCreateTexture3D e) tex;
         m_volumeSRV := m_volumeSRV v;
         m_labelTexture := m_labelTexture v;
         m_labelSRV := m_labelSRV v |}));;
    if FAILED (hrCreateTexture3D e) then
      Log "CreateTexture3D failed, HRESULT: 0x%08X" LOG_ERROR;;
      mret false
    else
      update (set_volres (fun v =>
        {| m_volumeTexture := m_volumeTexture v;
           m_volumeSRV := created (hrCreateShaderResourceView e) tex;
           m_labelTexture := m_labelTexture v;
           m_labelSRV := m_labelSRV v |}));;
      if FAILED (hrCreateShaderResourceView e) then
        Log "CreateShaderResourceView failed, HRESULT: 0x%08X" LOG_ERROR;;
        mret false
      else
        Log "Volume texture created successfully" LOG_INFO;;
        mret true
  end.

Definition CreateLabelTexture (e : TexEnv) (data : bytes_ptr) : M Obj bool :=
  Log "CreateLabelTexture called" LOG_INFO;;
  r ← self;
  if negb (m_device (dev r)) then
    Log "Cannot create label texture - device is null" LOG_ERROR;;
    mret false
  else if non_positive_dims (vol r) then
    Log "Invalid volume dimensions: %dx%dx%d" LOG_ERROR;;
    mret false
  else match data with
  | None =>
    Log "Label data pointer is null" LOG_ERROR;;
    mret false
  | Some d =>
    let tex := texture_of (vol r) d in
    Log "Creating 3D label texture: %dx%dx%d" LOG_INFO;;
    update (set_volres (fun v =>
      {| m_volumeTexture := m_volumeTexture v;
         m_volumeSRV := m_volumeSRV v;
         m_labelTexture := created (hrCreateTexture3D e) tex;
         m_labelSRV := m_labelSRV v |}));;
    if FAILED (hrCreateTexture3D e) then
      Log "CreateTexture3D for labels failed, HRESULT: 0x%08X" LOG_ERROR;;
      mret false
    else
      update (set_volres (fun v =>
        {| m_volumeTexture := m_volumeTexture v;
           m_volumeSRV := m_volumeSRV v;
           m_labelTexture := m_labelTexture v;
           m_labelSRV := created (hrCreateShaderResourceView e) tex |}));;
      if FAILED (hrCreateShaderResourceView e) then
        Log "CreateShaderResourceView for labels failed, HRESULT: 0x%08X" LOG_ERROR;;
        mret false
      else
        Log "Label texture created successfully" LOG_INFO;;
        mret true
  end.

Definition LoadVolumeData (e : TexEnv) (data : bytes_ptr)
    (width height depth : Z) (voxelSize : float) : M Obj bool :=
  Log "LoadVolumeData: %dx%dx%d, voxel size: %f" LOG_INFO;;
  match data with
  | None =>
    Log "Volume data pointer is null" LOG_ERROR;;
    mret false
  | Some _ =>
    if (width <=? 0) || (height <=? 0) || (depth <=? 0) then
      Log "Invalid volume dimensions: %dx%dx%d" LOG_ERROR;;
      mret false
    else
      update (set_vol (fun _ =>
        {| m_volumeWidth := width; m_volumeHeight := height;
           m_volumeDepth := depth; m_voxelSize := voxelSize |}));;
      result ← CreateVolumeTexture e data;
      (if negb result
       then Log "Failed to create volume texture" LOG_ERROR
       else Log "Volume texture created successfully" LOG_INFO);;
      mret result
  end.

Definition LoadLabelData (e : TexEnv) (data : bytes_ptr)
    (width height depth : Z) : M Obj bool :=
  Log "LoadLabelData: %dx%dx%d" LOG_INFO;;
  match data with
  | None =>
    Log "Label data pointer is null" LOG_ERROR;;
    mret false
  | Some _ =>
    if (width <=? 0) || (height <=? 0) || (depth <=? 0) then
      Log "Invalid label dimensions: %dx%dx%d" LOG_ERROR;;
      mret false
    else
      result ← CreateLabelTexture e data;
      (if negb result
       then Log "Failed to create label texture" LOG_ERROR
       else Log "Label texture created successfully" LOG_INFO);;
      mret result
  end.

(** *** Materials *)

(** The body of the loop of [UpdateMaterials]: a packed ARGB [int] becomes
    the [XMFLOAT4(r, g, b, a)]. *)
Definition unpack_ARGB (argb : Z) : XMFLOAT4 :=
  let a := (F32.of_Z (Z.land (Z.shiftr argb 24) 255) / f255_0)%f32 in
  let r := (F32.of_Z (Z.land (Z.shiftr argb 16) 255) / f255_0)%f32 in
  let g := (F32.of_Z (Z.land (Z.shiftr argb 8) 255) / f255_0)%f32 in
  let b := (F32.of_Z (Z.land argb 255) / f255_0)%f32 in
  Float4.mk r g b a.

(** [for (int i = ...; i < count; i++)], with [n] iterations left.  Reading
    [colors[i]] past the caller's array and writing [m_materials[i]] past
    the vector are undefined. *)
Fixpoint UpdateMaterials_loop (colors : list Z) (i n : nat) : M Obj unit :=
  match n with
  | O => mret tt
  | S n' =>
    match colors !! i with
    | None => undefined
    | Some argb =>
      r ← self;
      if decide (i < length (m_materials (mat r)))%nat then
        update (set_mat (fun m =>
          {| m_materialBuffer := m_materialBuffer m;
             m_materialSRV := m_materialSRV m;
             m_materials := <[ i := unpack_ARGB argb ]> (m_materials m) |}));;
        UpdateMaterials_loop colors (S i) n'
      else undefined
    end
  end.

Definition UpdateMaterials (hrMap : HRESULT) (colors : ints_ptr) (count : Z)
    : M Obj unit :=
  Log "UpdateMaterials: count = %d" LOG_INFO;;
  match colors with
  | None => Log "Colors pointer is null" LOG_ERROR
  | Some cs =>
    count ← (if (count <=? 0) || (count >? 256) then
               Log "Invalid color count: %d, clamping to 256" LOG_WARNING;;
               mret (imin 256 (imax 1 count))
             else mret count);
    UpdateMaterials_loop cs 0 (Z.to_nat count);;
    r ← self;
    if m_context (dev r) && bool_decide (is_Some (m_materialBuffer (mat r))) then
      Log "Updating material buffer on GPU" LOG_INFO;;
      if SUCCEEDED hrMap then
        update (set_mat (fun m =>
          {| m_materialBuffer := Some (m_materials m);
             m_materialSRV := m_materialSRV m;
             m_materials := m_materials m |}));;
        Log "Material buffer updated successfully" LOG_INFO
      else
        Log "Failed to map material buffer, HRESULT: 0x%08X" LOG_ERROR
    else
      Log "Cannot update materials - context or material buffer is null" LOG_ERROR
  end.

(** *** Device, views and pipeline *)

Record DepthEnv : Type := {
  hrCreateTexture2D : HRESULT;
  hrCreateDepthStencilView : HRESULT
}.

Record TargetEnv : Type := {
  hrGetBuffer : HRESULT;
  hrCreateRenderTargetView : HRESULT
}.

Record InitEnv : Type := {
  debug_build : bool;                          (* compiled with _DEBUG *)
  indeterminate : ViewportDims;
  hrCreateDeviceAndSwapChain : HRESULT;
  hrCreateDeviceAndSwapChain_retry : HRESULT;
  target_env : TargetEnv;
  depth_env : DepthEnv;
  hrCompileVertexShader : HRESULT;
  hrCreateVertexShader : HRESULT;
  hrCreateInputLayout : HRESULT;
  hrCompilePixelShader : HRESULT;
  hrCreatePixelShader : HRESULT;
  errorBlob : bool;                            (* the compiler left a message *)
  hrCreateBuffer_constant : HRESULT;
  hrCreateBuffer_material : HRESULT;
  hrCreateSRV_material : HRESULT;
  hrCreateSamplerState : HRESULT;
  hrCreateBuffer_vertex : HRESULT;
  hrCreateBuffer_index : HRESULT
}.

Definition set_device_triple (b : bool) (d : DeviceRes) : DeviceRes :=
  {| m_device := b; m_context := b; m_swapChain := b;
     m_renderTargetView := m_renderTargetView d;
     m_depthStencilView := m_depthStencilView d |}.

Definition CreateDeviceAndSwapChain (e : InitEnv) : M Obj bool :=
  Log "CreateDeviceAndSwapChain called" LOG_INFO;;
  (if debug_build e then Log "Enabling DirectX debug layer" LOG_INFO else mret tt);;
  Log "Requested swap chain dimensions: %dx%d" LOG_INFO;;
  let finish : M Obj bool :=
    Log "Device created with feature level %s" LOG_INFO;; mret true in
  update (set_dev (set_device_triple (SUCCEEDED (hrCreateDeviceAndSwapChain e))));;
  if FAILED (hrCreateDeviceAndSwapChain e) then
    Log "D3D11CreateDeviceAndSwapChain failed, HRESULT: 0x%08X" LOG_ERROR;;
    if debug_build e then
      Log "Retrying without debug layer" LOG_INFO;;
      update (set_dev (set_device_triple (SUCCEEDED (hrCreateDeviceAndSwapChain_retry e))));;
      if FAILED (hrCreateDeviceAndSwapChain_retry e) then
        Log "Second attempt failed, HRESULT: 0x%08X" LOG_ERROR;;
        mret false
      else
        Log "Device created successfully without debug layer" LOG_INFO;;
        finish
    else mret false
  else finish.

Definition set_rtv (b : bool) (d : DeviceRes) : DeviceRes :=
  {| m_device := m_device d; m_context := m_context d; m_swapChain := m_swapChain d;
     m_renderTargetView := b; m_depthStencilView := m_depthStencilView d |}.
Definition set_dsv (v : option (Z * Z)) (d : DeviceRes) : DeviceRes :=
  {| m_device := m_device d; m_context := m_context d; m_swapChain := m_swapChain d;
     m_renderTargetView := m_renderTargetView d; m_depthStencilView := v |}.

Definition CreateRenderTargetView (e : TargetEnv) : M Obj bool :=
  Log "CreateRenderTargetView called" LOG_INFO;;
  if FAILED (hrGetBuffer e) then
    Log "Failed to get back buffer, HRESULT: 0x%08X" LOG_ERROR;;
    mret false
  else
    Log "Back buffer dimensions: %dx%d" LOG_INFO;;
    update (set_dev (set_rtv (SUCCEEDED (hrCreateRenderTargetView e))));;
    if FAILED (hrCreateRenderTargetView e) then
      Log "CreateRenderTargetView failed, HRESULT: 0x%08X" LOG_ERROR;;
      mret false
    else
      Log "Render target view created successfully" LOG_INFO;;
      mret true.

Definition CreateDepthStencilView (e : DepthEnv) (width height : Z) : M Obj bool :=
  Log "CreateDepthStencilView called: %dx%d" LOG_INFO;;
  if FAILED (hrCreateTexture2D e) then
    Log "CreateTexture2D for depth stencil failed, HRESULT: 0x%08X" LOG_ERROR;;
    mret false
  else
    update (set_dev (set_dsv (created (hrCreateDepthStencilView e) (width, height))));;
    if FAILED (hrCreateDepthStencilView e) then
      Log "CreateDepthStencilView failed, HRESULT: 0x%08X" LOG_ERROR;;
      mret false
    else
      Log "Depth stencil view created successfully" LOG_INFO;;
      mret true.

Definition log_compile_error (e : InitEnv) : M Obj unit :=
  if errorBlob e then
    Log "Shader compilation error:" LOG_ERROR;;
    Log "<compiler output>" LOG_ERROR
  else mret tt.

Definition CreateShaders (e : InitEnv) : M Obj bool :=
  Log "CreateShaders called" LOG_INFO;;
  Log "Compiling vertex shader..." LOG_INFO;;
  if FAILED (hrCompileVertexShader e) then
    Log "Vertex shader compilation failed, HRESULT: 0x%08X" LOG_ERROR;;
    log_compile_error e;;
    mret false
  else
    update (set_pipe (fun p =>
      {| m_vertexShader := SUCCEEDED (hrCreateVertexShader e);
         m_pixelShader := m_pixelShader p; m_inputLayout := m_inputLayout p;
         m_vertexBuffer := m_vertexBuffer p; m_indexBuffer := m_indexBuffer p;
         m_constantBuffer := m_constantBuffer p; m_volumeSampler := m_volumeSampler p |}));;
    if FAILED (hrCreateVertexShader e) then
      Log "CreateVertexShader failed, HRESULT: 0x%08X" LOG_ERROR;;
      mret false
    else
      Log "Creating input layout..." LOG_INFO;;
      update (set_pipe (fun p =>
        {| m_vertexShader := m_vertexShader p;
           m_pixelShader := m_pixelShader p;
           m_inputLayout := SUCCEEDED (hrCreateInputLayout e);
           m_vertexBuffer := m_vertexBuffer p; m_indexBuffer := m_indexBuffer p;
           m_constantBuffer := m_constantBuffer p; m_volumeSampler := m_volumeSampler p |}));;
      if FAILED (hrCreateInputLayout e) then
        Log "CreateInputLayout failed, HRESULT: 0x%08X" LOG_ERROR;;
        mret false
      else
        Log "Compiling pixel shader..." LOG_INFO;;
        if FAILED (hrCompilePixelShader e) then
          Log "Pixel shader compilation failed, HRESULT: 0x%08X" LOG_ERROR;;
          log_compile_error e;;
          mret false
        else
          update (set_pipe (fun p =>
            {| m_vertexShader := m_vertexShader p;
               m_pixelShader := SUCCEEDED (hrCreatePixelShader e);
               m_inputLayout := m_inputLayout p;
               m_vertexBuffer := m_vertexBuffer p; m_indexBuffer := m_indexBuffer p;
               m_constantBuffer := m_constantBuffer p;
               m_volumeSampler := m_volumeSampler p |}));;
          if FAILED (hrCreatePixelShader e) then
            Log "CreatePixelShader failed, HRESULT: 0x%08X" LOG_ERROR;;
            mret false
          else
            Log "Shaders created successfully" LOG_INFO;;
            mret true.

(** [m_materials.resize(256, XMFLOAT4(0, 0, 0, 0))] *)
Definition transparent : XMFLOAT4 :=
  Float4.mk (F32.of_Z 0) (F32.of_Z 0) (F32.of_Z 0) (F32.of_Z 0).
Definition resize_256 (l : list XMFLOAT4) : list XMFLOAT4 :=
  take 256 l ++ replicate (256 - length l) transparent.

Definition CreateConstantBuffers (e : InitEnv) : M Obj bool :=
  Log "CreateConstantBuffers called" LOG_INFO;;
  update (set_pipe (fun p =>
    {| m_vertexShader := m_vertexShader p; m_pixelShader := m_pixelShader p;
       m_inputLayout := m_inputLayout p;
       m_vertexBuffer := m_vertexBuffer p; m_indexBuffer := m_indexBuffer p;
       m_constantBuffer := SUCCEEDED (hrCreateBuffer_constant e);
       m_volumeSampler := m_volumeSampler p |}));;
  if FAILED (hrCreateBuffer_constant e) then
    Log "CreateBuffer for constant buffer failed, HRESULT: 0x%08X" LOG_ERROR;;
    mret false
  else
    update (set_mat (fun m =>
      let ms := resize_256 (m_materials m) in
      {| m_materialBuffer := created (hrCreateBuffer_material e) ms;
         m_materialSRV := m_materialSRV m;
         m_materials := ms |}));;
    if FAILED (hrCreateBuffer_material e) then
      Log "CreateBuffer for material buffer failed, HRESULT: 0x%08X" LOG_ERROR;;
      mret false
    else
      update (set_mat (fun m =>
        {| m_materialBuffer := m_materialBuffer m;
           m_materialSRV := SUCCEEDED (hrCreateSRV_material e);
           m_materials := m_materials m |}));;
      if FAILED (hrCreateSRV_material e) then
        Log "CreateShaderResourceView for material buffer failed, HRESULT: 0x%08X" LOG_ERROR;;
        mret false
      else
        Log "Constant buffers created successfully" LOG_INFO;;
        mret true.

Definition CreateSamplers (e : InitEnv) : M Obj bool :=
  Log "CreateSamplers called" LOG_INFO;;
  update (set_pipe (fun p =>
    {| m_vertexShader := m_vertexShader p; m_pixelShader := m_pixelShader p;
       m_inputLayout := m_inputLayout p;
       m_vertexBuffer := m_vertexBuffer p; m_indexBuffer := m_indexBuffer p;
       m_constantBuffer := m_constantBuffer p;
       m_volumeSampler := SUCCEEDED (hrCreateSamplerState e) |}));;
  if FAILED (hrCreateSamplerState e) then
    Log "CreateSamplerState failed, HRESULT: 0x%08X" LOG_ERROR;;
    mret false
  else
    Log "Samplers created successfully" LOG_INFO;;
    mret true.

(** [m_context->RSSetViewports]; the context is used without a test.  The
    viewport holds [static_cast<float>(width)] and
    [static_cast<float>(height)]; its other fields are the constants 0, 0
    (top left) and 0, 1 (depth range). *)
Definition SetupViewport (width height : Z) : M Obj unit :=
  Log "SetupViewport: %dx%d" LOG_INFO;;
  r ← self;
  if m_context (dev r)
  then gpu_call no_throw (RSSetViewports (F32.of_Z width) (F32.of_Z height))
  else undefined.

Definition Initialize (e : InitEnv) (hwnd : bool) (width height : Z) : M Obj bool :=
  Log "VolumeRenderer::Initialize started" LOG_INFO;;
  Log "Window handle: 0x%p, Dimensions: %dx%d" LOG_INFO;;
  if negb hwnd then
    Log "Invalid window handle" LOG_ERROR;;
    mret false
  else if (width <=? 0) || (height <=? 0) then
    Log "Invalid dimensions: %dx%d" LOG_ERROR;;
    mret false
  else
    update (set_view (fun _ => {| m_width := width; m_height := height |}));;
    Log "Creating device and swap chain..." LOG_INFO;;
    ok ← CreateDeviceAndSwapChain e;
    if negb ok then Log "Failed to create device and swap chain" LOG_ERROR;; mret false else
    Log "Device and swap chain created successfully" LOG_INFO;;
    Log "Creating render target view..." LOG_INFO;;
    ok ← CreateRenderTargetView (target_env e);
    if negb ok then Log "Failed to create render target view" LOG_ERROR;; mret false else
    Log "Render target view created successfully" LOG_INFO;;
    Log "Creating depth stencil view..." LOG_INFO;;
    ok ← CreateDepthStencilView (depth_env e) width height;
    if negb ok then Log "Failed to create depth stencil view" LOG_ERROR;; mret false else
    Log "Depth stencil view created successfully" LOG_INFO;;
    Log "Setting up viewport..." LOG_INFO;;
    SetupViewport width height;;
    Log "Creating shaders and input layout..." LOG_INFO;;
    ok ← CreateShaders e;
    if negb ok then Log "Failed to create shaders" LOG_ERROR;; mret false else
    Log "Shaders and input layout created successfully" LOG_INFO;;
    Log "Creating constant buffers..." LOG_INFO;;
    ok ← CreateConstantBuffers e;
    if negb ok then Log "Failed to create constant buffers" LOG_ERROR;; mret false else
    Log "Constant buffers created successfully" LOG_INFO;;
    Log "Creating samplers..." LOG_INFO;;
    ok ← CreateSamplers e;
    if negb ok then Log "Failed to create samplers" LOG_ERROR;; mret false else
    Log "Samplers created successfully" LOG_INFO;;
    Log "Creating vertex and index buffers..." LOG_INFO;;
    update (set_pipe (fun p =>
      {| m_vertexShader := m_vertexShader p; m_pixelShader := m_pixelShader p;
         m_inputLayout := m_inputLayout p;
         m_vertexBuffer := SUCCEEDED (hrCreateBuffer_vertex e);
         m_indexBuffer := m_indexBuffer p;
         m_constantBuffer := m_constantBuffer p;
         m_volumeSampler := m_volumeSampler p |}));;
    if FAILED (hrCreateBuffer_vertex e) then
      Log "Failed to create vertex buffer, HRESULT: 0x%08X" LOG_ERROR;; mret false else
    update (set_pipe (fun p =>
      {| m_vertexShader := m_vertexShader p; m_pixelShader := m_pixelShader p;
         m_inputLayout := m_inputLayout p;
         m_vertexBuffer := m_vertexBuffer p;
         m_indexBuffer := SUCCEEDED (hrCreateBuffer_index e);
         m_constantBuffer := m_constantBuffer p;
         m_volumeSampler := m_volumeSampler p |}));;
    if FAILED (hrCreateBuffer_index e) then
      Log "Failed to create index buffer, HRESULT: 0x%08X" LOG_ERROR;; mret false else
    Log "Vertex and index buffers created successfully" LOG_INFO;;
    Log "Initializing default materials..." LOG_INFO;;
    update (set_mat (fun m =>
      {| m_materialBuffer := m_materialBuffer m;
         m_materialSRV := m_materialSRV m;
         m_materials := resize_256 (m_materials m) |}));;
    Log "VolumeRenderer initialized successfully" LOG_INFO;;
    mret true.

(** [Shutdown] resets every pointer it lists; [m_materialSRV] is not among
    them. *)
Definition Shutdown : M Obj unit :=
  Log "VolumeRenderer::Shutdown called" LOG_INFO;;
  r ← self;
  (if m_context (dev r) then Log "Clearing device context state" LOG_INFO else mret tt);;
  Log "Releasing DirectX resources" LOG_INFO;;
  update (fun r =>
    {| dev := null_device;
       pipe := null_pipeline;
       mat := {| m_materialBuffer := None; m_materialSRV := m_materialSRV (mat r);
                 m_materials := m_materials (mat r) |};
       volres := {| m_volumeTexture := None; m_volumeSRV := None;
                    m_labelTexture := None; m_labelSRV := None |};
       vol := vol r; view := view r; cam := cam r; par := par r |});;
  Log "VolumeRenderer shutdown complete" LOG_INFO.

(** [VolumeRenderer::~VolumeRenderer()] *)
Definition VolumeRenderer_dtor : M Obj unit :=
  Log "VolumeRenderer destructor called" LOG_INFO;;
  Shutdown.

(** *** Frame *)

Record RenderEnv : Type := {
  throws : GpuCall -> option exn;      (* which call raises, and what *)
  hrCreateBuffer_renderParams : HRESULT;
  hrPresent : HRESULT
}.

Definition UpdateConstantBuffers (e : RenderEnv) : M Obj unit :=
  r ← self;
  if negb (m_context (dev r)) || negb (m_constantBuffer (pipe r)) then
    Log "Cannot update constant buffers - context or buffer is null" LOG_ERROR
  else
    let aspectRatio := (F32.of_Z (m_width (view r)) / F32.of_Z (m_height (view r)))%f32 in
    gpu_call (throws e)
      (UpdateSubresource_transform (m_cameraPosition (cam r)) (m_focusPoint (cam r))
                                   (m_upVector (cam r)) aspectRatio);;
    (if m_device (dev r) then gpu_call (throws e) CreateBuffer_renderParams else undefined);;
    (if SUCCEEDED (hrCreateBuffer_renderParams e) then
       gpu_call (throws e) (UpdateSubresource_renderParams
         {| opacity := m_opacity (par r);
            brightness := m_brightness (par r);
            contrast := m_contrast (par r);
            renderMode := m_renderMode (par r);
            volumeScale := Float4.mk f1_0 f1_0 f1_0 f1_0;
            showLabels := if m_showLabels (par r) then 1 else 0 |});;
       gpu_call (throws e) (PSSetConstantBuffers 1)
     else
       Log "Failed to create render params buffer, HRESULT: 0x%08X" LOG_ERROR);;
    if m_materialSRV (mat r) then gpu_call (throws e) (PSSetShaderResources 2)
    else Log "Material shader resource view is null" LOG_WARNING.

(** The statements inside the [try] of [VolumeRenderer::Render]. *)
Definition Render_body (e : RenderEnv) : M Obj unit :=
  r ← self;
  if negb (m_context (dev r)) || negb (m_device (dev r)) || negb (m_swapChain (dev r)) then
    Log "Cannot render - DirectX resources not initialized" LOG_ERROR
  else
    let call := gpu_call (S := Obj) (throws e) in
    call (ClearRenderTargetView (m_renderTargetView (dev r)));;
    call (ClearDepthStencilView (bool_decide (is_Some (m_depthStencilView (dev r)))));;
    call OMSetRenderTargets;;
    call IASetVertexBuffers;;
    call IASetIndexBuffer;;
    call IASetPrimitiveTopology;;
    call IASetInputLayout;;
    call VSSetShader;;
    UpdateConstantBuffers e;;
    call (VSSetConstantBuffers 0);;
    call (PSSetConstantBuffers 0);;
    call PSSetShader;;
    (if bool_decide (is_Some (m_volumeSRV (volres r))) then call (PSSetShaderResources 0)
     else Log "Volume shader resource view is null during render" LOG_WARNING);;
    (if bool_decide (is_Some (m_labelSRV (volres r))) then call (PSSetShaderResources 1)
     else Log "Label shader resource view is null during render" LOG_INFO);;
    (if m_volumeSampler (pipe r) then call (PSSetSamplers 0)
     else Log "Volume sampler is null during render" LOG_WARNING);;
    call (DrawIndexed 36);;
    call (Present 1);;
    if FAILED (hrPresent e) then Log "SwapChain Present failed, HRESULT: 0x%08X" LOG_ERROR
    else mret tt.

Definition Render (e : RenderEnv) : M Obj unit :=
  try_catch (Render_body e)
    (fun what => Log ("Exception in Render: " ++ what) LOG_ERROR)
    (Log "Unknown exception in Render" LOG_ERROR).

Record ResizeEnv : Type := {
  hrResizeBuffers : HRESULT;
  resize_target_env : TargetEnv;
  resize_depth_env : DepthEnv
}.

Definition Resize (e : ResizeEnv) (width height : Z) : M Obj unit :=
  Log "Resize called: %dx%d" LOG_INFO;;
  if (width <=? 0) || (height <=? 0) then
    Log "Invalid resize dimensions: %dx%d" LOG_ERROR
  else
    r ← self;
    if negb (m_device (dev r)) || negb (m_swapChain (dev r)) then
      Log "Cannot resize - device or swap chain is null" LOG_ERROR
    else
      Log "Releasing render target and depth stencil" LOG_INFO;;
      update (set_dev (fun d => set_dsv None (set_rtv false d)));;
      Log "Resizing swap chain buffers" LOG_INFO;;
      if FAILED (hrResizeBuffers e) then
        Log "ResizeBuffers failed, HRESULT: 0x%08X" LOG_ERROR
      else
        Log "Recreating render target view" LOG_INFO;;
        if FAILED (hrGetBuffer (resize_target_env e)) then
          Log "GetBuffer failed, HRESULT: 0x%08X" LOG_ERROR
        else
          update (set_dev (set_rtv (SUCCEEDED (hrCreateRenderTargetView (resize_target_env e)))));;
          if FAILED (hrCreateRenderTargetView (resize_target_env e)) then
            Log "CreateRenderTargetView failed, HRESULT: 0x%08X" LOG_ERROR
          else
            Log "Recreating depth stencil view" LOG_INFO;;
            ok ← CreateDepthStencilView (resize_depth_env e) width height;
            if negb ok then Log "Failed to recreate depth stencil view" LOG_ERROR
            else
              Log "Updating viewport" LOG_INFO;;
              update (set_view (fun _ => {| m_width := width; m_height := height |}));;
              SetupViewport width height;;
              Log "Resize completed successfully" LOG_INFO.

(* ================================================================== *)
(** ** CTViewer.cpp: the exported functions *)
(* ================================================================== *)

Module CTViewer.

Definition renderer : M Proc (option VolumeRenderer) :=
  fun p => Ret (g_renderer p) p.

(** [g_renderer = p] and [g_renderer.reset()]: the object owned so far is
    destroyed. *)
Definition assign (new : option VolumeRenderer) : M Proc unit :=
  old ← renderer;
  modify (fun p => {| g_renderer := new; g_world := g_world p |});;
  match old with
  | Some r => on_temporary r VolumeRenderer_dtor
  | None => mret tt
  end.

Definition Initialize (e : InitEnv) (hwnd : bool) (width height : Z) : M Proc bool :=
  try_catch
    (Log "Initialize DirectX renderer called" LOG_INFO;;
     if negb hwnd then
       Log "Failed to initialize: Invalid window handle (null)" LOG_ERROR;;
       mret false
     else if (width <=? 0) || (height <=? 0) then
       Log "Failed to initialize: Invalid dimensions: " LOG_ERROR;;
       mret false
     else
       Log "Creating VolumeRenderer instance" LOG_INFO;;
       fresh ← VolumeRenderer_ctor (indeterminate e);
       assign (Some fresh);;
       Log "Initializing renderer with dimensions: " LOG_INFO;;
       result ← call_renderer fresh (Initialize e hwnd width height);
       (if negb result
        then Log "DirectX renderer initialization failed" LOG_ERROR
        else Log "DirectX renderer initialized successfully" LOG_INFO);;
       mret result)
    (fun what => Log ("Exception during initialization: " ++ what) LOG_ERROR;; mret false)
    (Log "Unknown exception during initialization" LOG_ERROR;; mret false).

Definition Shutdown : M Proc unit :=
  try_catch
    (Log "Shutting down DirectX renderer" LOG_INFO;;
     g ← renderer;
     match g with
     | Some r =>
       call_renderer r Shutdown;;
       assign None;;
       Log "DirectX renderer shutdown complete" LOG_INFO
     | None => Log "Shutdown called but renderer was not initialized" LOG_WARNING
     end)
    (fun what => Log ("Exception during shutdown: " ++ what) LOG_ERROR)
    (Log "Unknown exception during shutdown" LOG_ERROR).

Definition Render (e : RenderEnv) : M Proc unit :=
  try_catch
    (g ← renderer;
     match g with
     | Some r => call_renderer r (Render e)
     | None => Log "Render called but renderer is not initialized" LOG_ERROR
     end)
    (fun what => Log ("Exception during render: " ++ what) LOG_ERROR)
    (Log "Unknown exception during render" LOG_ERROR).

Definition LoadVolumeData (e : TexEnv) (data : bytes_ptr)
    (width height depth : Z) (voxelSize : float) : M Proc bool :=
  try_catch
    (g ← renderer;
     match g with
     | None =>
       Log "LoadVolumeData called but renderer is not initialized" LOG_ERROR;;
       mret false
     | Some r =>
       Log "Loading volume data: " LOG_INFO;;
       match data with
       | None =>
         Log "Failed to load volume data: Data pointer is null" LOG_ERROR;;
         mret false
       | Some _ =>
         if (width <=? 0) || (height <=? 0) || (depth <=? 0) then
           Log "Failed to load volume data: Invalid dimensions" LOG_ERROR;;
           mret false
         else
           result ← call_renderer r (LoadVolumeData e data width height depth voxelSize);
           (if (result : bool)
            then Log "Volume data loaded successfully" LOG_INFO
            else Log "Failed to load volume data" LOG_ERROR);;
           mret result
       end
     end)
    (fun what => Log ("Exception while loading volume data: " ++ what) LOG_ERROR;; mret false)
    (Log "Unknown exception while loading volume data" LOG_ERROR;; mret false).

Definition LoadLabelData (e : TexEnv) (data : bytes_ptr)
    (width height depth : Z) : M Proc bool :=
  try_catch
    (g ← renderer;
     match g with
     | None =>
       Log "LoadLabelData called but renderer is not initialized" LOG_ERROR;;
       mret false
     | Some r =>
       Log "Loading label data: " LOG_INFO;;
       match data with
       | None =>
         Log "Failed to load label data: Data pointer is null" LOG_ERROR;;
         mret false
       | Some _ =>
         if (width <=? 0) || (height <=? 0) || (depth <=? 0) then
           Log "Failed to load label data: Invalid dimensions" LOG_ERROR;;
           mret false
         else
           result ← call_renderer r (LoadLabelData e data width height depth);
           (if (result : bool)
            then Log "Label data loaded successfully" LOG_INFO
            else Log "Failed to load label data" LOG_ERROR);;
           mret result
       end
     end)
    (fun what => Log ("Exception while loading label data: " ++ what) LOG_ERROR;; mret false)
    (Log "Unknown exception while loading label data" LOG_ERROR;; mret false).

Definition UpdateMaterials (hrMap : HRESULT) (colors : ints_ptr) (count : Z)
    : M Proc unit :=
  try_catch
    (g ← renderer;
     match g with
     | None => Log "UpdateMaterials called but renderer is not initialized" LOG_ERROR
     | Some r =>
       Log "Updating %d materials" LOG_INFO;;
       match colors with
       | None => Log "Failed to update materials: Colors pointer is null" LOG_ERROR
       | Some _ =>
         if count <=? 0 then
           Log "Failed to update materials: Invalid count" LOG_WARNING
         else
           call_renderer r (UpdateMaterials hrMap colors count);;
           Log "Materials updated successfully" LOG_INFO
       end
     end)
    (fun what => Log ("Exception while updating materials: " ++ what) LOG_ERROR)
    (Log "Unknown exception while updating materials" LOG_ERROR).

Definition Resize (e : ResizeEnv) (width height : Z) : M Proc unit :=
  try_catch
    (g ← renderer;
     match g with
     | None => Log "Resize called but renderer is not initialized" LOG_ERROR
     | Some r =>
       Log "Resizing renderer to %dx%d" LOG_INFO;;
       if (width <=? 0) || (height <=? 0) then
         Log "Failed to resize: Invalid dimensions" LOG_ERROR
       else
         call_renderer r (Resize e width height);;
         Log "Renderer resized successfully" LOG_INFO
     end)
    (fun what => Log ("Exception during resize: " ++ what) LOG_ERROR)
    (Log "Unknown exception during resize" LOG_ERROR).

Definition RotateCamera (lm : Libm) (deltaX deltaY : float) : M Proc unit :=
  try_catch
    (g ← renderer;
     match g with
     | None => Log "RotateCamera called but renderer is not initialized" LOG_ERROR
     | Some r => call_renderer r (RotateCamera lm deltaX deltaY)
     end)
    (fun what => Log ("Exception during camera rotation: " ++ what) LOG_ERROR)
    (Log "Unknown exception during camera rotation" LOG_ERROR).

Definition ZoomCamera (lm : Libm) (delta : float) : M Proc unit :=
  try_catch
    (g ← renderer;
     match g with
     | None => Log "ZoomCamera called but renderer is not initialized" LOG_ERROR
     | Some r => call_renderer r (ZoomCamera lm delta)
     end)
    (fun what => Log ("Exception during camera zoom: " ++ what) LOG_ERROR)
    (Log "Unknown exception during camera zoom" LOG_ERROR).

Definition ResetCamera : M Proc unit :=
  try_catch
    (g ← renderer;
     match g with
     | None => Log "ResetCamera called but renderer is not initialized" LOG_ERROR
     | Some r =>
       Log "Resetting camera" LOG_INFO;;
       call_renderer r ResetCamera
     end)
    (fun what => Log ("Exception during camera reset: " ++ what) LOG_ERROR)
    (Log "Unknown exception during camera reset" LOG_ERROR).

Definition SetRenderingParams (opacity brightness contrast : float)
    (renderMode : Z) (showLabels : bool) : M Proc unit :=
  try_catch
    (g ← renderer;
     match g with
     | None => Log "SetRenderingParams called but renderer is not initialized" LOG_ERROR
     | Some r =>
       Log "Setting rendering params: opacity=" LOG_INFO;;
       call_renderer r
         (SetOpacity opacity;;
          SetBrightness brightness;;
          SetContrast contrast;;
          SetRenderMode renderMode;;
          SetShowLabels showLabels)
     end)
    (fun what => Log ("Exception while setting rendering params: " ++ what) LOG_ERROR)
    (Log "Unknown exception while setting rendering params" LOG_ERROR).

End CTViewer.

(** The process before any call: no renderer, nothing logged. *)
Definition start : Proc :=
  {| g_renderer := None; g_world := {| logs := []; gpu := [] |} |}.

Definition quiet : World := {| logs := []; gpu := [] |}.

(* ================================================================== *)
(** ** Sequences of calls and the predicates of the specification *)
(* ================================================================== *)

(** [v] lies in the closed, resp. open, interval between [lo] and [hi]. *)
Definition within (lo hi v : float) : Prop :=
  F32.leb lo v = true /\ F32.leb v hi = true.
Definition strictly_within (lo hi v : float) : Prop :=
  F32.ltb lo v = true /\ F32.ltb v hi = true.

(** The position of the orbital camera, as the specification writes it:
    [focus + radius * (cos(phi)sin(theta), sin(phi), cos(phi)cos(theta))]. *)
Definition orbit_position (lm : Libm) (focus : XMFLOAT3) (theta phi radius : float)
    : XMFLOAT3 :=
  Float3.mk
    (Float3.x focus + radius * cosf lm phi * sinf lm theta)%f32
    (Float3.y focus + radius * sinf lm phi)%f32
    (Float3.z focus + radius * cosf lm phi * cosf lm theta)%f32.

Inductive CameraCall : Type :=
| Rotate (deltaX deltaY : float)
| Zoom (delta : float).

Definition camera_call (lm : Libm) (c : CameraCall) : M Obj unit :=
  match c with
  | Rotate dx dy => RotateCamera lm dx dy
  | Zoom d => ZoomCamera lm d
  end.

Fixpoint camera_calls (lm : Libm) (cs : list CameraCall) : M Obj unit :=
  match cs with
  | [] => mret tt
  | c :: cs' => camera_call lm c;; camera_calls lm cs'
  end.

Definition deltaY_not_nan (c : CameraCall) : Prop :=
  match c with
  | Rotate _ dy => F32.is_nan dy = false
  | Zoom _ => True
  end.

Definition delta_not_nan (c : CameraCall) : Prop :=
  match c with
  | Rotate _ _ => True
  | Zoom d => F32.is_nan d = false
  end.

(** The calls logged an error between [w] and [w']. *)
Definition reported_error (w w' : World) : Prop :=
  exists new, logs w' = logs w ++ new /\
              Exists (fun en => severity en = LOG_ERROR) new.
Definition reported_no_error (w w' : World) : Prop :=
  exists new, logs w' = logs w ++ new /\
              Forall (fun en => severity en <> LOG_ERROR) new.

(* ================================================================== *)
(** ** Concrete environments and inputs for the runs *)
(* ================================================================== *)

Definition any_dims : ViewportDims := {| m_width := 0; m_height := 0 |}.

(** Every DirectX call succeeds. *)
Definition healthy : InitEnv :=
  {| debug_build := false;
     indeterminate := any_dims;
     hrCreateDeviceAndSwapChain := S_OK;
     hrCreateDeviceAndSwapChain_retry := S_OK;
     target_env := {| hrGetBuffer := S_OK; hrCreateRenderTargetView := S_OK |};
     depth_env := {| hrCreateTexture2D := S_OK; hrCreateDepthStencilView := S_OK |};
     hrCompileVertexShader := S_OK;
     hrCreateVertexShader := S_OK;
     hrCreateInputLayout := S_OK;
     hrCompilePixelShader := S_OK;
     hrCreatePixelShader := S_OK;
     errorBlob := false;
     hrCreateBuffer_constant := S_OK;
     hrCreateBuffer_material := S_OK;
     hrCreateSRV_material := S_OK;
     hrCreateSamplerState := S_OK;
     hrCreateBuffer_vertex := S_OK;
     hrCreateBuffer_index := S_OK |}.

(** No Direct3D 11 device can be created (release build). *)
Definition no_device : InitEnv :=
  {| debug_build := false;
     indeterminate := any_dims;
     hrCreateDeviceAndSwapChain := E_FAIL;
     hrCreateDeviceAndSwapChain_retry := E_FAIL;
     target_env := target_env healthy;
     depth_env := depth_env healthy;
     hrCompileVertexShader := S_OK;
     hrCreateVertexShader := S_OK;
     hrCreateInputLayout := S_OK;
     hrCompilePixelShader := S_OK;
     hrCreatePixelShader := S_OK;
     errorBlob := false;
     hrCreateBuffer_constant := S_OK;
     hrCreateBuffer_material := S_OK;
     hrCreateSRV_material := S_OK;
     hrCreateSamplerState := S_OK;
     hrCreateBuffer_vertex := S_OK;
     hrCreateBuffer_index := S_OK |}.

Definition textures_ok : TexEnv :=
  {| hrCreateTexture3D := S_OK; hrCreateShaderResourceView := S_OK |}.
Definition texture_fails : TexEnv :=
  {| hrCreateTexture3D := E_FAIL; hrCreateShaderResourceView := S_OK |}.

Definition new_object : Obj := {| this := constructed any_dims; o_world := quiet |}.

(** A 4x4x4 volume and a 2x2x2 array. *)
Definition voxels_64 : list Byte.byte := replicate 64 Byte.x00.
Definition voxels_8 : list Byte.byte := replicate 8 Byte.x01.

(** The value an [int] holds for a 32-bit pattern. *)
Definition to_int (n : Z) : Z := (n + 2 ^ 31) mod 2 ^ 32 - 2 ^ 31.

(** What an operation leaves besides the world: the result and the state
    seen through [f]. *)
Definition observe {S T A} (f : S -> T) (r : Res S A) : Res T A :=
  match r with
  | Ret a s => Ret a (f s)
  | Throw e s => Throw e (f s)
  | Undefined => Undefined
  end.

(** The state an operation leaves, however it ends. *)
Definition after {S A} (m : M S A) (s : S) : S :=
  match m s with
  | Ret _ s' => s'
  | Throw _ s' => s'
  | Undefined => s
  end.

(** A renderer initialized at 800x600, then holding a 4x4x4 volume. *)
Definition initialized_object : Obj :=
  after (Initialize healthy true 800 600) new_object.
Definition loaded_object : Obj :=
  after (LoadVolumeData textures_ok (Some voxels_64) 4 4 4 f1_0) initialized_object.

Definition stored (w h d : Z) (vs : float) : VolumeProps :=
  {| m_volumeWidth := w; m_volumeHeight := h; m_volumeDepth := d; m_voxelSize := vs |}.

Definition rejected_arguments (data : bytes_ptr) (w h d : Z) : Prop :=
  data = None \/ w <= 0 \/ h <= 0 \/ d <= 0.

(** The device is missing or one of the two creation calls fails. *)
Definition creation_fails (e : TexEnv) (r : VolumeRenderer) : Prop :=
  m_device (dev r) = false \/
  FAILED (hrCreateTexture3D e) = true \/
  FAILED (hrCreateShaderResourceView e) = true.

(** *** [UpdateMaterials] read as a function on the table *)

(** The loop: [n] entries written from index [i] on; [None] when an index
    leaves the caller's array or the vector. *)
Fixpoint write_colors (colors : list Z) (i n : nat) (ms : list XMFLOAT4)
    : option (list XMFLOAT4) :=
  match n with
  | O => Some ms
  | S n' =>
    match colors !! i with
    | None => None
    | Some argb =>
      if decide (i < length ms)%nat
      then write_colors colors (S i) n' (<[ i := unpack_ARGB argb ]> ms)
      else None
    end
  end.

Definition put_materials (ms : list XMFLOAT4) (r : VolumeRenderer) : VolumeRenderer :=
  set_mat (fun m =>
    {| m_materialBuffer := m_materialBuffer m;
       m_materialSRV := m_materialSRV m;
       m_materials := ms |}) r.

(** The count the loop runs to. *)
Definition clamp_count (count : Z) : Z :=
  if (count <=? 0) || (count >? 256) then imin 256 (imax 1 count) else count.

(** The copy of the table into the GPU buffer. *)
Definition upload (hrMap : HRESULT) (r : VolumeRenderer) : VolumeRenderer :=
  if m_context (dev r) && bool_decide (is_Some (m_materialBuffer (mat r))) then
    if SUCCEEDED hrMap then
      set_mat (fun m =>
        {| m_materialBuffer := Some (m_materials m);
           m_materialSRV := m_materialSRV m;
           m_materials := m_materials m |}) r
    else r
  else r.

(** Bits [lo .. lo+7] of the 32-bit pattern of an [int], and a channel
    value divided by 255. *)
Definition bits_from (lo : Z) (argb : Z) : Z := (argb / 2 ^ lo) mod 2 ^ 8.
Definition normalized (n : Z) : float := (F32.of_Z n / f255_0)%f32.

(** A process whose renderer was initialized at 800x600. *)
Definition initialized_process : Proc :=
  after (CTViewer.Initialize healthy true 800 600) start.
(** A process whose [Initialize] failed for want of a device. *)
Definition failed_process : Proc :=
  after (CTViewer.Initialize no_device true 800 600) start.

Definition red_green : list Z := [to_int 4294901760; to_int 4278255360].
                                 (* 0xFFFF0000, 0xFF00FF00 *)

(** *** How a member function treats the object and the world *)

(** The log only grows. *)
Definition extends (w w' : World) : Prop := exists new, logs w' = logs w ++ new.

(** On the renderer [r], [m] leaves the object as it is and either returns
    or raises; it never runs into undefined behaviour. *)
Definition steady (r : VolumeRenderer) (m : M Obj unit) : Prop :=
  forall w,
    (exists w', m {| this := r; o_world := w |} = Ret tt {| this := r; o_world := w' |}
                /\ extends w w') \/
    (exists ex w', m {| this := r; o_world := w |} = Throw ex {| this := r; o_world := w' |}
                   /\ extends w w').

(** On the renderer [r], [m] returns, leaving the object as it is. *)
Definition returns (r : VolumeRenderer) (m : M Obj unit) : Prop :=
  forall w,
    exists w', m {| this := r; o_world := w |} = Ret tt {| this := r; o_world := w' |}
               /\ extends w w'.

(** ... and has logged an error when it returns. *)
Definition reports (r : VolumeRenderer) (m : M Obj unit) : Prop :=
  forall w,
    exists w', m {| this := r; o_world := w |} = Ret tt {| this := r; o_world := w' |}
               /\ reported_error w w'.

Definition device_ready (r : VolumeRenderer) : Prop :=
  m_context (dev r) = true /\ m_device (dev r) = true /\ m_swapChain (dev r) = true.

(** The draw call raises [std::runtime_error("device removed")]; [Present]
    fails. *)
Definition draw_raises : RenderEnv :=
  {| throws := fun c => match c with
                        | DrawIndexed _ => Some (std_exception "device removed")
                        | _ => None
                        end;
     hrCreateBuffer_renderParams := S_OK;
     hrPresent := S_OK |}.
Definition present_fails : RenderEnv :=
  {| throws := no_throw; hrCreateBuffer_renderParams := S_OK; hrPresent := E_FAIL |}.

(** *** What [Initialize] needs from the driver *)

(** The device exists after the first attempt, or after the retry that only
    a debug build makes. *)
Definition device_created (e : InitEnv) : bool :=
  SUCCEEDED (hrCreateDeviceAndSwapChain e)
  || (debug_build e && SUCCEEDED (hrCreateDeviceAndSwapChain_retry e)).

Definition target_created (e : TargetEnv) : bool :=
  SUCCEEDED (hrGetBuffer e) && SUCCEEDED (hrCreateRenderTargetView e).

Definition depth_created (e : DepthEnv) : bool :=
  SUCCEEDED (hrCreateTexture2D e) && SUCCEEDED (hrCreateDepthStencilView e).

Definition shaders_created (e : InitEnv) : bool :=
  SUCCEEDED (hrCompileVertexShader e) && SUCCEEDED (hrCreateVertexShader e)
  && SUCCEEDED (hrCreateInputLayout e)
  && SUCCEEDED (hrCompilePixelShader e) && SUCCEEDED (hrCreatePixelShader e).

Definition buffers_created (e : InitEnv) : bool :=
  SUCCEEDED (hrCreateBuffer_constant e) && SUCCEEDED (hrCreateBuffer_material e)
  && SUCCEEDED (hrCreateSRV_material e).

Definition all_created (e : InitEnv) : bool :=
  device_created e && target_created (target_env e) && depth_created (depth_env e)
  && shaders_created e && buffers_created e
  && SUCCEEDED (hrCreateSamplerState e)
  && SUCCEEDED (hrCreateBuffer_vertex e) && SUCCEEDED (hrCreateBuffer_index e).

(** Every resource [Initialize] creates is there, for a [width] x [height]
    surface, and the material table has its 256 entries, mirrored on the
    GPU. *)
Definition fully_initialized (width height : Z) (r : VolumeRenderer) : Prop :=
  dev r = {| m_device := true; m_context := true; m_swapChain := true;
             m_renderTargetView := true;
             m_depthStencilView := Some (width, height) |} /\
  pipe r = {| m_vertexShader := true; m_pixelShader := true; m_inputLayout := true;
              m_vertexBuffer := true; m_indexBuffer := true;
              m_constantBuffer := true; m_volumeSampler := true |} /\
  m_materialSRV (mat r) = true /\
  m_materialBuffer (mat r) = Some (m_materials (mat r)) /\
  length (m_materials (mat r)) = 256%nat /\
  view r = {| m_width := width; m_height := height |}.

(** The members no device call touches. *)
Definition same_scene (r r' : VolumeRenderer) : Prop :=
  vol r' = vol r /\ cam r' = cam r /\ par r' = par r.

(** *** What [Shutdown] and [Resize] leave *)

(** The renderer once [Shutdown] has reset its pointers. *)
Definition released (r : VolumeRenderer) : VolumeRenderer :=
  {| dev := null_device;
     pipe := null_pipeline;
     mat := {| m_materialBuffer := None; m_materialSRV := m_materialSRV (mat r);
               m_materials := m_materials (mat r) |};
     volres := {| m_volumeTexture := None; m_volumeSRV := None;
                  m_labelTexture := None; m_labelSRV := None |};
     vol := vol r; view := view r; cam := cam r; par := par r |}.

(** Every step of a [Resize] succeeds. *)
Definition resized (e : ResizeEnv) : bool :=
  SUCCEEDED (hrResizeBuffers e) && target_created (resize_target_env e)
  && depth_created (resize_depth_env e).

(** [Resize] refuses these before touching anything. *)
Definition resize_refused (width height : Z) (r : VolumeRenderer) : Prop :=
  width <= 0 \/ height <= 0 \/ m_device (dev r) = false \/ m_swapChain (dev r) = false.

(** The calls issued between [w] and [w']. *)
Definition issued (w w' : World) (calls : list GpuCall) : Prop :=
  gpu w' = gpu w ++ calls.

(** A shader fails to compile (its file is missing); all else succeeds. *)
Definition no_shader : InitEnv :=
  {| debug_build := false;
     indeterminate := any_dims;
     hrCreateDeviceAndSwapChain := S_OK;
     hrCreateDeviceAndSwapChain_retry := S_OK;
     target_env := target_env healthy;
     depth_env := depth_env healthy;
     hrCompileVertexShader := E_FAIL;
     hrCreateVertexShader := S_OK;
     hrCreateInputLayout := S_OK;
     hrCompilePixelShader := S_OK;
     hrCreatePixelShader := S_OK;
     errorBlob := true;
     hrCreateBuffer_constant := S_OK;
     hrCreateBuffer_material := S_OK;
     hrCreateSRV_material := S_OK;
     hrCreateSamplerState := S_OK;
     hrCreateBuffer_vertex := S_OK;
     hrCreateBuffer_index := S_OK |}.

Definition resize_ok : ResizeEnv :=
  {| hrResizeBuffers := S_OK;
     resize_target_env := target_env healthy;
     resize_depth_env := depth_env healthy |}.
Definition resize_buffers_fail : ResizeEnv :=
  {| hrResizeBuffers := E_FAIL;
     resize_target_env := target_env healthy;
     resize_depth_env := depth_env healthy |}.

(** *** Reading the trace of a frame *)

Definition is_draw (c : GpuCall) : bool :=
  match c with DrawIndexed _ => true | _ => false end.
Definition is_present (c : GpuCall) : bool :=
  match c with Present _ => true | _ => false end.
(** [c] binds a shader resource view to pixel-shader slot [slot]. *)
Definition binds_texture (slot : Z) (c : GpuCall) : bool :=
  match c with PSSetShaderResources s => s =? slot | _ => false end.
Definition binds_sampler (c : GpuCall) : bool :=
  match c with PSSetSamplers _ => true | _ => false end.

Fixpoint count_calls (f : GpuCall -> bool) (calls : list GpuCall) : nat :=
  match calls with
  | [] => 0
  | c :: calls' => (if f c then 1 else 0) + count_calls f calls'
  end.

(** [m], run on renderer [r], returns normally, keeps [r] and issues exactly
    [calls] on the device. *)
Definition emits (r : VolumeRenderer) (m : M Obj unit) (calls : list GpuCall) : Prop :=
  forall w, exists w',
    m {| this := r; o_world := w |} = Ret tt {| this := r; o_world := w' |} /\
    issued w w' calls.

(** *** What a call leaves alone *)

Definition others_kept (r r' : VolumeRenderer) : Prop :=
  pipe r' = pipe r /\ mat r' = mat r /\ volres r' = volres r /\ same_scene r r'.

Definition devices_kept (r r' : VolumeRenderer) : Prop :=
  dev r' = dev r /\ pipe r' = pipe r /\ mat r' = mat r /\ volres r' = volres r /\
  view r' = view r.

Definition rest_kept (r r' : VolumeRenderer) : Prop :=
  dev r' = dev r /\ pipe r' = pipe r /\ mat r' = mat r /\ view r' = view r /\
  cam r' = cam r /\ par r' = par r.

(** [UpdateMaterials] copies the table to the GPU under these conditions. *)
Definition can_upload (hrMap : HRESULT) (r : VolumeRenderer) : bool :=
  m_context (dev r) && bool_decide (is_Some (m_materialBuffer (mat r))) && SUCCEEDED hrMap.

(** *** Sequences of calls of the exported functions *)

Inductive ApiCall : Type :=
| call_Initialize (e : InitEnv) (hwnd : bool) (width height : Z)
| call_Shutdown
| call_Render (e : RenderEnv)
| call_LoadVolumeData (e : TexEnv) (data : bytes_ptr) (width height depth : Z)
                      (voxelSize : float)
| call_LoadLabelData (e : TexEnv) (data : bytes_ptr) (width height depth : Z)
| call_UpdateMaterials (hrMap : HRESULT) (colors : ints_ptr) (count : Z)
| call_Resize (e : ResizeEnv) (width height : Z)
| call_RotateCamera (deltaX deltaY : float)
| call_ZoomCamera (delta : float)
| call_ResetCamera
| call_SetRenderingParams (opacity brightness contrast : float) (renderMode : Z)
                          (showLabels : bool).

(** One call; the caller drops the [bool] some of them return. *)
Definition api_call (lm : Libm) (c : ApiCall) : M Proc unit :=
  match c with
  | call_Initialize e hwnd width height =>
    CTViewer.Initialize e hwnd width height ≫= fun _ => mret tt
  | call_Shutdown => CTViewer.Shutdown
  | call_Render e => CTViewer.Render e
  | call_LoadVolumeData e data width height depth voxelSize =>
    CTViewer.LoadVolumeData e data width height depth voxelSize ≫= fun _ => mret tt
  | call_LoadLabelData e data width height depth =>
    CTViewer.LoadLabelData e data width height depth ≫= fun _ => mret tt
  | call_UpdateMaterials hrMap colors count => CTViewer.UpdateMaterials hrMap colors count
  | call_Resize e width height => CTViewer.Resize e width height
  | call_RotateCamera deltaX deltaY => CTViewer.RotateCamera lm deltaX deltaY
  | call_ZoomCamera delta => CTViewer.ZoomCamera lm delta
  | call_ResetCamera => CTViewer.ResetCamera
  | call_SetRenderingParams opacity brightness contrast renderMode showLabels =>
    CTViewer.SetRenderingParams opacity brightness contrast renderMode showLabels
  end.

Fixpoint api_calls (lm : Libm) (cs : list ApiCall) : M Proc unit :=
  match cs with
  | [] => mret tt
  | c :: cs' => api_call lm c;; api_calls lm cs'
  end.

Definition INT_MAX : Z := 2 ^ 31 - 1.

(** What creating a texture described by [v] asks of the caller's array:
    [m_volumeWidth * m_volumeHeight] is computed in [int], and the driver is
    handed a pointer from which it reads one byte for each of the
    Width x Height x Depth texels (the format is [DXGI_FORMAT_R8_UNORM]). *)
Definition covers (v : VolumeProps) (bytes : list Byte.byte) : bool :=
  (m_volumeWidth v * m_volumeHeight v <=? INT_MAX)
  && (m_volumeWidth v * m_volumeHeight v * m_volumeDepth v <=? Z.of_nat (length bytes)).

(** What the caller owes at a call made in state [p]: an [Initialize] whose
    arguments are accepted finds every resource it creates; the array handed
    to [UpdateMaterials] holds the entries that are read; and when
    [LoadVolumeData] or [LoadLabelData] gets as far as creating its texture,
    the array covers that texture: for [LoadVolumeData] the texture has the
    dimensions passed, for [LoadLabelData] the dimensions stored in the
    renderer. *)
Definition well_behaved (p : Proc) (c : ApiCall) : Prop :=
  match c with
  | call_Initialize e hwnd width height =>
    hwnd = true -> 0 < width -> 0 < height -> all_created e = true
  | call_UpdateMaterials _ (Some cs) count =>
    0 < count -> (Z.to_nat (clamp_count count) <= length cs)%nat
  | call_LoadVolumeData _ (Some bytes) width height depth voxelSize =>
    match g_renderer p with
    | Some r =>
      m_device (dev r) = true -> 0 < width -> 0 < height -> 0 < depth ->
      covers (stored width height depth voxelSize) bytes = true
    | None => True
    end
  | call_LoadLabelData _ (Some bytes) width height depth =>
    match g_renderer p with
    | Some r =>
      m_device (dev r) = true -> 0 < width -> 0 < height -> 0 < depth ->
      non_positive_dims (vol r) = false ->
      covers (vol r) bytes = true
    | None => True
    end
  | _ => True
  end.

(** A texture or view the renderer holds was created from an array that
    covers it, with the pitches of its dimensions. *)
Definition backed (t : option Texture3D) : Prop :=
  match t with
  | None => True
  | Some tex =>
    Width tex * Height tex * Depth tex <= Z.of_nat (length (pSysMem tex)) /\
    SysMemPitch tex = Width tex /\
    SysMemSlicePitch tex = Width tex * Height tex
  end.

(** The device, its context and the swap chain are there together, the
    material table has its 256 entries (the size of the GPU buffer it is
    copied to), and the textures and views are backed by their arrays. *)
Definition coherent (r : VolumeRenderer) : Prop :=
  length (m_materials (mat r)) = 256%nat /\
  m_context (dev r) = m_device (dev r) /\
  m_swapChain (dev r) = m_device (dev r) /\
  backed (m_volumeTexture (volres r)) /\ backed (m_volumeSRV (volres r)) /\
  backed (m_labelTexture (volres r)) /\ backed (m_labelSRV (volres r)).

Definition sound (p : Proc) : Prop :=
  match g_renderer p with
  | None => True
  | Some r => coherent r
  end.

(** [m] returns normally from every sound state, into a sound state. *)
Definition keeps_sound {A} (m : M Proc A) : Prop :=
  forall p, sound p -> exists a p', m p = Ret a p' /\ sound p'.

(** No call raises and [Present] succeeds. *)
Definition frame_ok : RenderEnv :=
  {| throws := no_throw; hrCreateBuffer_renderParams := S_OK; hrPresent := S_OK |}.

(** The calls [cs], made one after the other from state [p], are each well
    behaved in the state they are made in. *)
Fixpoint obeys (lm : Libm) (cs : list ApiCall) (p : Proc) : Prop :=
  match cs with
  | [] => True
  | c :: cs' =>
    well_behaved p c /\
    match api_call lm c p with
    | Ret _ p' => obeys lm cs' p'
    | _ => True
    end
  end.

(** A session of the viewer: start up, a load that fails and one that
    succeeds, labels for it, two materials, a turn of the camera, a frame
    during which the device is lost, a resize that fails, another frame,
    shut down, and a late frame. *)
Definition session : list ApiCall :=
  [ call_Initialize healthy true 800 600;
    call_LoadVolumeData texture_fails (Some voxels_8) 2 2 2 f1_0;
    call_LoadVolumeData textures_ok (Some voxels_64) 4 4 4 f1_0;
    call_LoadLabelData textures_ok (Some voxels_64) 4 4 4;
    call_UpdateMaterials S_OK (Some red_green) 2;
    call_RotateCamera f1_0 f0_0;
    call_Render draw_raises;
    call_Resize resize_buffers_fail 1024 768;
    call_Render frame_ok;
    call_Shutdown;
    call_Render frame_ok ].

(** What [UpdateConstantBuffers] uploads from renderer [r]: the camera with
    the aspect ratio of the stored size, and the rendering parameters. *)
Definition transform_upload (r : VolumeRenderer) : GpuCall :=
  UpdateSubresource_transform (m_cameraPosition (cam r)) (m_focusPoint (cam r))
    (m_upVector (cam r))
    (F32.of_Z (m_width (view r)) / F32.of_Z (m_height (view r)))%f32.
Definition params_upload (r : VolumeRenderer) : GpuCall :=
  UpdateSubresource_renderParams
    {| opacity := m_opacity (par r);
       brightness := m_brightness (par r);
       contrast := m_contrast (par r);
       renderMode := m_renderMode (par r);
       volumeScale := Float4.mk f1_0 f1_0 f1_0 f1_0;
       showLabels := if m_showLabels (par r) then 1 else 0 |}.

(* ================================================================== *)
(** * Properties *)
(* ================================================================== *)

(** ** binary32: comparisons, the clamp idiom, absence of NaN *)

Section Float_facts.

Implicit Types a b lo hi v : float.

Lemma SFcompare_antisym a b c :
  SFcompare a b = Some c -> SFcompare b a = Some (CompOpp c).
Proof.
  destruct a as [sa|sa| |sa ma ea], b as [sb|sb| |sb mb eb]; simpl;
    try discriminate; intros [= <-];
    try (destruct sa; try destruct sb; reflexivity);
    try (destruct sb; reflexivity).
  destruct sa, sb; try reflexivity.
  - rewrite (Z.compare_antisym ea eb).
    destruct (ea ?= eb) eqn:E; simpl; try reflexivity.
    do 2 f_equal. symmetry. exact (Pos.compare_cont_antisym ma mb Eq).
  - rewrite (Z.compare_antisym ea eb).
    destruct (ea ?= eb) eqn:E; simpl; try reflexivity.
    f_equal. symmetry. exact (Pos.compare_cont_antisym ma mb Eq).
Qed.

Lemma SFcompare_refl a : F32.is_nan a = false -> SFcompare a a = Some Eq.
Proof.
  destruct a as [s|s| |s m e]; simpl; try discriminate; intros _.
  - reflexivity.
  - now destruct s.
  - rewrite Z.compare_refl. pose proof (Pos.compare_cont_refl m Eq) as R.
    change (PosDef.Pos.compare_cont Eq m m) with (Pos.compare_cont Eq m m).
    rewrite R. now destruct s.
Qed.

Lemma SFcompare_total a b :
  F32.is_nan a = false -> F32.is_nan b = false -> exists c, SFcompare a b = Some c.
Proof. destruct a, b; simpl; try discriminate; eauto. Qed.

Lemma leb_of_not_ltb a b :
  F32.is_nan a = false -> F32.is_nan b = false ->
  F32.ltb a b = false -> F32.leb b a = true.
Proof.
  intros Ha Hb. destruct (SFcompare_total a b Ha Hb) as [c Hc].
  unfold F32.ltb, F32.leb, SFltb, SFleb.
  rewrite Hc, (SFcompare_antisym _ _ _ Hc). now destruct c.
Qed.

Lemma not_ltb_of_leb a b : F32.leb a b = true -> F32.ltb b a = false.
Proof.
  unfold F32.ltb, F32.leb, SFltb, SFleb.
  destruct (SFcompare a b) as [c|] eqn:Hc; [|discriminate].
  rewrite (SFcompare_antisym _ _ _ Hc). now destruct c.
Qed.

Lemma leb_not_nan a b :
  F32.leb a b = true -> F32.is_nan a = false /\ F32.is_nan b = false.
Proof. destruct a, b; simpl; try discriminate; auto. Qed.

Lemma leb_refl a : F32.is_nan a = false -> F32.leb a a = true.
Proof. intros H. unfold F32.leb, SFleb. now rewrite SFcompare_refl. Qed.

Lemma within_finite lo hi v :
  F32.is_finite lo = true -> F32.is_finite hi = true ->
  within lo hi v -> F32.is_finite v = true.
Proof.
  intros Hlo Hhi [H1 H2].
  destruct v as [s|s| |s m e]; try reflexivity.
  - destruct s.
    + destruct lo; try discriminate; simpl in H1; discriminate.
    + destruct hi; try discriminate; simpl in H2; discriminate.
  - destruct lo; discriminate.
Qed.

Lemma nan_not_within lo hi : ~ within lo hi F32.nan.
Proof. intros [_ H]. destruct hi; discriminate. Qed.

(** [max(lo, min(hi, v))] lands in [[lo, hi]] unless [v] is NaN ... *)
Lemma clamp_within lo hi v :
  F32.leb lo hi = true -> F32.is_nan v = false ->
  within lo hi (fmax lo (fmin hi v)).
Proof.
  intros Hlh Hv. destruct (leb_not_nan _ _ Hlh) as [Hlo Hhi].
  pose proof (not_ltb_of_leb _ _ Hlh) as N.
  unfold fmax, fmin, F32.gtb.
  destruct (F32.ltb hi v) eqn:E1.
  - rewrite N. split; [exact Hlh | now apply leb_refl].
  - destruct (F32.ltb v lo) eqn:E2.
    + split; [now apply leb_refl | exact Hlh].
    + split; now apply leb_of_not_ltb.
Qed.

(** ... and then it is NaN: both comparisons of the macros are false. *)
Lemma clamp_nan lo hi : fmax lo (fmin hi F32.nan) = F32.nan.
Proof.
  unfold fmax, fmin, F32.gtb, F32.ltb, SFltb.
  destruct hi, lo; reflexivity.
Qed.

(** A clamped value is a fixed point of the clamp. *)
Lemma clamp_idempotent lo hi v :
  F32.leb lo hi = true ->
  fmax lo (fmin hi (fmax lo (fmin hi v))) = fmax lo (fmin hi v).
Proof.
  intros Hlh. destruct (leb_not_nan _ _ Hlh) as [Hlo Hhi].
  pose proof (not_ltb_of_leb _ _ Hlh) as N.
  assert (Rlo : F32.ltb lo lo = false) by (apply not_ltb_of_leb, leb_refl, Hlo).
  assert (Rhi : F32.ltb hi hi = false) by (apply not_ltb_of_leb, leb_refl, Hhi).
  unfold fmax, fmin, F32.gtb.
  destruct (F32.ltb hi v) eqn:E1.
  - rewrite N, Rhi, N. reflexivity.
  - destruct (F32.ltb v lo) eqn:E2.
    + rewrite N, Rlo. reflexivity.
    + now rewrite E1, E2.
Qed.

(** Rounding never produces NaN. *)
Lemma shr_1_nonneg mrs : 0 <= shr_m mrs -> 0 <= shr_m (shr_1 mrs).
Proof.
  destruct mrs as [m r s]; simpl. destruct m as [|p|p]; simpl; intros H; try lia.
  destruct p; simpl; lia.
Qed.

Lemma iter_shr_1_nonneg p :
  forall mrs, 0 <= shr_m mrs -> 0 <= shr_m (SpecFloat.iter_pos shr_1 p mrs).
Proof.
  induction p as [p IH|p IH|]; simpl; intros mrs H.
  - apply IH, IH, shr_1_nonneg, H.
  - apply IH, IH, H.
  - apply shr_1_nonneg, H.
Qed.

Lemma shr_fexp_nonneg m e l :
  0 <= m -> 0 <= shr_m (fst (shr_fexp F32.prec F32.emax m e l)).
Proof.
  intros H. unfold shr_fexp, shr.
  assert (H0 : 0 <= shr_m (shr_record_of_loc m l)) by (destruct l as [|[]]; exact H).
  destruct (fexp F32.prec F32.emax (Zdigits2 m + e) - e); simpl; auto.
  now apply iter_shr_1_nonneg.
Qed.

Lemma round_nearest_even_nonneg m l : 0 <= m -> 0 <= round_nearest_even m l.
Proof.
  intros H. destruct l as [|[]]; simpl; try lia.
  destruct (Z.even m); lia.
Qed.

Lemma binary_round_aux_not_nan s m e l :
  0 <= m -> F32.is_nan (binary_round_aux F32.prec F32.emax s m e l) = false.
Proof.
  intros H. unfold binary_round_aux.
  pose proof (shr_fexp_nonneg m e l H) as H1.
  destruct (shr_fexp F32.prec F32.emax m e l) as [mrs' e'] eqn:E1. simpl in H1.
  pose proof (shr_fexp_nonneg _ e' loc_Exact
                (round_nearest_even_nonneg _ (loc_of_shr_record mrs') H1)) as H2.
  destruct (shr_fexp F32.prec F32.emax _ e' loc_Exact) as [mrs'' e''] eqn:E2.
  simpl in H2.
  destruct (shr_m mrs'') as [|p|p]; try reflexivity.
  - now destruct (e'' <=? F32.emax - F32.prec).
  - lia.
Qed.

Lemma binary_normalize_not_nan m e s :
  F32.is_nan (binary_normalize F32.prec F32.emax m e s) = false.
Proof.
  destruct m as [|p|p]; simpl; try reflexivity; unfold binary_round;
    destruct (shl_align _ _ _) as [mz ez]; now apply binary_round_aux_not_nan.
Qed.

Lemma add_not_nan a b :
  F32.is_finite a = true -> F32.is_nan b = false -> F32.is_nan (a + b)%f32 = false.
Proof.
  destruct a as [sa|sa| |sa ma ea]; try discriminate; intros _;
    destruct b as [sb|sb| |sb mb eb]; try discriminate; intros _;
    try reflexivity.
  - now destruct sa, sb.
  - apply binary_normalize_not_nan.
Qed.

Lemma sub_not_nan a b :
  F32.is_finite a = true -> F32.is_nan b = false -> F32.is_nan (a - b)%f32 = false.
Proof.
  destruct a as [sa|sa| |sa ma ea]; try discriminate; intros _;
    destruct b as [sb|sb| |sb mb eb]; try discriminate; intros _;
    try reflexivity.
  - now destruct sa, sb.
  - apply binary_normalize_not_nan.
Qed.

Lemma sub_nan_r a : (a - F32.nan)%f32 = F32.nan.
Proof. now destruct a. Qed.

Lemma sub_nan_l b : (F32.nan - b)%f32 = F32.nan.
Proof. reflexivity. Qed.

(** Adding [+0] a second time changes nothing. *)
Lemma add_zero_twice a :
  ((a + F32.of_Z 0) + F32.of_Z 0 = a + F32.of_Z 0)%f32.
Proof. destruct a as [[]|[]| |s m e]; reflexivity. Qed.

End Float_facts.

Lemma phi_bounds_ordered : F32.leb phi_min phi_max = true.
Proof. vm_compute. reflexivity. Qed.
Lemma radius_bounds_ordered : F32.leb radius_min radius_max = true.
Proof. vm_compute. reflexivity. Qed.
Lemma phi_min_finite : F32.is_finite phi_min = true.
Proof. vm_compute. reflexivity. Qed.
Lemma phi_max_finite : F32.is_finite phi_max = true.
Proof. vm_compute. reflexivity. Qed.
Lemma radius_min_finite : F32.is_finite radius_min = true.
Proof. vm_compute. reflexivity. Qed.
Lemma radius_max_finite : F32.is_finite radius_max = true.
Proof. vm_compute. reflexivity. Qed.

(** The literals are the binary32 numbers one expects. *)
Lemma literals_bits :
  XM_PIDIV2 = S754_finite false 13176795 (-23) /\      (* 0x3FC90FDB *)
  f0_1 = S754_finite false 13421773 (-27) /\           (* 0x3DCCCCCD *)
  f0_5 = S754_finite false 8388608 (-24) /\
  f2_0 = S754_finite false 8388608 (-22) /\
  f10_0 = S754_finite false 10485760 (-20) /\
  phi_max = S754_finite false 12337934 (-23) /\
  phi_min = S754_finite true 12337934 (-23).
Proof. vm_compute. repeat split. Qed.

(** ** The monad *)

Lemma bind_Ret {S A B} (m : M S A) (k : A -> M S B) s a s' :
  m s = Ret a s' -> (m ≫= k) s = k a s'.
Proof. intros H. unfold mbind, M_bind, bind. now rewrite H. Qed.

Lemma bind_Throw {S A B} (m : M S A) (k : A -> M S B) s e s' :
  m s = Throw e s' -> (m ≫= k) s = Throw e s'.
Proof. intros H. unfold mbind, M_bind, bind. now rewrite H. Qed.

Lemma bind_Undefined {S A B} (m : M S A) (k : A -> M S B) s :
  m s = Undefined -> (m ≫= k) s = Undefined.
Proof. intros H. unfold mbind, M_bind, bind. now rewrite H. Qed.

(** ** Camera *)

Section Camera_facts.

Variable lm : Libm.

Lemma RotateCamera_returns dx dy o :
  exists w', RotateCamera lm dx dy o =
             Ret tt {| this := set_cam (rotate_camera lm dx dy) (this o);
                       o_world := w' |}.
Proof. eexists. reflexivity. Qed.

Lemma ZoomCamera_returns d o :
  exists w', ZoomCamera lm d o =
             Ret tt {| this := set_cam (rotate_camera lm (F32.of_Z 0) (F32.of_Z 0))
                                 (set_cam (zoom_radius d) (this o));
                       o_world := w' |}.
Proof. eexists. reflexivity. Qed.

Lemma ResetCamera_returns o :
  exists w', ResetCamera o =
             Ret tt {| this := set_cam (fun _ => default_camera) (this o);
                       o_world := w' |}.
Proof. eexists. reflexivity. Qed.

Lemma camera_call_returns c o : exists o', camera_call lm c o = Ret tt o'.
Proof.
  destruct c as [dx dy|d]; simpl.
  - destruct (RotateCamera_returns dx dy o) as [w' ->]. eauto.
  - destruct (ZoomCamera_returns d o) as [w' ->]. eauto.
Qed.

Lemma camera_calls_returns cs : forall o, exists o', camera_calls lm cs o = Ret tt o'.
Proof.
  induction cs as [|c cs IH]; intros o; simpl.
  - eexists; reflexivity.
  - destruct (camera_call_returns c o) as [o1 H1].
    destruct (IH o1) as [o2 H2]. exists o2.
    now rewrite (bind_Ret _ _ _ _ _ H1).
Qed.

(** After [RotateCamera] the cached position is the orbit formula at the
    stored angles and radius. *)
Lemma rotate_camera_position dx dy c :
  let c' := rotate_camera lm dx dy c in
  m_cameraPosition c' =
  orbit_position lm (m_focusPoint c') (m_cameraTheta c') (m_cameraPhi c')
                 (m_cameraRadius c').
Proof. reflexivity. Qed.

Lemma rotate_camera_phi_within dx dy c :
  within phi_min phi_max (m_cameraPhi c) -> F32.is_nan dy = false ->
  within phi_min phi_max (m_cameraPhi (rotate_camera lm dx dy c)).
Proof.
  intros Hphi Hdy. simpl.
  apply clamp_within; [exact phi_bounds_ordered|].
  apply add_not_nan; [|exact Hdy].
  exact (within_finite _ _ _ phi_min_finite phi_max_finite Hphi).
Qed.

Lemma zoom_radius_within d c :
  within radius_min radius_max (m_cameraRadius c) -> F32.is_nan d = false ->
  within radius_min radius_max (m_cameraRadius (zoom_radius d c)).
Proof.
  intros Hr Hd. simpl.
  apply clamp_within; [exact radius_bounds_ordered|].
  apply sub_not_nan; [|exact Hd].
  exact (within_finite _ _ _ radius_min_finite radius_max_finite Hr).
Qed.

Lemma camera_call_phi_within c o o' :
  deltaY_not_nan c ->
  within phi_min phi_max (m_cameraPhi (cam (this o))) ->
  camera_call lm c o = Ret tt o' ->
  within phi_min phi_max (m_cameraPhi (cam (this o'))).
Proof.
  intros Hc Hphi. destruct c as [dx dy|d]; simpl.
  - destruct (RotateCamera_returns dx dy o) as [w' ->]. intros [= <-].
    cbn [this cam set_cam]. now apply rotate_camera_phi_within.
  - destruct (ZoomCamera_returns d o) as [w' ->]. intros [= <-].
    cbn [this cam set_cam].
    apply rotate_camera_phi_within; [exact Hphi | reflexivity].
Qed.

Lemma camera_call_radius_within c o o' :
  delta_not_nan c ->
  within radius_min radius_max (m_cameraRadius (cam (this o))) ->
  camera_call lm c o = Ret tt o' ->
  within radius_min radius_max (m_cameraRadius (cam (this o'))).
Proof.
  intros Hc Hr. destruct c as [dx dy|d]; simpl.
  - destruct (RotateCamera_returns dx dy o) as [w' ->]. intros [= <-]. exact Hr.
  - destruct (ZoomCamera_returns d o) as [w' ->]. intros [= <-].
    cbn [this cam set_cam].
    change (m_cameraRadius (rotate_camera lm (F32.of_Z 0) (F32.of_Z 0)
                              (zoom_radius d (cam (this o)))))
      with (m_cameraRadius (zoom_radius d (cam (this o)))).
    now apply zoom_radius_within.
Qed.

(** [RotateCamera(0, 0)] twice is [RotateCamera(0, 0)] once. *)
Lemma rotate_camera_zero_idempotent c :
  rotate_camera lm (F32.of_Z 0) (F32.of_Z 0)
    (rotate_camera lm (F32.of_Z 0) (F32.of_Z 0) c)
  = rotate_camera lm (F32.of_Z 0) (F32.of_Z 0) c.
Proof.
  unfold rotate_camera; cbn [m_cameraTheta m_cameraPhi m_cameraRadius m_focusPoint
                             m_upVector m_cameraPosition].
  rewrite add_zero_twice.
  set (p := fmax phi_min (fmin phi_max (m_cameraPhi c + F32.of_Z 0)%f32)).
  assert (Hp : fmax phi_min (fmin phi_max (p + F32.of_Z 0)%f32) = p).
  { assert (Hz : (p + F32.of_Z 0)%f32 = p).
    { subst p. unfold fmax, fmin.
      destruct (F32.ltb phi_max _) eqn:E1.
      - destruct (F32.gtb phi_min phi_max); reflexivity.
      - destruct (F32.gtb phi_min _) eqn:E2; [reflexivity|].
        apply add_zero_twice. }
    rewrite Hz. subst p. apply clamp_idempotent, phi_bounds_ordered. }
  rewrite Hp. reflexivity.
Qed.

End Camera_facts.

(** A renderer as the constructor leaves it, for the concrete runs. *)
Lemma poly_libm_exact_at_zero : libm_exact_at_zero poly_libm.
Proof. split; vm_compute; reflexivity. Qed.

(** C9: [ResetCamera], called after any sequence of [RotateCamera] and
    [ZoomCamera] calls, returns and leaves theta = 0, phi = 0, radius = 2.0 and
    position = (0, 0, -2): the very literals, whatever the calls before. *)
Theorem ResetCamera_restores_defaults (lm : Libm) (cs : list CameraCall) (o : Obj) :
  exists o' o'',
    camera_calls lm cs o = Ret tt o' /\ ResetCamera o' = Ret tt o'' /\
    m_cameraTheta (cam (this o'')) = f0_0 /\
    m_cameraPhi (cam (this o'')) = f0_0 /\
    m_cameraRadius (cam (this o'')) = f2_0 /\
    m_cameraPosition (cam (this o'')) = Float3.mk f0_0 f0_0 (- f2_0)%f32.
Proof.
  destruct (camera_calls_returns lm cs o) as [o' H'].
  destruct (ResetCamera_returns o') as [w'' H''].
  exists o'. eexists. split; [exact H'|]. split; [exact H''|].
  simpl. repeat split.
Qed.

(** C2 (as amended): over any sequence of [RotateCamera] calls (interleaved
    with [ZoomCamera] calls or not) whose deltaY arguments are not NaN, phi
    stays in the closed interval [[-XM_PIDIV2 + 0.1f, XM_PIDIV2 - 0.1f]]. *)
Theorem rotate_keeps_phi_within (lm : Libm) (cs : list CameraCall) : forall o : Obj,
  within phi_min phi_max (m_cameraPhi (cam (this o))) ->
  Forall deltaY_not_nan cs ->
  exists o', camera_calls lm cs o = Ret tt o' /\
             within phi_min phi_max (m_cameraPhi (cam (this o'))).
Proof.
  induction cs as [|c cs IH]; intros o Hphi Hcs; simpl.
  - eexists; split; [reflexivity | exact Hphi].
  - apply Forall_cons in Hcs as [Hc Hcs].
    destruct (camera_call_returns lm c o) as [o1 H1].
    destruct (IH o1 (camera_call_phi_within lm _ _ _ Hc Hphi H1) Hcs) as [o2 [H2 P2]].
    exists o2. split; [|exact P2].
    now rewrite (bind_Ret _ _ _ _ _ H1).
Qed.

Lemma rotate_keeps_phi_within_witness :
  exists o',
    camera_calls poly_libm
      [Rotate f1_0 f10_0; Zoom f1_0; Rotate f0_0 (- f10_0 - f10_0)%f32]
      new_object
    = Ret tt o' /\
    within phi_min phi_max (m_cameraPhi (cam (this o'))).
Proof.
  apply rotate_keeps_phi_within.
  - split; vm_compute; reflexivity.
  - repeat constructor.
Defined.

(** C2 (as stated) fails: one [RotateCamera(0, 10)] on a new renderer puts
    phi on the upper bound itself, which is not strictly inside the interval
    (phi does not depend on the sine and cosine in use). *)
Lemma rotate_phi_reaches_bound :
  exists o',
    camera_calls poly_libm [Rotate f0_0 f10_0] new_object
    = Ret tt o' /\
    m_cameraPhi (cam (this o')) = phi_max /\
    ~ strictly_within phi_min phi_max (m_cameraPhi (cam (this o'))).
Proof.
  eexists. split; [reflexivity|]. split.
  - vm_compute. reflexivity.
  - intros [_ H]. vm_compute in H. discriminate.
Qed.

(** C6 (the input on which the code departs from it): [ZoomCamera] with a NaN
    delta, in any state, returns with a NaN radius, outside [[0.5, 10]]; the
    two comparisons of [max(0.5f, min(10.0f, r))] are false on NaN.  Every
    later [ZoomCamera] leaves it NaN. *)
Theorem zoom_nan_escapes_clamp (lm : Libm) (o : Obj) (d : float) :
  exists o' o'',
    ZoomCamera lm F32.nan o = Ret tt o' /\
    m_cameraRadius (cam (this o')) = F32.nan /\
    ~ within radius_min radius_max (m_cameraRadius (cam (this o'))) /\
    ZoomCamera lm d o' = Ret tt o'' /\
    m_cameraRadius (cam (this o'')) = F32.nan.
Proof.
  destruct (ZoomCamera_returns lm F32.nan o) as [w' H'].
  set (o1 := {| this := set_cam (rotate_camera lm (F32.of_Z 0) (F32.of_Z 0))
                          (set_cam (zoom_radius F32.nan) (this o));
                o_world := w' |}) in H'.
  destruct (ZoomCamera_returns lm d o1) as [w'' H''].
  assert (R : m_cameraRadius (cam (this o1)) = F32.nan).
  { cbn. rewrite sub_nan_r. apply clamp_nan. }
  exists o1. eexists. split; [exact H'|]. split; [exact R|]. split.
  - rewrite R. apply nan_not_within.
  - split; [exact H''|].
    cbn [this cam set_cam rotate_camera zoom_radius m_cameraRadius].
    cbn [this cam set_cam rotate_camera zoom_radius m_cameraRadius] in R.
    rewrite R. apply clamp_nan.
Qed.

(** C8 (the input on which the code departs from it): on a renderer as
    constructed, whose cached position is (0, 0, -2), [RotateCamera(0, 0)]
    stores the position the orbit formula gives for theta = 0, phi = 0,
    radius = 2, which is (0, 0, +2). *)
Theorem rotate_zero_moves_new_camera (lm : Libm) (i : ViewportDims) (w : World) :
  libm_exact_at_zero lm ->
  exists o',
    RotateCamera lm (F32.of_Z 0) (F32.of_Z 0) {| this := constructed i; o_world := w |}
    = Ret tt o' /\
    m_cameraPosition (cam (constructed i)) = Float3.mk f0_0 f0_0 (- f2_0)%f32 /\
    m_cameraPosition (cam (this o')) = Float3.mk f0_0 f0_0 f2_0 /\
    m_cameraPosition (cam (this o')) <> m_cameraPosition (cam (constructed i)).
Proof.
  intros [Hsin Hcos].
  destruct (RotateCamera_returns lm (F32.of_Z 0) (F32.of_Z 0)
              {| this := constructed i; o_world := w |}) as [w' H'].
  eexists. split; [exact H'|]. split; [reflexivity|].
  assert (P : m_cameraPosition
                (rotate_camera lm (F32.of_Z 0) (F32.of_Z 0) default_camera)
              = Float3.mk f0_0 f0_0 f2_0).
  { unfold rotate_camera.
    change (m_cameraTheta default_camera + F32.of_Z 0)%f32 with f0_0.
    change (fmax phi_min (fmin phi_max (m_cameraPhi default_camera + F32.of_Z 0)%f32))
      with f0_0.
    cbn [m_cameraPosition]. rewrite Hsin, Hcos. vm_compute. reflexivity. }
  split; [exact P|].
  cbn [this cam set_cam constructed]. rewrite P. vm_compute. discriminate.
Qed.

Lemma rotate_zero_moves_new_camera_witness :
  exists o',
    RotateCamera poly_libm (F32.of_Z 0) (F32.of_Z 0)
      {| this := constructed any_dims; o_world := quiet |}
    = Ret tt o' /\
    m_cameraPosition (cam (constructed any_dims)) = Float3.mk f0_0 f0_0 (- f2_0)%f32 /\
    m_cameraPosition (cam (this o')) = Float3.mk f0_0 f0_0 f2_0 /\
    m_cameraPosition (cam (this o')) <> m_cameraPosition (cam (constructed any_dims)).
Proof.
  apply rotate_zero_moves_new_camera. split; vm_compute; reflexivity.
Defined.

(** ** Volume and label textures *)

(** Symbolic evaluation of the monadic code on a state given by a
    constructor. *)
Ltac run :=
  cbv [mbind M_bind bind mret M_ret ret Log modify update self undefined
       with_world world_of Obj_world Proc_world];
  cbn [this o_world g_renderer g_world dev pipe mat volres vol view cam par
       set_dev set_pipe set_mat set_volres set_vol set_view set_cam set_par
       logs gpu negb].

Lemma positive_dims w h d :
  0 < w -> 0 < h -> 0 < d -> (w <=? 0) || (h <=? 0) || (d <=? 0) = false.
Proof.
  intros. destruct (Z.leb_spec w 0), (Z.leb_spec h 0), (Z.leb_spec d 0);
    simpl; lia || reflexivity.
Qed.

Lemma non_positive_dim w h d :
  w <= 0 \/ h <= 0 \/ d <= 0 -> (w <=? 0) || (h <=? 0) || (d <=? 0) = true.
Proof.
  intros. destruct (Z.leb_spec w 0), (Z.leb_spec h 0), (Z.leb_spec d 0);
    simpl; lia || reflexivity.
Qed.

Lemma dims_accepted w h d :
  (w <=? 0) || (h <=? 0) || (d <=? 0) = false -> 0 < w /\ 0 < h /\ 0 < d.
Proof.
  destruct (Z.leb_spec w 0), (Z.leb_spec h 0), (Z.leb_spec d 0);
    simpl; intros; try discriminate; lia.
Qed.

Lemma initialized_object_run :
  Initialize healthy true 800 600 new_object = Ret true initialized_object.
Proof. vm_compute. reflexivity. Qed.

Lemma loaded_object_run :
  LoadVolumeData textures_ok (Some voxels_64) 4 4 4 f1_0 initialized_object
  = Ret true loaded_object.
Proof. vm_compute. reflexivity. Qed.

(** Every path through [LoadVolumeData] and [CreateVolumeTexture]. *)
Lemma LoadVolumeData_cases e data w h d vs o :
  exists b o',
    LoadVolumeData e data w h d vs o = Ret b o' /\
    (rejected_arguments data w h d ->
       b = false /\ vol (this o') = vol (this o)) /\
    (~ rejected_arguments data w h d ->
       vol (this o') = stored w h d vs /\
       (b = false <-> creation_fails e (this o))).
Proof.
  unfold rejected_arguments, creation_fails.
  destruct o as [r wd]. unfold LoadVolumeData.
  destruct data as [bytes|].
  2:{ do 2 eexists. split; [reflexivity|]. split.
      - intros _. split; reflexivity.
      - intros H. exfalso. apply H. now left. }
  destruct ((w <=? 0) || (h <=? 0) || (d <=? 0)) eqn:Edims.
  { do 2 eexists. split; [reflexivity|]. split.
    - intros _. split; reflexivity.
    - intros H. exfalso. apply H. right.
      destruct (Z.leb_spec w 0), (Z.leb_spec h 0), (Z.leb_spec d 0);
        simpl in Edims; try discriminate; lia. }
  assert (~ (Some bytes = None \/ w <= 0 \/ h <= 0 \/ d <= 0)) as Hvalid.
  { intros [H|H]; [discriminate|].
    rewrite non_positive_dim in Edims by assumption. discriminate. }
  unfold CreateVolumeTexture. run.
  destruct (m_device (dev r)) eqn:Edev; run.
  2:{ do 2 eexists. split; [reflexivity|]. split; [tauto|].
      intros _. split; [reflexivity|]. split; auto. }
  unfold non_positive_dims; cbn [m_volumeWidth m_volumeHeight m_volumeDepth].
  rewrite Edims.
  destruct (FAILED (hrCreateTexture3D e)) eqn:E1.
  { do 2 eexists. split; [reflexivity|]. split; [tauto|].
    intros _. split; [reflexivity|]. split; auto. }
  destruct (FAILED (hrCreateShaderResourceView e)) eqn:E2.
  { do 2 eexists. split; [reflexivity|]. split; [tauto|].
    intros _. split; [reflexivity|]. split; auto. }
  do 2 eexists. split; [reflexivity|]. split; [tauto|].
  intros _. split; [reflexivity|]. split; [discriminate|].
  intros [H|[H|H]]; discriminate.
Qed.


(** C1 (as amended): [LoadVolumeData] always returns, and a call that
    returns failure either rejected its arguments (null data or a
    non-positive dimension), and then the stored width, height, depth and
    voxel size are unchanged, or failed because the device is missing or the
    texture or its view could not be created, and then the stored width,
    height, depth and voxel size are those of the call: they are assigned
    before [CreateVolumeTexture] runs and are not restored. *)
Theorem LoadVolumeData_failure_state
    (e : TexEnv) (data : bytes_ptr) (w h d : Z) (vs : float) (o : Obj) :
  exists b o',
    LoadVolumeData e data w h d vs o = Ret b o' /\
    (b = false ->
       (rejected_arguments data w h d /\ vol (this o') = vol (this o)) \/
       (~ rejected_arguments data w h d /\ creation_fails e (this o) /\
        vol (this o') = stored w h d vs)).
Proof.
  destruct (LoadVolumeData_cases e data w h d vs o) as (b & o' & Hrun & Hrej & Hacc).
  exists b, o'. split; [exact Hrun|]. intros Hb.
  assert (Dec : rejected_arguments data w h d \/ ~ rejected_arguments data w h d).
  { unfold rejected_arguments. destruct data as [bytes|]; [|now left; left].
    destruct (Z.leb_spec w 0); [now left; right; left|].
    destruct (Z.leb_spec h 0); [now left; right; right; left|].
    destruct (Z.leb_spec d 0); [now left; right; right; right|].
    right. intros [H'|H']; [discriminate | lia]. }
  destruct Dec as [R|R].
  - left. split; [exact R | apply Hrej, R].
  - right. destruct (Hacc R) as [Hvol Hiff]. split; [exact R|].
    split; [apply Hiff, Hb | exact Hvol].
Qed.

Lemma LoadVolumeData_failure_state_witness :
  exists o',
    LoadVolumeData texture_fails (Some voxels_64) 4 4 4 f2_0 initialized_object
    = Ret false o' /\
    vol (this o') = stored 4 4 4 f2_0.
Proof.
  destruct (LoadVolumeData_failure_state texture_fails (Some voxels_64) 4 4 4 f2_0
              initialized_object) as (b & o' & Hrun & Hfail).
  assert (Hb : b = false).
  { vm_compute in Hrun. now injection Hrun as <- _. }
  exists o'. subst b. split; [exact Hrun|].
  destruct (Hfail eq_refl) as [[R _]|(_ & _ & Hvol)]; [|exact Hvol].
  exfalso. destruct R as [R|R]; [discriminate | lia].
Defined.

(** C1 (as stated) fails: on an initialized renderer that holds no volume
    (stored dimensions 0), a call whose [CreateTexture3D] fails returns
    failure and leaves the stored dimensions at 4x4x4 and the voxel size at
    2.0 (it was 1.0). *)
Lemma LoadVolumeData_failure_mutates :
  exists o',
    LoadVolumeData texture_fails (Some voxels_64) 4 4 4 f2_0 initialized_object
    = Ret false o' /\
    vol (this initialized_object) = stored 0 0 0 f1_0 /\
    vol (this o') = stored 4 4 4 f2_0 /\
    vol (this o') <> vol (this initialized_object).
Proof.
  eexists. split; [vm_compute; reflexivity|].
  split; [vm_compute; reflexivity|].
  split; [vm_compute; reflexivity|].
  vm_compute. discriminate.
Qed.






(** ** Materials *)

Lemma observe_Ret_inv {S T A} (f : S -> T) (r : Res S A) a t :
  observe f r = Ret a t -> exists s, r = Ret a s /\ f s = t.
Proof. destruct r; simpl; intros [= <- <-] || discriminate. eauto. Qed.

Lemma put_materials_same r : put_materials (m_materials (mat r)) r = r.
Proof. destruct r as [? ? [? ? ?] ? ? ? ? ?]. reflexivity. Qed.

Lemma UpdateMaterials_loop_run cs n : forall i r w,
  UpdateMaterials_loop cs i n {| this := r; o_world := w |} =
  match write_colors cs i n (m_materials (mat r)) with
  | Some ms => Ret tt {| this := put_materials ms r; o_world := w |}
  | None => Undefined
  end.
Proof.
  induction n as [|n IH]; intros i r w; simpl.
  - now rewrite put_materials_same.
  - destruct (cs !! i) as [argb|]; [|reflexivity].
    run. destruct (decide (i < length (m_materials (mat r)))%nat); [|reflexivity].
    run. rewrite IH. reflexivity.
Qed.

Lemma UpdateMaterials_run hr cs count r w :
  observe this (UpdateMaterials hr (Some cs) count {| this := r; o_world := w |}) =
  match write_colors cs 0 (Z.to_nat (clamp_count count)) (m_materials (mat r)) with
  | Some ms => Ret tt (upload hr (put_materials ms r))
  | None => Undefined
  end.
Proof.
  unfold UpdateMaterials, clamp_count. run.
  destruct ((count <=? 0) || (count >? 256)); run;
    rewrite UpdateMaterials_loop_run;
    (destruct (write_colors _ _ _ _) as [ms|]; [|reflexivity]);
    run; unfold upload, put_materials;
    cbn [set_mat dev mat m_materialBuffer m_materialSRV m_materials];
    destruct (m_context (dev r)); try reflexivity;
    destruct (bool_decide _); try reflexivity;
    destruct (SUCCEEDED hr); reflexivity.
Qed.

Lemma CTViewer_UpdateMaterials_run hr colors count g w :
  observe g_renderer
    (CTViewer.UpdateMaterials hr colors count {| g_renderer := g; g_world := w |}) =
  match g, colors with
  | Some r, Some cs =>
    if count <=? 0 then Ret tt (Some r)
    else match write_colors cs 0 (Z.to_nat (clamp_count count)) (m_materials (mat r)) with
         | Some ms => Ret tt (Some (upload hr (put_materials ms r)))
         | None => Undefined
         end
  | _, _ => Ret tt g
  end.
Proof.
  unfold CTViewer.UpdateMaterials, try_catch, CTViewer.renderer. run.
  destruct g as [r|]; [|reflexivity].
  destruct colors as [cs|]; [|reflexivity].
  destruct (count <=? 0); [reflexivity|].
  unfold call_renderer. cbn [g_world].
  pose proof (UpdateMaterials_run hr cs count r
    {| logs := logs w ++ [{| severity := LOG_INFO; message := "Updating %d materials" |}];
       gpu := gpu w |}) as H.
  destruct (UpdateMaterials hr (Some cs) count _) as [[] o'|ex o'|];
    destruct (write_colors cs 0 _ _) as [ms|]; cbn in H; try discriminate.
  - injection H as H. cbn. now rewrite H.
  - reflexivity.
Qed.

Lemma clamp_count_large count : 256 < count -> clamp_count count = 256.
Proof.
  intros H. unfold clamp_count, imin, imax.
  destruct (Z.leb_spec count 0); [lia|].
  destruct (Z.gtb_spec count 256); [|lia]. simpl.
  destruct (Z.gtb_spec 1 count); [lia|].
  destruct (Z.ltb_spec 256 count); [reflexivity|lia].
Qed.

Lemma clamp_count_256 : clamp_count 256 = 256.
Proof. reflexivity. Qed.

Lemma clamp_count_in_range count : 1 <= count <= 256 -> clamp_count count = count.
Proof.
  intros H. unfold clamp_count.
  destruct (Z.leb_spec count 0); [lia|].
  destruct (Z.gtb_spec count 256); [lia|]. reflexivity.
Qed.

Lemma write_colors_take cs k n : forall i ms,
  (i + n <= k)%nat -> write_colors (take k cs) i n ms = write_colors cs i n ms.
Proof.
  induction n as [|n IH]; intros i ms H; simpl; [reflexivity|].
  rewrite lookup_take_lt by lia.
  destruct (cs !! i) as [argb|]; [|reflexivity].
  destruct (decide _); [|reflexivity].
  apply IH. lia.
Qed.

Lemma write_colors_spec cs n : forall i ms,
  (i + n <= length cs)%nat -> (i + n <= length ms)%nat ->
  exists ms',
    write_colors cs i n ms = Some ms' /\
    length ms' = length ms /\
    (forall j argb, (i <= j < i + n)%nat -> cs !! j = Some argb ->
                    ms' !! j = Some (unpack_ARGB argb)) /\
    (forall j, ~ (i <= j < i + n)%nat -> ms' !! j = ms !! j).
Proof.
  induction n as [|n IH]; intros i ms Hcs Hms; simpl.
  - exists ms. repeat split; auto. intros j argb Hj. lia.
  - destruct (lookup_lt_is_Some_2 cs i ltac:(lia)) as [argb Hargb]. rewrite Hargb.
    destruct (decide (i < length ms)%nat) as [Hi|Hi]; [|lia].
    destruct (IH (S i) (<[i:=unpack_ARGB argb]> ms)) as (ms' & Hrun & Hlen & Hin & Hout).
    { lia. } { rewrite length_insert. lia. }
    exists ms'. split; [exact Hrun|]. split; [now rewrite Hlen, length_insert|]. split.
    + intros j a Hj Ha. destruct (decide (j = i)) as [->|Hne].
      * rewrite Hout by lia. rewrite list_lookup_insert_eq by lia. congruence.
      * apply Hin; [lia | exact Ha].
    + intros j Hj. rewrite Hout by lia. apply list_lookup_insert_ne. lia.
Qed.

Lemma unpack_ARGB_bits argb :
  unpack_ARGB argb =
  Float4.mk (normalized (bits_from 16 argb)) (normalized (bits_from 8 argb))
            (normalized (bits_from 0 argb)) (normalized (bits_from 24 argb)).
Proof.
  unfold unpack_ARGB, normalized, bits_from.
  change 255 with (Z.ones 8).
  rewrite !Z.land_ones, !Z.shiftr_div_pow2 by lia.
  rewrite Z.pow_0_r, Z.div_1_r. reflexivity.
Qed.

(** C3: through the exported [UpdateMaterials], a count above 256 leaves the
    renderer exactly as a count of 256 does (same material table, same GPU
    buffer, same outcome), and only the first 256 entries of the array
    matter; a count of zero or less returns with the renderer, and so the
    material table, untouched. *)
Theorem UpdateMaterials_count_clamped
    (hrMap : HRESULT) (colors : ints_ptr) (count : Z) (p : Proc) :
  (256 < count ->
     observe g_renderer (CTViewer.UpdateMaterials hrMap colors count p)
     = observe g_renderer (CTViewer.UpdateMaterials hrMap colors 256 p) /\
     forall cs, colors = Some cs ->
       observe g_renderer (CTViewer.UpdateMaterials hrMap (Some (take 256 cs)) count p)
       = observe g_renderer (CTViewer.UpdateMaterials hrMap colors count p)) /\
  (count <= 0 ->
     observe g_renderer (CTViewer.UpdateMaterials hrMap colors count p)
     = Ret tt (g_renderer p)).
Proof.
  destruct p as [g w]. split.
  - intros H. split.
    + rewrite !CTViewer_UpdateMaterials_run.
      destruct g as [r|]; [|reflexivity]. destruct colors as [cs|]; [|reflexivity].
      destruct (Z.leb_spec count 0); [lia|]. cbn [Z.leb Z.compare].
      now rewrite clamp_count_large, clamp_count_256.
    + intros cs ->. rewrite !CTViewer_UpdateMaterials_run.
      destruct g as [r|]; [|reflexivity].
      destruct (Z.leb_spec count 0); [lia|].
      rewrite clamp_count_large by exact H.
      now rewrite write_colors_take by (change (Z.to_nat 256) with 256%nat; lia).
  - intros H. rewrite CTViewer_UpdateMaterials_run. cbn [g_renderer].
    destruct g as [r|]; [|reflexivity]. destruct colors as [cs|]; [|reflexivity].
    destruct (Z.leb_spec count 0); [reflexivity|lia].
Qed.

Lemma UpdateMaterials_count_clamped_witness :
  let colors := Some (replicate 300 (to_int 4278190335)) in     (* 0xFF0000FF *)
  observe g_renderer (CTViewer.UpdateMaterials S_OK colors 300 initialized_process)
  = observe g_renderer (CTViewer.UpdateMaterials S_OK colors 256 initialized_process) /\
  observe g_renderer (CTViewer.UpdateMaterials S_OK colors (-5) initialized_process)
  = Ret tt (g_renderer initialized_process).
Proof.
  intros colors. split.
  - exact (proj1 (proj1 (UpdateMaterials_count_clamped S_OK colors 300 initialized_process)
                     ltac:(lia))).
  - exact (proj2 (UpdateMaterials_count_clamped S_OK colors (-5) initialized_process)
                 ltac:(lia)).
Defined.

(** C7: for a count in 1..256 within the array and a 256-entry table,
    [UpdateMaterials] returns and entry [i] of the table, for every
    [i < count], is (r, g, b, a) with a the bits 24-31, r the bits 16-23, g the
    bits 8-15 and b the bits 0-7 of [colors[i]], each converted to float and
    divided by 255.0f; the entries from [count] on keep their colour.  On an
    initialized renderer, [UpdateMaterials([0xFFFF0000, 0xFF00FF00], 2)]
    makes material 0 (1, 0, 0, 1) and material 1 (0, 1, 0, 1). *)
Theorem UpdateMaterials_unpacks_ARGB :
  (forall (hrMap : HRESULT) (cs : list Z) (count : Z) (o : Obj),
     1 <= count <= 256 ->
     (Z.to_nat count <= length cs)%nat ->
     length (m_materials (mat (this o))) = 256%nat ->
     exists o',
       UpdateMaterials hrMap (Some cs) count o = Ret tt o' /\
       length (m_materials (mat (this o'))) = 256%nat /\
       (forall (i : nat) (argb : Z),
          (i < Z.to_nat count)%nat -> cs !! i = Some argb ->
          m_materials (mat (this o')) !! i =
          Some (Float4.mk (normalized (bits_from 16 argb))
                          (normalized (bits_from 8 argb))
                          (normalized (bits_from 0 argb))
                          (normalized (bits_from 24 argb)))) /\
       (forall i : nat,
          (Z.to_nat count <= i)%nat ->
          m_materials (mat (this o')) !! i = m_materials (mat (this o)) !! i)) /\
  (exists p' r,
     CTViewer.UpdateMaterials S_OK (Some red_green) 2 initialized_process = Ret tt p' /\
     g_renderer p' = Some r /\
     m_materials (mat r) !! 0%nat = Some (Float4.mk f1_0 f0_0 f0_0 f1_0) /\
     m_materials (mat r) !! 1%nat = Some (Float4.mk f0_0 f1_0 f0_0 f1_0)).
Proof.
  split.
  - intros hrMap cs count [r w] Hcount Hcs Hlen. cbn [this] in *.
    pose proof (UpdateMaterials_run hrMap cs count r w) as Hrun.
    rewrite clamp_count_in_range in Hrun by exact Hcount.
    destruct (write_colors_spec cs (Z.to_nat count) 0 (m_materials (mat r)))
      as (ms & Hw & Hl & Hin & Hout); [lia | lia |].
    rewrite Hw in Hrun.
    destruct (observe_Ret_inv _ _ _ _ Hrun) as (o' & Ho' & Hthis).
    exists o'. split; [exact Ho'|]. rewrite Hthis.
    assert (Hms : m_materials (mat (upload hrMap (put_materials ms r))) = ms).
    { unfold upload. destruct (_ && _); [destruct (SUCCEEDED hrMap)|]; reflexivity. }
    rewrite Hms. split; [now rewrite Hl|]. split.
    + intros i argb Hi Hargb. rewrite <- unpack_ARGB_bits. apply Hin; [lia | exact Hargb].
    + intros i Hi. apply Hout. lia.
  - do 2 eexists. split; [vm_compute; reflexivity|].
    split; [reflexivity|]. split; vm_compute; reflexivity.
Qed.

Lemma UpdateMaterials_unpacks_ARGB_witness :
  exists o',
    UpdateMaterials S_OK (Some red_green) 2 initialized_object = Ret tt o' /\
    m_materials (mat (this o')) !! 0%nat = Some (Float4.mk f1_0 f0_0 f0_0 f1_0) /\
    m_materials (mat (this o')) !! 1%nat = Some (Float4.mk f0_0 f1_0 f0_0 f1_0) /\
    m_materials (mat (this o')) !! 2%nat = Some transparent.
Proof.
  destruct (proj1 UpdateMaterials_unpacks_ARGB S_OK red_green 2 initialized_object)
    as (o' & Hrun & _ & Hin & Hout).
  - lia.
  - vm_compute. lia.
  - vm_compute. reflexivity.
  - exists o'. split; [exact Hrun|]. split; [|split].
    + rewrite (Hin 0%nat (to_int 4294901760)); [vm_compute; reflexivity | vm_compute; lia | reflexivity].
    + rewrite (Hin 1%nat (to_int 4278255360)); [vm_compute; reflexivity | vm_compute; lia | reflexivity].
    + rewrite (Hout 2%nat); [vm_compute; reflexivity | vm_compute; lia].
Defined.

(** ** Rendering a frame *)

Lemma extends_refl w : extends w w.
Proof. exists []. now rewrite app_nil_r. Qed.

Lemma extends_trans w1 w2 w3 : extends w1 w2 -> extends w2 w3 -> extends w1 w3.
Proof. intros [n1 H1] [n2 H2]. exists (n1 ++ n2). now rewrite H2, H1, app_assoc. Qed.

Lemma extends_reported w1 w2 w3 : extends w1 w2 -> reported_error w2 w3 -> reported_error w1 w3.
Proof.
  intros [n1 H1] (n2 & H2 & E). exists (n1 ++ n2). split.
  - now rewrite H2, H1, app_assoc.
  - apply Exists_app. now right.
Qed.

Section Steps.
Variable r : VolumeRenderer.

Lemma steady_ret : steady r (mret tt).
Proof. intros w. left. exists w. split; [reflexivity | apply extends_refl]. Qed.

Lemma steady_Log msg sev : steady r (Log msg sev).
Proof. intros w. left. eexists. split; [reflexivity|]. eexists; reflexivity. Qed.

Lemma steady_gpu_call t c : steady r (gpu_call t c).
Proof.
  intros w. unfold gpu_call. destruct (t c) as [ex|].
  - right. exists ex, w. split; [reflexivity | apply extends_refl].
  - left. eexists. split; [reflexivity|]. exists []. cbn. now rewrite app_nil_r.
Qed.

Lemma steady_bind (m k : M Obj unit) : steady r m -> steady r k -> steady r (m;; k).
Proof.
  intros Hm Hk w. destruct (Hm w) as [(w1 & H1 & E1)|(ex & w1 & H1 & E1)].
  - rewrite (bind_Ret _ _ _ _ _ H1).
    destruct (Hk w1) as [(w2 & H2 & E2)|(ex & w2 & H2 & E2)].
    + left. exists w2. split; [exact H2 | eapply extends_trans; eauto].
    + right. exists ex, w2. split; [exact H2 | eapply extends_trans; eauto].
  - right. exists ex, w1. split; [|exact E1]. now rewrite (bind_Throw _ _ _ _ _ H1).
Qed.

Lemma steady_self (k : VolumeRenderer -> M Obj unit) :
  steady r (k r) -> steady r (self ≫= k).
Proof. intros H w. exact (H w). Qed.

Lemma steady_if (b : bool) (m k : M Obj unit) :
  steady r m -> steady r k -> steady r (if b then m else k).
Proof. now destruct b. Qed.

Lemma returns_ret : returns r (mret tt).
Proof. intros w. exists w. split; [reflexivity | apply extends_refl]. Qed.

Lemma returns_Log msg sev : returns r (Log msg sev).
Proof. intros w. eexists. split; [reflexivity|]. eexists; reflexivity. Qed.

Lemma returns_gpu_call t c : t c = None -> returns r (gpu_call t c).
Proof.
  intros H w. unfold gpu_call. rewrite H.
  eexists. split; [reflexivity|]. exists []. cbn. now rewrite app_nil_r.
Qed.

Lemma returns_bind (m k : M Obj unit) : returns r m -> returns r k -> returns r (m;; k).
Proof.
  intros Hm Hk w. destruct (Hm w) as (w1 & H1 & E1).
  rewrite (bind_Ret _ _ _ _ _ H1).
  destruct (Hk w1) as (w2 & H2 & E2).
  exists w2. split; [exact H2 | eapply extends_trans; eauto].
Qed.

Lemma returns_self (k : VolumeRenderer -> M Obj unit) :
  returns r (k r) -> returns r (self ≫= k).
Proof. intros H w. exact (H w). Qed.

Lemma returns_if (b : bool) (m k : M Obj unit) :
  returns r m -> returns r k -> returns r (if b then m else k).
Proof. now destruct b. Qed.

Lemma reports_Log_error msg : reports r (Log msg LOG_ERROR).
Proof.
  intros w. eexists. split; [reflexivity|].
  eexists. split; [reflexivity|]. now constructor.
Qed.

Lemma reports_after (m k : M Obj unit) : returns r m -> reports r k -> reports r (m;; k).
Proof.
  intros Hm Hk w. destruct (Hm w) as (w1 & H1 & E1).
  rewrite (bind_Ret _ _ _ _ _ H1).
  destruct (Hk w1) as (w2 & H2 & E2).
  exists w2. split; [exact H2 | eapply extends_reported; eauto].
Qed.

Lemma reports_self (k : VolumeRenderer -> M Obj unit) :
  reports r (k r) -> reports r (self ≫= k).
Proof. intros H w. exact (H w). Qed.
End Steps.

Create HintDb steps.
#[local] Hint Resolve steady_ret steady_Log steady_gpu_call steady_bind steady_self steady_if : steps.
#[local] Hint Resolve returns_ret returns_Log returns_gpu_call returns_bind returns_self returns_if : steps.

Lemma UpdateConstantBuffers_steady e r :
  m_device (dev r) = true -> steady r (UpdateConstantBuffers e).
Proof.
  intros Hdev. unfold UpdateConstantBuffers. apply steady_self.
  rewrite Hdev. auto 20 with steps.
Qed.

Lemma Render_body_steady e r : steady r (Render_body e).
Proof.
  unfold Render_body. apply steady_self.
  destruct (m_context (dev r)) eqn:Ec; [|apply steady_Log].
  destruct (m_device (dev r)) eqn:Ed; [|apply steady_Log].
  destruct (m_swapChain (dev r)) eqn:Es; [|apply steady_Log].
  cbn [negb orb].
  pose proof (UpdateConstantBuffers_steady e r Ed).
  repeat (apply steady_bind; [auto 10 with steps|]).
  auto with steps.
Qed.

Lemma Render_returns e r w :
  exists w',
    Render e {| this := r; o_world := w |} = Ret tt {| this := r; o_world := w' |} /\
    extends w w' /\
    (forall ex o1, Render_body e {| this := r; o_world := w |} = Throw ex o1 ->
                   reported_error w w').
Proof.
  unfold Render, try_catch.
  destruct (Render_body_steady e r w) as [(w1 & H1 & E1)|(ex & w1 & H1 & E1)]; rewrite H1.
  - exists w1. repeat split; [exact E1|]. intros; discriminate.
  - destruct ex as [what|].
    + eexists. split; [reflexivity|]. split.
      * eapply extends_trans; [exact E1|]. eexists; reflexivity.
      * intros _ _ _. eapply extends_reported; [exact E1|].
        eexists. split; [reflexivity|]. now constructor.
    + eexists. split; [reflexivity|]. split.
      * eapply extends_trans; [exact E1|]. eexists; reflexivity.
      * intros _ _ _. eapply extends_reported; [exact E1|].
        eexists. split; [reflexivity|]. now constructor.
Qed.

Lemma CTViewer_Render_returns e g w :
  exists w', CTViewer.Render e {| g_renderer := g; g_world := w |}
             = Ret tt {| g_renderer := g; g_world := w' |} /\ extends w w'.
Proof.
  unfold CTViewer.Render, try_catch, CTViewer.renderer. run.
  destruct g as [r|].
  - unfold call_renderer. cbn [g_world].
    destruct (Render_returns e r w) as (w' & H & E & _). rewrite H.
    exists w'. split; [reflexivity | exact E].
  - eexists. split; [reflexivity|]. eexists; reflexivity.
Qed.

Lemma UpdateConstantBuffers_returns e r :
  m_device (dev r) = true -> (forall c, throws e c = None) ->
  returns r (UpdateConstantBuffers e).
Proof.
  intros Hdev Hno. unfold UpdateConstantBuffers. apply returns_self.
  rewrite Hdev. auto 20 with steps.
Qed.

Lemma Render_body_reports_present e r :
  device_ready r -> (forall c, throws e c = None) -> FAILED (hrPresent e) = true ->
  reports r (Render_body e).
Proof.
  intros (Ec & Ed & Es) Hno Hfail. unfold Render_body. apply reports_self.
  rewrite Ec, Ed, Es, Hfail. cbn [negb orb].
  pose proof (UpdateConstantBuffers_returns e r Ed Hno).
  repeat (apply reports_after; [auto 10 with steps|]).
  apply reports_Log_error.
Qed.

(** C5: [Render] never lets a failure out.  For every state of the process
    and whatever the DirectX calls do (any of them may raise, [Present] may
    fail), the exported [Render] returns normally and leaves the renderer as
    it was; when a call of the sequence raises, [VolumeRenderer::Render]
    catches it, logs an error and returns; when nothing raises and [Present]
    fails, an error is logged and the call returns. *)
Theorem Render_never_propagates (e : RenderEnv) :
  (forall p : Proc,
     exists p', CTViewer.Render e p = Ret tt p' /\
                g_renderer p' = g_renderer p /\
                extends (g_world p) (g_world p')) /\
  (forall o : Obj,
     exists o', Render e o = Ret tt o' /\
                this o' = this o /\
                (forall ex o1, Render_body e o = Throw ex o1 ->
                               reported_error (o_world o) (o_world o'))) /\
  (forall o : Obj,
     device_ready (this o) ->
     (forall c, throws e c = None) ->
     FAILED (hrPresent e) = true ->
     exists o', Render e o = Ret tt o' /\
                reported_error (o_world o) (o_world o')).
Proof.
  split; [|split].
  - intros [g w]. destruct (CTViewer_Render_returns e g w) as (w' & H & E).
    eexists. split; [exact H|]. split; [reflexivity | exact E].
  - intros [r w]. destruct (Render_returns e r w) as (w' & H & _ & Hex).
    eexists. split; [exact H|]. split; [reflexivity | exact Hex].
  - intros [r w] Hready Hno Hfail.
    destruct (Render_body_reports_present e r Hready Hno Hfail w) as (w' & H & E).
    exists {| this := r; o_world := w' |}. split; [|exact E].
    unfold Render, try_catch. now rewrite H.
Qed.

Lemma Render_never_propagates_witness :
  (exists p',
     CTViewer.Render draw_raises initialized_process = Ret tt p' /\
     last (logs (g_world p'))
     = Some {| severity := LOG_ERROR;
               message := "Exception in Render: device removed" |}) /\
  (exists o',
     Render present_fails initialized_object = Ret tt o' /\
     reported_error (o_world initialized_object) (o_world o')).
Proof.
  split.
  - destruct (proj1 (Render_never_propagates draw_raises) initialized_process)
      as (p' & H & _).
    exists p'. split; [exact H|].
    vm_compute in H. injection H as <-. vm_compute. reflexivity.
  - apply (proj2 (proj2 (Render_never_propagates present_fails)) initialized_object).
    + vm_compute. repeat split.
    + reflexivity.
    + reflexivity.
Defined.

(** ** The exported functions without a renderer, and after a failed
    [Initialize] *)

(** X3: while [g_renderer] is null every exported operation logs one error,
    returns (false where it returns a bool) and changes nothing else. *)
Theorem guarded_without_renderer (lm : Libm) (w : World) :
  let p := {| g_renderer := None; g_world := w |} in
  let refused {A} (m : M Proc A) (a : A) :=
    exists msg, m p = Ret a {| g_renderer := None;
                               g_world := {| logs := logs w ++
                                               [{| severity := LOG_ERROR; message := msg |}];
                                             gpu := gpu w |} |} in
  (forall e, refused (CTViewer.Render e) tt) /\
  (forall e data x y z vs, refused (CTViewer.LoadVolumeData e data x y z vs) false) /\
  (forall e data x y z, refused (CTViewer.LoadLabelData e data x y z) false) /\
  (forall hr colors count, refused (CTViewer.UpdateMaterials hr colors count) tt) /\
  (forall e x y, refused (CTViewer.Resize e x y) tt) /\
  (forall dx dy, refused (CTViewer.RotateCamera lm dx dy) tt) /\
  (forall d, refused (CTViewer.ZoomCamera lm d) tt) /\
  refused CTViewer.ResetCamera tt /\
  (forall a b c mode show, refused (CTViewer.SetRenderingParams a b c mode show) tt).
Proof.
  intros p refused. unfold refused.
  repeat split; intros; eexists; reflexivity.
Qed.

Lemma failed_process_run :
  CTViewer.Initialize no_device true 800 600 start = Ret false failed_process.
Proof. vm_compute. reflexivity. Qed.

Lemma failed_process_shape :
  exists r w, failed_process = {| g_renderer := Some r; g_world := w |} /\
              cam r = default_camera.
Proof. do 2 eexists. split; vm_compute; reflexivity. Qed.

Lemma CTViewer_RotateCamera_run lm dx dy r w :
  CTViewer.RotateCamera lm dx dy {| g_renderer := Some r; g_world := w |} =
  Ret tt {| g_renderer := Some (set_cam (rotate_camera lm dx dy) r);
            g_world :=
              {| logs := logs w ++
                   [{| severity := LOG_INFO;
                       message := "Camera rotated to theta: %f, phi: %f, radius: %f" |}];
                 gpu := gpu w |} |}.
Proof. reflexivity. Qed.

(** C4 (the input on which the code departs from it): [Initialize] with a
    valid window and size fails because no device can be created, and
    leaves the renderer object in [g_renderer].  After that [RotateCamera]
    logs no error and changes the camera, and [UpdateMaterials] writes
    outside the still empty material vector: undefined behaviour. *)
Theorem calls_after_failed_Initialize (lm : Libm) :
  exists p1,
    CTViewer.Initialize no_device true 800 600 start = Ret false p1 /\
    (exists p2,
       CTViewer.RotateCamera lm f1_0 f0_0 p1 = Ret tt p2 /\
       reported_no_error (g_world p1) (g_world p2) /\
       g_renderer p2 <> g_renderer p1) /\
    CTViewer.UpdateMaterials S_OK (Some red_green) 2 p1 = Undefined.
Proof.
  exists failed_process. split; [exact failed_process_run|]. split.
  - destruct failed_process_shape as (r & w & -> & Hcam).
    rewrite CTViewer_RotateCamera_run. eexists. split; [reflexivity|].
    cbn [g_world g_renderer]. split.
    + eexists. split; [reflexivity|]. repeat constructor. discriminate.
    + intros [= H]. apply (f_equal (fun r => m_cameraTheta (cam r))) in H.
      cbn [cam set_cam rotate_camera m_cameraTheta] in H. rewrite Hcam in H.
      vm_compute in H. discriminate.
  - vm_compute. reflexivity.
Qed.

(** ** Further properties of the camera and of the material count *)

(** X1: over any sequence of [RotateCamera] and [ZoomCamera] calls whose zoom
    deltas are not NaN, the radius stays in [[0.5, 10]]; and after every
    [ZoomCamera], whatever its delta, the cached position is the orbit
    formula at the stored (clamped) radius. *)
Theorem zoom_keeps_radius_within (lm : Libm) (cs : list CameraCall) : forall o : Obj,
  (within radius_min radius_max (m_cameraRadius (cam (this o))) ->
   Forall delta_not_nan cs ->
   exists o', camera_calls lm cs o = Ret tt o' /\
              within radius_min radius_max (m_cameraRadius (cam (this o')))) /\
  (forall d, exists o',
     ZoomCamera lm d o = Ret tt o' /\
     m_cameraRadius (cam (this o'))
     = fmax radius_min (fmin radius_max (m_cameraRadius (cam (this o)) - d)%f32) /\
     m_cameraPosition (cam (this o'))
     = orbit_position lm (m_focusPoint (cam (this o'))) (m_cameraTheta (cam (this o')))
                      (m_cameraPhi (cam (this o'))) (m_cameraRadius (cam (this o')))).
Proof.
  induction cs as [|c cs IH]; intros o; (split; [intros Hr Hcs|]).
  - eexists; split; [reflexivity | exact Hr].
  - intros d. destruct (ZoomCamera_returns lm d o) as [w' H'].
    eexists. split; [exact H'|]. split; reflexivity.
  - apply Forall_cons in Hcs as [Hc Hcs]. simpl.
    destruct (camera_call_returns lm c o) as [o1 H1].
    destruct (proj1 (IH o1) (camera_call_radius_within lm _ _ _ Hc Hr H1) Hcs)
      as [o2 [H2 P2]].
    exists o2. split; [|exact P2].
    now rewrite (bind_Ret _ _ _ _ _ H1).
  - intros d. destruct (ZoomCamera_returns lm d o) as [w' H'].
    eexists. split; [exact H'|]. split; reflexivity.
Qed.

Lemma zoom_keeps_radius_within_witness :
  exists o',
    camera_calls poly_libm [Zoom f10_0; Rotate f1_0 f1_0; Zoom (- f10_0 - f10_0)%f32]
      new_object = Ret tt o' /\
    within radius_min radius_max (m_cameraRadius (cam (this o'))).
Proof.
  apply (proj1 (zoom_keeps_radius_within poly_libm _ new_object)).
  - split; vm_compute; reflexivity.
  - repeat constructor.
Defined.

(** X2: once [RotateCamera(0, 0)] has run, running it again changes nothing of
    the camera: angles, radius and position are the same. *)
Theorem rotate_zero_settles (lm : Libm) (o : Obj) :
  exists o1 o2,
    RotateCamera lm (F32.of_Z 0) (F32.of_Z 0) o = Ret tt o1 /\
    RotateCamera lm (F32.of_Z 0) (F32.of_Z 0) o1 = Ret tt o2 /\
    cam (this o2) = cam (this o1).
Proof.
  destruct (RotateCamera_returns lm (F32.of_Z 0) (F32.of_Z 0) o) as [w1 H1].
  set (o1 := {| this := set_cam (rotate_camera lm (F32.of_Z 0) (F32.of_Z 0)) (this o);
                o_world := w1 |}) in H1.
  destruct (RotateCamera_returns lm (F32.of_Z 0) (F32.of_Z 0) o1) as [w2 H2].
  exists o1. eexists. split; [exact H1|]. split; [exact H2|].
  cbn [this cam set_cam o1]. apply rotate_camera_zero_idempotent.
Qed.

(** X4: [VolumeRenderer::UpdateMaterials] itself, called directly, treats a count
    of zero or less as 1: it leaves the renderer as a count of 1 does. *)
Theorem UpdateMaterials_member_clamps_to_one
    (hrMap : HRESULT) (cs : list Z) (count : Z) (o : Obj) :
  count <= 0 ->
  observe this (UpdateMaterials hrMap (Some cs) count o)
  = observe this (UpdateMaterials hrMap (Some cs) 1 o).
Proof.
  intros H. destruct o as [r w]. rewrite !UpdateMaterials_run.
  assert (E : clamp_count count = 1).
  { unfold clamp_count, imin, imax.
    destruct (Z.leb_spec count 0); [|lia]. simpl.
    destruct (Z.gtb_spec 1 count); [reflexivity | lia]. }
  now rewrite E.
Qed.

Lemma UpdateMaterials_member_clamps_to_one_witness :
  observe this (UpdateMaterials S_OK (Some red_green) (-3) initialized_object)
  = observe this (UpdateMaterials S_OK (Some red_green) 1 initialized_object).
Proof.
  apply UpdateMaterials_member_clamps_to_one. lia.
Defined.

(* ================================================================== *)
(** * Further properties of the renderer and of the exported functions *)
(* ================================================================== *)

(** ** [Initialize], step by step *)

Lemma SUCCEEDED_FAILED hr : SUCCEEDED hr = negb (FAILED hr).
Proof.
  unfold SUCCEEDED, FAILED.
  destruct (Z.ltb_spec hr 0), (Z.leb_spec 0 hr); simpl; lia || reflexivity.
Qed.

Lemma length_resize_256 l : length (resize_256 l) = 256%nat.
Proof. unfold resize_256. rewrite length_app, length_take, length_replicate. lia. Qed.

Lemma resize_256_full l : length l = 256%nat -> resize_256 l = l.
Proof.
  intros H. unfold resize_256. rewrite H. simpl replicate.
  rewrite app_nil_r. apply take_ge. lia.
Qed.

Ltac unfold_init :=
  unfold Initialize, CreateRenderTargetView,
    CreateDepthStencilView, SetupViewport, CreateShaders, log_compile_error,
    CreateConstantBuffers, CreateSamplers, gpu_call, no_throw, created,
    set_device_triple, set_rtv, set_dsv.

Ltac bools := cbn [negb andb orb].

Ltac logs_eq :=
  run; cbn [logs gpu o_world this g_world];
  repeat match goal with H : logs _ = _ ++ _ |- _ => rewrite H end;
  rewrite <- ?app_assoc; reflexivity.

Ltac find_error :=
  cbn [app];
  solve [repeat first [ apply Exists_cons_hd; reflexivity
                      | apply Exists_cons_tl
                      | apply Exists_app; right; cbn [app] ]].

Ltac logs_part :=
  split; [eexists; logs_eq | first [ intros; discriminate
                                   | intros _; eexists; split; [logs_eq | find_error] ]].

Ltac close_branch :=
  do 2 eexists; (split; [reflexivity|]); (split; [logs_part|]);
  cbn [this dev pipe mat volres vol view cam par m_device m_context m_swapChain];
  repeat split; try discriminate; try reflexivity;
  intros; intuition (discriminate || lia || reflexivity).

Ltac fork hr := destruct (FAILED hr) eqn:?; run; bools; [close_branch|].

Lemma CreateDeviceAndSwapChain_run e r wd :
  exists wd',
    CreateDeviceAndSwapChain e {| this := r; o_world := wd |} =
    Ret (device_created e)
        {| this := set_dev (set_device_triple (device_created e)) r; o_world := wd' |} /\
    extends wd wd' /\ gpu wd' = gpu wd.
Proof.
  unfold CreateDeviceAndSwapChain, device_created. rewrite !SUCCEEDED_FAILED.
  destruct (debug_build e); run;
    (destruct (FAILED (hrCreateDeviceAndSwapChain e)); run; bools);
    try (destruct (FAILED (hrCreateDeviceAndSwapChain_retry e)); run; bools);
    (eexists; split; [reflexivity|]; split; [|reflexivity]);
    eexists; cbn [logs]; rewrite <- ?app_assoc; reflexivity.
Qed.

Ltac fork_blob e hr :=
  destruct (FAILED hr) eqn:?; run; bools;
  [destruct (errorBlob e); run; close_branch|].

Ltac rest_of_init e :=
  fork (hrGetBuffer (target_env e));
  fork (hrCreateRenderTargetView (target_env e));
  fork (hrCreateTexture2D (depth_env e));
  fork (hrCreateDepthStencilView (depth_env e));
  fork_blob e (hrCompileVertexShader e);
  fork (hrCreateVertexShader e);
  fork (hrCreateInputLayout e);
  fork_blob e (hrCompilePixelShader e);
  fork (hrCreatePixelShader e);
  fork (hrCreateBuffer_constant e);
  fork (hrCreateBuffer_material e);
  fork (hrCreateSRV_material e);
  fork (hrCreateSamplerState e);
  fork (hrCreateBuffer_vertex e);
  fork (hrCreateBuffer_index e).

Lemma Initialize_cases e hwnd w h o :
  exists b o',
    Initialize e hwnd w h o = Ret b o' /\
    (extends (o_world o) (o_world o') /\
     (b = false -> reported_error (o_world o) (o_world o'))) /\
    (b = true <-> hwnd = true /\ 0 < w /\ 0 < h /\ all_created e = true) /\
    (b = true -> fully_initialized w h (this o')) /\
    same_scene (this o) (this o') /\
    volres (this o') = volres (this o) /\
    (hwnd = true -> 0 < w -> 0 < h -> device_created e = true -> device_ready (this o')) /\
    (hwnd = true -> 0 < w -> 0 < h -> view (this o') = {| m_width := w; m_height := h |}).
Proof.
  destruct o as [r wd].
  unfold all_created, target_created,
    depth_created, shaders_created, buffers_created, same_scene, device_ready.
  unfold_init. rewrite !SUCCEEDED_FAILED.
  destruct hwnd; [|close_branch].
  destruct ((w <=? 0) || (h <=? 0)) eqn:Edims.
  { assert (~ (0 < w /\ 0 < h)).
    { destruct (Z.leb_spec w 0), (Z.leb_spec h 0); simpl in Edims; try discriminate; lia. }
    close_branch. }
  assert (Hpos : 0 < w /\ 0 < h).
  { destruct (Z.leb_spec w 0), (Z.leb_spec h 0); simpl in Edims; try discriminate; lia. }
  assert (Hfull : forall ms : list XMFLOAT4,
            Some (resize_256 ms) = Some (resize_256 (resize_256 ms)) /\
            length (resize_256 (resize_256 ms)) = 256%nat).
  { intros ms. rewrite (resize_256_full (resize_256 ms)) by apply length_resize_256.
    split; [reflexivity | apply length_resize_256]. }
  run.
  match goal with
  | |- context [CreateDeviceAndSwapChain e {| this := ?r0; o_world := ?w0 |}] =>
    destruct (CreateDeviceAndSwapChain_run e r0 w0) as (wd' & -> & [new Hnew] & _);
    cbn [logs] in Hnew; rewrite <- ?app_assoc in Hnew
  end.
  destruct (device_created e) eqn:Edev; run; bools; [|close_branch].
  unfold set_device_triple; run.
  rest_of_init e.
  do 2 eexists. split; [reflexivity|]. split; [logs_part|].
  unfold fully_initialized.
  cbn [this dev pipe mat volres vol view cam par m_device m_context m_swapChain
       m_materialSRV m_materialBuffer m_materials].
  destruct (Hfull (m_materials (mat r))). intuition.
Qed.

(** ** [Shutdown] *)

Ltac solve_logs :=
  cbn [logs gpu o_world this g_world]; repeat rewrite <- app_assoc; reflexivity.

Lemma Shutdown_run r wd :
  exists wd',
    Shutdown {| this := r; o_world := wd |} = Ret tt {| this := released r; o_world := wd' |} /\
    reported_no_error wd wd'.
Proof.
  unfold Shutdown. run. destruct (m_context (dev r)); run;
    (eexists; split; [reflexivity|]);
    eexists; (split; [solve_logs|]);
    repeat constructor; discriminate.
Qed.

Lemma Render_without_device e r wd :
  m_context (dev r) = false \/ m_device (dev r) = false \/ m_swapChain (dev r) = false ->
  exists wd',
    Render e {| this := r; o_world := wd |} = Ret tt {| this := r; o_world := wd' |} /\
    gpu wd' = gpu wd /\ reported_error wd wd'.
Proof.
  intros H. unfold Render, try_catch, Render_body. run.
  assert (E : negb (m_context (dev r)) || negb (m_device (dev r))
              || negb (m_swapChain (dev r)) = true).
  { destruct H as [H|[H|H]]; rewrite H; simpl; rewrite ?orb_true_r; reflexivity. }
  rewrite E. eexists. split; [reflexivity|]. split; [reflexivity|].
  eexists. split; [reflexivity|]. now constructor.
Qed.

(** X7: [VolumeRenderer::Shutdown] always returns and resets the device,
    the pipeline, the material buffer and the textures, keeping the volume
    properties, the camera and the rendering parameters.  A [Render] after
    it returns, issues none of its calls and logs an error; a second
    [Shutdown] changes nothing more. *)
Theorem Shutdown_then_Render (e : RenderEnv) (o : Obj) :
  exists o1 o2 o3,
    Shutdown o = Ret tt o1 /\
    this o1 = released (this o) /\
    same_scene (this o) (this o1) /\
    Render e o1 = Ret tt o2 /\
    this o2 = this o1 /\
    issued (o_world o1) (o_world o2) [] /\
    reported_error (o_world o1) (o_world o2) /\
    Shutdown o1 = Ret tt o3 /\
    this o3 = this o1.
Proof.
  destruct o as [r wd].
  destruct (Shutdown_run r wd) as (w1 & H1 & _).
  destruct (Render_without_device e (released r) w1) as (w2 & H2 & G2 & E2); [now left|].
  destruct (Shutdown_run (released r) w1) as (w3 & H3 & _).
  do 3 eexists. split; [exact H1|]. split; [reflexivity|].
  split; [repeat split|]. split; [exact H2|]. split; [reflexivity|].
  split; [unfold issued; cbn; now rewrite G2, app_nil_r|].
  split; [exact E2|]. split; [exact H3|]. reflexivity.
Qed.

(** ** [Resize] *)

Ltac unfold_resize :=
  unfold Resize, CreateDepthStencilView, SetupViewport, gpu_call, no_throw, created,
    set_rtv, set_dsv.

Lemma Resize_refuses e w h r wd :
  resize_refused w h r ->
  exists wd',
    Resize e w h {| this := r; o_world := wd |} = Ret tt {| this := r; o_world := wd' |} /\
    issued wd wd' [] /\ reported_error wd wd'.
Proof.
  intros H. unfold_resize. run.
  destruct ((w <=? 0) || (h <=? 0)) eqn:Edims; run.
  - eexists. split; [reflexivity|]. split; [unfold issued; cbn; now rewrite app_nil_r|].
    eexists. split; [solve_logs|].
    find_error.
  - destruct H as [H|[H|H]].
    { destruct (Z.leb_spec w 0), (Z.leb_spec h 0); simpl in Edims; try discriminate; lia. }
    { destruct (Z.leb_spec w 0), (Z.leb_spec h 0); simpl in Edims; try discriminate; lia. }
    assert (E : negb (m_device (dev r)) || negb (m_swapChain (dev r)) = true).
    { destruct H as [H|H]; rewrite H; simpl; rewrite ?orb_true_r; reflexivity. }
    rewrite E. run.
    eexists. split; [reflexivity|]. split; [unfold issued; cbn; now rewrite app_nil_r|].
    eexists. split; [solve_logs|].
    find_error.
Qed.

Ltac failed_resize :=
  do 2 eexists; (split; [reflexivity|]);
  cbn [this dev pipe mat volres vol view cam par m_device m_context m_swapChain
       m_renderTargetView m_depthStencilView];
  (split; [auto|]); (split; [repeat split|]);
  (split; [discriminate|]); intros _;
  (split; [reflexivity|]); (split; [reflexivity|]);
  (split; [unfold issued; cbn; now rewrite app_nil_r|]);
  eexists; (split; [solve_logs|]);
  find_error.

Lemma Resize_attempt e w h r wd :
  0 < w -> 0 < h -> device_ready r ->
  exists r' wd',
    Resize e w h {| this := r; o_world := wd |} = Ret tt {| this := r'; o_world := wd' |} /\
    device_ready r' /\ others_kept r r' /\
    (resized e = true ->
       view r' = {| m_width := w; m_height := h |} /\
       m_renderTargetView (dev r') = true /\
       m_depthStencilView (dev r') = Some (w, h) /\
       issued wd wd' [RSSetViewports (F32.of_Z w) (F32.of_Z h)] /\
       reported_no_error wd wd') /\
    (resized e = false ->
       view r' = view r /\
       m_depthStencilView (dev r') = None /\
       issued wd wd' [] /\
       reported_error wd wd').
Proof.
  intros Hw Hh (Ec & Ed & Es). unfold resized, target_created, depth_created, others_kept,
    same_scene, device_ready.
  unfold_resize. rewrite !SUCCEEDED_FAILED. run.
  assert (Edims : (w <=? 0) || (h <=? 0) = false).
  { destruct (Z.leb_spec w 0), (Z.leb_spec h 0); simpl; lia || reflexivity. }
  rewrite Edims. run. rewrite Ed, Es. run. bools.
  destruct (FAILED (hrResizeBuffers e)); run; bools; [failed_resize|].
  destruct (FAILED (hrGetBuffer (resize_target_env e))); run; bools; [failed_resize|].
  destruct (FAILED (hrCreateRenderTargetView (resize_target_env e))); run; bools;
    [failed_resize|].
  destruct (FAILED (hrCreateTexture2D (resize_depth_env e))); run; bools; [failed_resize|].
  destruct (FAILED (hrCreateDepthStencilView (resize_depth_env e))); run; bools;
    [failed_resize|].
  rewrite Ec. run.
  do 2 eexists. split; [reflexivity|].
  cbn [this dev pipe mat volres vol view cam par m_device m_context m_swapChain
       m_renderTargetView m_depthStencilView].
  split; [auto|]. split; [repeat split|]. split; [|discriminate]. intros _.
  split; [reflexivity|]. split; [reflexivity|]. split; [reflexivity|].
  split; [reflexivity|].
  eexists. split; [solve_logs|].
  repeat constructor; discriminate.
Qed.

(** ** Rendering parameters *)

Lemma clamp_in_range lo hi v : within lo hi v -> fmax lo (fmin hi v) = v.
Proof.
  intros [H1 H2]. unfold fmax, fmin, F32.gtb.
  rewrite (not_ltb_of_leb _ _ H2), (not_ltb_of_leb _ _ H1). reflexivity.
Qed.

Lemma opacity_bounds_ordered : F32.leb f0_0 f1_0 = true.
Proof. vm_compute. reflexivity. Qed.
Lemma brightness_bounds_ordered : F32.leb (- f1_0)%f32 f1_0 = true.
Proof. vm_compute. reflexivity. Qed.
Lemma contrast_bounds_ordered : F32.leb f0_1 f5_0 = true.
Proof. vm_compute. reflexivity. Qed.

Lemma CTViewer_SetRenderingParams_run a b c mode show r w :
  exists w',
    CTViewer.SetRenderingParams a b c mode show {| g_renderer := Some r; g_world := w |} =
    Ret tt {| g_renderer :=
                Some (set_par (fun _ =>
                        {| m_opacity := fmax f0_0 (fmin f1_0 a);
                           m_brightness := fmax (- f1_0)%f32 (fmin f1_0 b);
                           m_contrast := fmax f0_1 (fmin f5_0 c);
                           m_renderMode := mode;
                           m_showLabels := show |}) r);
              g_world := w' |} /\
    issued w w' [] /\ reported_no_error w w'.
Proof.
  eexists. split; [reflexivity|]. split; [unfold issued; cbn; now rewrite app_nil_r|].
  eexists. split; [solve_logs|]. repeat constructor. discriminate.
Qed.

(** X9: the exported [SetRenderingParams] on a process that has a renderer.
    The render mode and the label switch are stored as given.  Opacity is
    clamped to [0, 1], brightness to [-1, 1] and contrast to [0.1, 5]: for
    an argument that is not a NaN the stored value lies within the bounds,
    and an argument already within them is stored unchanged.  Nothing else
    of the renderer changes, no error is logged and no call is issued on
    the device context. *)
Theorem SetRenderingParams_clamps (a b c : float) (mode : Z) (show : bool)
    (r : VolumeRenderer) (w : World) :
  exists r' w',
    CTViewer.SetRenderingParams a b c mode show {| g_renderer := Some r; g_world := w |}
    = Ret tt {| g_renderer := Some r'; g_world := w' |} /\
    m_renderMode (par r') = mode /\ m_showLabels (par r') = show /\
    (F32.is_nan a = false -> within f0_0 f1_0 (m_opacity (par r'))) /\
    (F32.is_nan b = false -> within (- f1_0)%f32 f1_0 (m_brightness (par r'))) /\
    (F32.is_nan c = false -> within f0_1 f5_0 (m_contrast (par r'))) /\
    (within f0_0 f1_0 a -> m_opacity (par r') = a) /\
    (within (- f1_0)%f32 f1_0 b -> m_brightness (par r') = b) /\
    (within f0_1 f5_0 c -> m_contrast (par r') = c) /\
    devices_kept r r' /\ vol r' = vol r /\ cam r' = cam r /\
    issued w w' [] /\ reported_no_error w w'.
Proof.
  destruct (CTViewer_SetRenderingParams_run a b c mode show r w) as (w' & H & Hi & He).
  do 2 eexists. split; [exact H|]. cbn [par set_par m_renderMode m_showLabels m_opacity
    m_brightness m_contrast].
  split; [reflexivity|]. split; [reflexivity|].
  split; [apply clamp_within, opacity_bounds_ordered|].
  split; [apply clamp_within, brightness_bounds_ordered|].
  split; [apply clamp_within, contrast_bounds_ordered|].
  split; [apply clamp_in_range|]. split; [apply clamp_in_range|].
  split; [apply clamp_in_range|]. repeat split; assumption.
Qed.

(** ** Loading a volume and its labels *)

(** X10: the resources after a [LoadVolumeData] whose arguments are accepted,
    on a renderer with a device.  The call succeeds exactly when both
    creation calls do.  The texture is described by the new dimensions, with
    row pitch [width] and slice pitch [width * height] as a [UINT]; when
    [CreateTexture3D] fails the texture pointer is left null while the view
    of the volume loaded before is kept; when only the view cannot be
    created the new texture is kept without a view.  Labels and everything
    else are untouched, and no call is issued on the device context. *)
Theorem LoadVolumeData_installs e bytes w h d vs r wd :
  0 < w -> 0 < h -> 0 < d -> m_device (dev r) = true ->
  let tex := texture_of (stored w h d vs) bytes in
  exists b r' wd',
    LoadVolumeData e (Some bytes) w h d vs {| this := r; o_world := wd |}
    = Ret b {| this := r'; o_world := wd' |} /\
    b = negb (FAILED (hrCreateTexture3D e)) && negb (FAILED (hrCreateShaderResourceView e)) /\
    m_volumeTexture (volres r') = (if FAILED (hrCreateTexture3D e) then None else Some tex) /\
    m_volumeSRV (volres r') =
      (if FAILED (hrCreateTexture3D e) then m_volumeSRV (volres r)
       else if FAILED (hrCreateShaderResourceView e) then None else Some tex) /\
    m_labelTexture (volres r') = m_labelTexture (volres r) /\
    m_labelSRV (volres r') = m_labelSRV (volres r) /\
    rest_kept r r' /\ issued wd wd' [].
Proof.
  intros Hw Hh Hd Hdev tex. subst tex. unfold LoadVolumeData, CreateVolumeTexture, created,
    rest_kept. rewrite !SUCCEEDED_FAILED.
  rewrite (positive_dims w h d Hw Hh Hd). run. rewrite Hdev. run.
  unfold non_positive_dims. cbn [m_volumeWidth m_volumeHeight m_volumeDepth].
  rewrite (positive_dims w h d Hw Hh Hd).
  destruct (FAILED (hrCreateTexture3D e)); run;
    [|destruct (FAILED (hrCreateShaderResourceView e)); run];
    (do 3 eexists; split; [reflexivity|]);
    cbn [volres set_volres m_volumeTexture m_volumeSRV m_labelTexture m_labelSRV negb andb];
    repeat split; unfold issued; cbn; now rewrite app_nil_r.
Qed.

(** X11: the resources after a [LoadLabelData] whose arguments are accepted,
    on a renderer with a device that holds volume dimensions.  The label
    texture is described by the stored volume dimensions, never by the
    arguments, and the volume properties are not changed; failure of
    [CreateTexture3D] leaves the label texture null and the label view of
    before in place.  The volume texture and view and everything else are
    untouched. *)
Theorem LoadLabelData_installs e bytes w h d r wd :
  0 < w -> 0 < h -> 0 < d -> m_device (dev r) = true ->
  non_positive_dims (vol r) = false ->
  let tex := texture_of (vol r) bytes in
  exists b r' wd',
    LoadLabelData e (Some bytes) w h d {| this := r; o_world := wd |}
    = Ret b {| this := r'; o_world := wd' |} /\
    b = negb (FAILED (hrCreateTexture3D e)) && negb (FAILED (hrCreateShaderResourceView e)) /\
    m_labelTexture (volres r') = (if FAILED (hrCreateTexture3D e) then None else Some tex) /\
    m_labelSRV (volres r') =
      (if FAILED (hrCreateTexture3D e) then m_labelSRV (volres r)
       else if FAILED (hrCreateShaderResourceView e) then None else Some tex) /\
    m_volumeTexture (volres r') = m_volumeTexture (volres r) /\
    m_volumeSRV (volres r') = m_volumeSRV (volres r) /\
    vol r' = vol r /\
    rest_kept r r' /\ issued wd wd' [].
Proof.
  intros Hw Hh Hd Hdev Hvol tex. subst tex. unfold LoadLabelData, CreateLabelTexture, created,
    rest_kept. rewrite !SUCCEEDED_FAILED.
  rewrite (positive_dims w h d Hw Hh Hd). run. rewrite Hdev. run. rewrite Hvol.
  destruct (FAILED (hrCreateTexture3D e)); run;
    [|destruct (FAILED (hrCreateShaderResourceView e)); run];
    (do 3 eexists; split; [reflexivity|]);
    cbn [volres set_volres m_volumeTexture m_volumeSRV m_labelTexture m_labelSRV negb andb];
    repeat split; unfold issued; cbn; now rewrite app_nil_r.
Qed.

Ltac no_error := eexists; (split; [solve_logs|]); cbn [app]; repeat constructor; discriminate.
Ltac an_error := eexists; (split; [solve_logs|]); find_error.
Ltac no_calls := unfold issued; cbn [gpu o_world this g_world]; now rewrite app_nil_r.

(** Whatever its arguments and the driver's answers, [LoadVolumeData] returns,
    touches only the stored volume properties and the volume texture and
    view, and logs an error exactly when it returns failure. *)
Lemma LoadVolumeData_frame e data w h d vs r wd :
  exists b r' wd',
    LoadVolumeData e data w h d vs {| this := r; o_world := wd |}
    = Ret b {| this := r'; o_world := wd' |} /\
    rest_kept r r' /\
    m_labelTexture (volres r') = m_labelTexture (volres r) /\
    m_labelSRV (volres r') = m_labelSRV (volres r) /\
    issued wd wd' [] /\
    (b = false -> reported_error wd wd') /\
    (b = true -> reported_no_error wd wd').
Proof.
  unfold LoadVolumeData, CreateVolumeTexture, rest_kept.
  destruct data as [bytes|]; run.
  2:{ do 3 eexists. split; [reflexivity|]. repeat split; try discriminate.
      - no_calls. - intros _. an_error. }
  destruct ((w <=? 0) || (h <=? 0) || (d <=? 0)) eqn:Edims; run.
  { do 3 eexists. split; [reflexivity|]. repeat split; try discriminate.
    - no_calls. - intros _. an_error. }
  destruct (m_device (dev r)) eqn:Edev; run.
  2:{ do 3 eexists. split; [reflexivity|]. repeat split; try discriminate.
      - no_calls. - intros _. an_error. }
  unfold non_positive_dims. cbn [m_volumeWidth m_volumeHeight m_volumeDepth].
  rewrite Edims.
  destruct (FAILED (hrCreateTexture3D e)); run.
  { do 3 eexists. split; [reflexivity|]. repeat split; try discriminate.
    - no_calls. - intros _. an_error. }
  destruct (FAILED (hrCreateShaderResourceView e)); run.
  { do 3 eexists. split; [reflexivity|]. repeat split; try discriminate.
    - no_calls. - intros _. an_error. }
  do 3 eexists. split; [reflexivity|]. repeat split; try discriminate.
  - no_calls. - intros _. no_error.
Qed.

Lemma LoadLabelData_frame e data w h d r wd :
  exists b r' wd',
    LoadLabelData e data w h d {| this := r; o_world := wd |}
    = Ret b {| this := r'; o_world := wd' |} /\
    rest_kept r r' /\ vol r' = vol r /\
    m_volumeTexture (volres r') = m_volumeTexture (volres r) /\
    m_volumeSRV (volres r') = m_volumeSRV (volres r) /\
    issued wd wd' [] /\
    (b = false -> reported_error wd wd') /\
    (b = true -> reported_no_error wd wd').
Proof.
  unfold LoadLabelData, CreateLabelTexture, rest_kept.
  destruct data as [bytes|]; run.
  2:{ do 3 eexists. split; [reflexivity|]. repeat split; try discriminate.
      - no_calls. - intros _. an_error. }
  destruct ((w <=? 0) || (h <=? 0) || (d <=? 0)) eqn:Edims; run.
  { do 3 eexists. split; [reflexivity|]. repeat split; try discriminate.
    - no_calls. - intros _. an_error. }
  destruct (m_device (dev r)) eqn:Edev; run.
  2:{ do 3 eexists. split; [reflexivity|]. repeat split; try discriminate.
      - no_calls. - intros _. an_error. }
  destruct (non_positive_dims (vol r)); run.
  { do 3 eexists. split; [reflexivity|]. repeat split; try discriminate.
    - no_calls. - intros _. an_error. }
  destruct (FAILED (hrCreateTexture3D e)); run.
  { do 3 eexists. split; [reflexivity|]. repeat split; try discriminate.
    - no_calls. - intros _. an_error. }
  destruct (FAILED (hrCreateShaderResourceView e)); run.
  { do 3 eexists. split; [reflexivity|]. repeat split; try discriminate.
    - no_calls. - intros _. an_error. }
  do 3 eexists. split; [reflexivity|]. repeat split; try discriminate.
  - no_calls. - intros _. no_error.
Qed.

Lemma call_renderer_Ret {A} (m : M Obj A) r w a r' w' g :
  m {| this := r; o_world := w |} = Ret a {| this := r'; o_world := w' |} ->
  call_renderer r m {| g_renderer := g; g_world := w |}
  = Ret a {| g_renderer := Some r'; g_world := w' |}.
Proof. intros H. unfold call_renderer. cbn [g_world]. now rewrite H. Qed.

Lemma reported_error_after w0 w w' :
  extends w0 w -> reported_error w w' -> reported_error w0 w'.
Proof. apply extends_reported. Qed.

Lemma reported_error_before w0 w w' :
  reported_error w0 w -> extends w w' -> reported_error w0 w'.
Proof.
  intros (n1 & H1 & E1) [n2 H2]. exists (n1 ++ n2). split.
  - now rewrite H2, H1, app_assoc.
  - apply Exists_app. now left.
Qed.

Lemma reported_no_error_trans w0 w w' :
  reported_no_error w0 w -> reported_no_error w w' -> reported_no_error w0 w'.
Proof.
  intros (n1 & H1 & E1) (n2 & H2 & E2). exists (n1 ++ n2). split.
  - now rewrite H2, H1, app_assoc.
  - apply Forall_app. now split.
Qed.

Lemma logged_info w msg :
  reported_no_error w {| logs := logs w ++ [{| severity := LOG_INFO; message := msg |}];
                         gpu := gpu w |}.
Proof. eexists. split; [reflexivity|]. repeat constructor. discriminate. Qed.

Lemma logged_extends w msg sev :
  extends w {| logs := logs w ++ [{| severity := sev; message := msg |}]; gpu := gpu w |}.
Proof. eexists. reflexivity. Qed.

Lemma CTViewer_LoadVolumeData_run e data w h d vs r wd :
  exists b r' wd',
    CTViewer.LoadVolumeData e data w h d vs {| g_renderer := Some r; g_world := wd |}
    = Ret b {| g_renderer := Some r'; g_world := wd' |} /\
    rest_kept r r' /\
    m_labelTexture (volres r') = m_labelTexture (volres r) /\
    m_labelSRV (volres r') = m_labelSRV (volres r) /\
    issued wd wd' [] /\
    (b = false -> reported_error wd wd') /\
    (b = true -> reported_no_error wd wd').
Proof.
  unfold CTViewer.LoadVolumeData, try_catch, CTViewer.renderer. run.
  destruct data as [bytes|]; run.
  2:{ do 3 eexists. split; [reflexivity|]. unfold rest_kept. repeat split; try discriminate.
      - no_calls. - intros _. an_error. }
  destruct ((w <=? 0) || (h <=? 0) || (d <=? 0)) eqn:Edims; run.
  { do 3 eexists. split; [reflexivity|]. unfold rest_kept. repeat split; try discriminate.
    - no_calls. - intros _. an_error. }
  match goal with
  | |- context [call_renderer r ?m {| g_renderer := ?g; g_world := ?w0 |}] =>
    destruct (LoadVolumeData_frame e (Some bytes) w h d vs r w0)
      as (b & r' & w1 & H & K & L1 & L2 & G & Hf & Ht);
    rewrite (call_renderer_Ret _ _ _ _ _ _ g H)
  end.
  destruct b; run.
  - do 3 eexists. split; [reflexivity|]. split; [exact K|]. split; [exact L1|].
    split; [exact L2|]. split.
    { unfold issued in *. cbn [gpu] in *. now rewrite G. }
    split; [discriminate|]. intros _.
    eapply reported_no_error_trans; [apply logged_info|].
    eapply reported_no_error_trans; [apply (Ht eq_refl)|]. apply logged_info.
  - do 3 eexists. split; [reflexivity|]. split; [exact K|]. split; [exact L1|].
    split; [exact L2|]. split.
    { unfold issued in *. cbn [gpu] in *. now rewrite G. }
    split; [|discriminate]. intros _.
    eapply reported_error_before; [|apply logged_extends].
    eapply reported_error_after; [apply logged_extends|]. apply (Hf eq_refl).
Qed.

(** ** When [UpdateMaterials] is defined *)

Lemma write_colors_None cs n : forall i ms,
  n <> 0%nat -> (length cs < i + n \/ length ms < i + n)%nat ->
  write_colors cs i n ms = None.
Proof.
  induction n as [|n IH]; intros i ms Hn H; [congruence|]. simpl.
  destruct (cs !! i) as [argb|] eqn:Hi; [|reflexivity].
  apply lookup_lt_Some in Hi.
  destruct (decide (i < length ms)%nat) as [Hm|Hm]; [|reflexivity].
  destruct n as [|n']; [lia|].
  apply IH; [lia|]. rewrite length_insert. lia.
Qed.

Lemma clamp_count_bounds count : 1 <= clamp_count count <= 256.
Proof.
  unfold clamp_count, imin, imax.
  destruct (Z.leb_spec count 0); simpl.
  - destruct (Z.gtb_spec 1 count); [|lia]. simpl. lia.
  - destruct (Z.gtb_spec count 256); simpl; [|lia].
    destruct (Z.gtb_spec 1 count); [lia|].
    destruct (Z.ltb_spec 256 count); lia.
Qed.

Lemma upload_materials hr r : m_materials (mat (upload hr r)) = m_materials (mat r).
Proof. unfold upload. destruct (_ && _); [destruct (SUCCEEDED hr)|]; reflexivity. Qed.

Lemma upload_rest hr r :
  dev (upload hr r) = dev r /\ pipe (upload hr r) = pipe r /\
  volres (upload hr r) = volres r /\ vol (upload hr r) = vol r /\
  view (upload hr r) = view r /\ cam (upload hr r) = cam r /\ par (upload hr r) = par r /\
  m_materialSRV (mat (upload hr r)) = m_materialSRV (mat r).
Proof. unfold upload. destruct (_ && _); [destruct (SUCCEEDED hr)|]; repeat split. Qed.

Lemma upload_buffer hr r :
  m_materialBuffer (mat (upload hr r)) =
  if can_upload hr r then Some (m_materials (mat r)) else m_materialBuffer (mat r).
Proof.
  unfold upload, can_upload. destruct (_ && _); [destruct (SUCCEEDED hr)|]; reflexivity.
Qed.

(** X13: [VolumeRenderer::UpdateMaterials] with a non-null array is defined
    exactly when the count it runs to, the argument clamped to [1, 256],
    fits both the caller's array and the material table.  Then it returns,
    the table keeps its length, and the GPU buffer holds the new table if
    the context and the buffer exist and [Map] succeeds, and is left as it
    was otherwise.  When the count exceeds the array or the table the loop
    reads or writes out of bounds. *)
Theorem UpdateMaterials_defined_iff (hrMap : HRESULT) (cs : list Z) (count : Z) (o : Obj) :
  let n := Z.to_nat (clamp_count count) in
  let r := this o in
  ((n <= length cs /\ n <= length (m_materials (mat r)))%nat ->
     exists o',
       UpdateMaterials hrMap (Some cs) count o = Ret tt o' /\
       length (m_materials (mat (this o'))) = length (m_materials (mat r)) /\
       m_materialBuffer (mat (this o')) =
         (if can_upload hrMap r then Some (m_materials (mat (this o')))
          else m_materialBuffer (mat r))) /\
  ((length cs < n \/ length (m_materials (mat r)) < n)%nat ->
     UpdateMaterials hrMap (Some cs) count o = Undefined).
Proof.
  intros n r. subst n r. destruct o as [r w]. cbn [this].
  pose proof (UpdateMaterials_run hrMap cs count r w) as Hrun.
  pose proof (clamp_count_bounds count) as Hb.
  split.
  - intros [Hcs Hms].
    destruct (write_colors_spec cs (Z.to_nat (clamp_count count)) 0 (m_materials (mat r)))
      as (ms & Hw & Hl & _); [lia | lia |].
    rewrite Hw in Hrun.
    destruct (observe_Ret_inv _ _ _ _ Hrun) as (o' & Ho' & Hthis).
    exists o'. split; [exact Ho'|]. rewrite Hthis, upload_materials, upload_buffer.
    split; [exact Hl|]. reflexivity.
  - intros H. rewrite write_colors_None in Hrun by lia.
    destruct (UpdateMaterials hrMap (Some cs) count _); try discriminate. reflexivity.
Qed.

(** ** The calls of a frame *)

Section Emits.
Variable r : VolumeRenderer.

Lemma emits_ret : emits r (mret tt) [].
Proof. intros w. exists w. split; [reflexivity|]. unfold issued. now rewrite app_nil_r. Qed.

Lemma emits_Log msg sev : emits r (Log msg sev) [].
Proof.
  intros w. eexists. split; [reflexivity|]. unfold issued. cbn. now rewrite app_nil_r.
Qed.

Lemma emits_gpu_call t c : t c = None -> emits r (gpu_call t c) [c].
Proof. intros H w. unfold gpu_call. rewrite H. eexists. split; reflexivity. Qed.

Lemma emits_bind (m k : M Obj unit) c1 c2 :
  emits r m c1 -> emits r k c2 -> emits r (m;; k) (c1 ++ c2).
Proof.
  intros Hm Hk w. destruct (Hm w) as (w1 & H1 & E1).
  rewrite (bind_Ret _ _ _ _ _ H1).
  destruct (Hk w1) as (w2 & H2 & E2).
  exists w2. split; [exact H2|]. unfold issued in *. now rewrite E2, E1, app_assoc.
Qed.

Lemma emits_self (k : VolumeRenderer -> M Obj unit) c :
  emits r (k r) c -> emits r (self ≫= k) c.
Proof. intros H w. exact (H w). Qed.

Lemma emits_if (b : bool) (m k : M Obj unit) c1 c2 :
  emits r m c1 -> emits r k c2 -> emits r (if b then m else k) (if b then c1 else c2).
Proof. now destruct b. Qed.
End Emits.

Ltac emit Hno :=
  repeat lazymatch goal with
  | |- emits _ (self ≫= _) _ => apply emits_self; cbv beta
  | |- emits _ (_ ≫= _) _ => apply emits_bind
  | |- emits _ (if _ then _ else _) _ => apply emits_if
  | |- emits _ (Log _ _) _ => apply emits_Log
  | |- emits _ (mret _) _ => apply emits_ret
  | |- emits _ (gpu_call _ _) _ => apply emits_gpu_call; apply Hno
  end.

Lemma UpdateConstantBuffers_emits e r :
  m_context (dev r) = true -> m_device (dev r) = true -> (forall c, throws e c = None) ->
  exists calls, emits r (UpdateConstantBuffers e) calls /\
    count_calls is_draw calls = 0%nat /\ count_calls is_present calls = 0%nat /\
    existsb (binds_texture 0) calls = false /\ existsb (binds_texture 1) calls = false /\
    existsb (binds_texture 2) calls = m_constantBuffer (pipe r) && m_materialSRV (mat r) /\
    existsb binds_sampler calls = false /\
    (m_constantBuffer (pipe r) = true -> In (transform_upload r) calls) /\
    (m_constantBuffer (pipe r) = true ->
     SUCCEEDED (hrCreateBuffer_renderParams e) = true -> In (params_upload r) calls).
Proof.
  intros Ec Ed Hno. unfold UpdateConstantBuffers.
  eexists. split.
  - apply emits_self. rewrite Ec, Ed. cbn [negb orb]. emit Hno.
  - unfold transform_upload, params_upload.
    destruct (m_constantBuffer (pipe r)), (SUCCEEDED (hrCreateBuffer_renderParams e)),
      (m_materialSRV (mat r)); repeat split; intros; try discriminate;
      cbn [app In negb]; auto 6.
Qed.

Lemma count_calls_app f c1 c2 :
  count_calls f (c1 ++ c2) = (count_calls f c1 + count_calls f c2)%nat.
Proof. induction c1 as [|c c1 IH]; cbn; [reflexivity | rewrite IH; lia]. Qed.

Lemma Render_body_emits e r :
  device_ready r -> (forall c, throws e c = None) ->
  exists before,
    emits r (Render_body e) (before ++ [DrawIndexed 36; Present 1]) /\
    count_calls is_draw before = 0%nat /\ count_calls is_present before = 0%nat /\
    existsb (binds_texture 0) before = bool_decide (is_Some (m_volumeSRV (volres r))) /\
    existsb (binds_texture 1) before = bool_decide (is_Some (m_labelSRV (volres r))) /\
    existsb (binds_texture 2) before = m_constantBuffer (pipe r) && m_materialSRV (mat r) /\
    existsb binds_sampler before = m_volumeSampler (pipe r) /\
    (m_constantBuffer (pipe r) = true -> In (transform_upload r) before) /\
    (m_constantBuffer (pipe r) = true ->
     SUCCEEDED (hrCreateBuffer_renderParams e) = true -> In (params_upload r) before).
Proof.
  intros (Ec & Ed & Es) Hno.
  destruct (UpdateConstantBuffers_emits e r Ec Ed Hno)
    as (cb & Hcb & D & P & T0 & T1 & T2 & Sm & Ut & Up).
  exists ([ClearRenderTargetView (m_renderTargetView (dev r));
           ClearDepthStencilView (bool_decide (is_Some (m_depthStencilView (dev r))));
           OMSetRenderTargets; IASetVertexBuffers; IASetIndexBuffer;
           IASetPrimitiveTopology; IASetInputLayout; VSSetShader] ++ cb ++
          [VSSetConstantBuffers 0; PSSetConstantBuffers 0; PSSetShader] ++
          (if bool_decide (is_Some (m_volumeSRV (volres r))) then [PSSetShaderResources 0] else []) ++
          (if bool_decide (is_Some (m_labelSRV (volres r))) then [PSSetShaderResources 1] else []) ++
          (if m_volumeSampler (pipe r) then [PSSetSamplers 0] else [])).
  split.
  - intros w. unfold Render_body.
    assert (H : emits r (Render_body e)
      ([ClearRenderTargetView (m_renderTargetView (dev r))] ++
       [ClearDepthStencilView (bool_decide (is_Some (m_depthStencilView (dev r))))] ++
       [OMSetRenderTargets] ++ [IASetVertexBuffers] ++ [IASetIndexBuffer] ++
       [IASetPrimitiveTopology] ++ [IASetInputLayout] ++ [VSSetShader] ++ cb ++
       [VSSetConstantBuffers 0] ++ [PSSetConstantBuffers 0] ++ [PSSetShader] ++
       (if bool_decide (is_Some (m_volumeSRV (volres r))) then [PSSetShaderResources 0] else []) ++
       (if bool_decide (is_Some (m_labelSRV (volres r))) then [PSSetShaderResources 1] else []) ++
       (if m_volumeSampler (pipe r) then [PSSetSamplers 0] else []) ++
       [DrawIndexed 36] ++ [Present 1] ++ (if FAILED (hrPresent e) then [] else []))).
    { unfold Render_body. apply emits_self. rewrite Ec, Ed, Es. cbn [negb orb].
      repeat lazymatch goal with
      | |- emits _ (UpdateConstantBuffers _ ≫= _) _ => apply emits_bind; [exact Hcb|]
      | |- emits _ (_ ≫= _) _ => apply emits_bind
      | |- emits _ (if _ then _ else _) _ => apply emits_if
      | |- emits _ (Log _ _) _ => apply emits_Log
      | |- emits _ (mret _) _ => apply emits_ret
      | |- emits _ (gpu_call _ _) _ => apply emits_gpu_call; apply Hno
      end. }
    destruct (H w) as (w' & Hr & Hi). exists w'. split; [exact Hr|].
    unfold issued in *. rewrite Hi. f_equal. cbn [app].
    rewrite <- !app_assoc. cbn [app]. do 3 f_equal.
    destruct (bool_decide (is_Some (m_volumeSRV (volres r)))),
      (bool_decide (is_Some (m_labelSRV (volres r)))), (m_volumeSampler (pipe r)),
      (FAILED (hrPresent e)); reflexivity.
  - assert (Hin : forall c, In c cb ->
              In c ([ClearRenderTargetView (m_renderTargetView (dev r));
                     ClearDepthStencilView
                       (bool_decide (is_Some (m_depthStencilView (dev r))));
                     OMSetRenderTargets; IASetVertexBuffers; IASetIndexBuffer;
                     IASetPrimitiveTopology; IASetInputLayout; VSSetShader] ++ cb ++
                    [VSSetConstantBuffers 0; PSSetConstantBuffers 0; PSSetShader] ++
                    (if bool_decide (is_Some (m_volumeSRV (volres r)))
                     then [PSSetShaderResources 0] else []) ++
                    (if bool_decide (is_Some (m_labelSRV (volres r)))
                     then [PSSetShaderResources 1] else []) ++
                    (if m_volumeSampler (pipe r) then [PSSetSamplers 0] else []))).
    { intros c Hc. apply in_or_app. right. apply in_or_app. now left. }
    cbn [app count_calls existsb is_draw is_present binds_texture binds_sampler orb Nat.add].
    cbn [app] in Hin.
    rewrite !count_calls_app, !existsb_app, D, P, T0, T1, T2, Sm.
    split; [|split; [|split; [|split; [|split; [|split; [|split]]]]]];
      try (intros; apply Hin; auto);
      destruct (bool_decide (is_Some (m_volumeSRV (volres r)))),
        (bool_decide (is_Some (m_labelSRV (volres r)))), (m_volumeSampler (pipe r)),
        (m_constantBuffer (pipe r)), (m_materialSRV (mat r)); reflexivity.
Qed.

(** ** The exported [Initialize] and [Shutdown] *)

Lemma VolumeRenderer_dtor_run r wd :
  exists wd',
    VolumeRenderer_dtor {| this := r; o_world := wd |}
    = Ret tt {| this := released r; o_world := wd' |} /\
    reported_no_error wd wd'.
Proof.
  unfold VolumeRenderer_dtor. run.
  match goal with
  | |- context [Shutdown {| this := r; o_world := ?w0 |}] =>
    destruct (Shutdown_run r w0) as (w1 & -> & E)
  end.
  exists w1. split; [reflexivity|].
  eapply reported_no_error_trans; [apply logged_info | exact E].
Qed.

(** [g_renderer = ...] and [g_renderer.reset()] destroy the object owned so
    far: its destructor runs and logs no error. *)
Lemma assign_run new g wd :
  exists wd',
    CTViewer.assign new {| g_renderer := g; g_world := wd |}
    = Ret tt {| g_renderer := new; g_world := wd' |} /\
    reported_no_error wd wd'.
Proof.
  unfold CTViewer.assign, CTViewer.renderer, on_temporary. run.
  destruct g as [old|]; run.
  - destruct (VolumeRenderer_dtor_run old wd) as (w1 & H & E).
    rewrite H. eauto.
  - exists wd. split; [reflexivity|].
    exists []. split; [now rewrite app_nil_r | constructor].
Qed.

Lemma CTViewer_Initialize_run e hwnd w h g wd :
  exists b g' wd',
    CTViewer.Initialize e hwnd w h {| g_renderer := g; g_world := wd |}
    = Ret b {| g_renderer := g'; g_world := wd' |} /\
    (b = true <-> hwnd = true /\ 0 < w /\ 0 < h /\ all_created e = true) /\
    (b = false -> reported_error wd wd') /\
    (hwnd = false \/ w <= 0 \/ h <= 0 -> g' = g /\ gpu wd' = gpu wd) /\
    (hwnd = true -> 0 < w -> 0 < h ->
       exists r', g' = Some r' /\
         same_scene (constructed (indeterminate e)) r' /\
         volres r' = volres (constructed (indeterminate e)) /\
         (b = true -> fully_initialized w h r') /\
         (device_created e = true -> device_ready r') /\
         view r' = {| m_width := w; m_height := h |}).
Proof.
  unfold CTViewer.Initialize, try_catch, VolumeRenderer_ctor. run.
  destruct hwnd; run; bools.
  2:{ do 3 eexists. split; [reflexivity|]. split; [intuition discriminate|].
      split; [intros _; eexists; split; [logs_eq | find_error]|].
      split; [split; reflexivity | discriminate]. }
  destruct ((w <=? 0) || (h <=? 0)) eqn:Edims; run.
  { assert (~ (0 < w /\ 0 < h)).
    { destruct (Z.leb_spec w 0), (Z.leb_spec h 0); simpl in Edims; try discriminate; lia. }
    do 3 eexists. split; [reflexivity|]. split; [intuition discriminate|].
    split; [intros _; eexists; split; [logs_eq | find_error]|].
    split; [split; reflexivity | intros; lia]. }
  assert (Hpos : 0 < w /\ 0 < h).
  { destruct (Z.leb_spec w 0), (Z.leb_spec h 0); simpl in Edims; try discriminate; lia. }
  match goal with
  | |- context [CTViewer.assign ?n {| g_renderer := ?g0; g_world := ?w0 |}] =>
    destruct (assign_run n g0 w0) as (w1 & -> & (n1 & L1 & _))
  end.
  run.
  match goal with
  | |- context [call_renderer ?r0 ?m {| g_renderer := ?g0; g_world := ?w0 |}] =>
    destruct (Initialize_cases e true w h {| this := r0; o_world := w0 |})
      as (b & [r' w2] & H & ([n2 L2] & Herr) & Hb & Hfull & Hscene & Hvol & Hdev & Hview);
    rewrite (call_renderer_Ret _ _ _ _ _ _ g0 H)
  end.
  cbn [this o_world logs] in *.
  exists b, (Some r'). destruct b; run; bools;
    (eexists; split; [reflexivity|]);
    (split; [intuition|]).
  - split; [discriminate|]. split; [intros; lia|]. intros _ _ _.
    exists r'. intuition.
  - split.
    { intros _. eexists. split; [logs_eq | find_error]. }
    split; [intros; lia|]. intros _ _ _. exists r'. intuition.
Qed.

Lemma CTViewer_Shutdown_run g wd :
  exists wd',
    CTViewer.Shutdown {| g_renderer := g; g_world := wd |}
    = Ret tt {| g_renderer := None; g_world := wd' |} /\
    reported_no_error wd wd'.
Proof.
  unfold CTViewer.Shutdown, try_catch, CTViewer.renderer. run.
  destruct g as [r|]; run.
  - match goal with
    | |- context [call_renderer r ?m {| g_renderer := ?g0; g_world := ?w0 |}] =>
      destruct (Shutdown_run r w0) as (w1 & H & E1);
      rewrite (call_renderer_Ret _ _ _ _ _ _ g0 H)
    end.
    match goal with
    | |- context [CTViewer.assign ?n {| g_renderer := ?g0; g_world := ?w0 |}] =>
      destruct (assign_run n g0 w0) as (w2 & -> & E2)
    end.
    run. eexists. split; [reflexivity|].
    eapply reported_no_error_trans; [apply logged_info|].
    eapply reported_no_error_trans; [exact E1|].
    eapply reported_no_error_trans; [exact E2|]. apply logged_info.
  - eexists. split; [reflexivity|].
    eexists. split; [solve_logs|]. repeat constructor; discriminate.
Qed.

(** ** Sequences of exported calls *)

Lemma coherent_same_devices r r' :
  dev r' = dev r -> length (m_materials (mat r')) = length (m_materials (mat r)) ->
  volres r' = volres r ->
  coherent r -> coherent r'.
Proof. unfold coherent. intros -> -> ->. auto. Qed.

Lemma coherent_fully_initialized w h i r :
  fully_initialized w h r -> volres r = volres (constructed i) -> coherent r.
Proof.
  intros (Hd & _ & _ & _ & Hl & _) Hv. unfold coherent. rewrite Hd, Hv. cbn. auto 10.
Qed.

Lemma coherent_ready_or_not r :
  coherent r -> device_ready r \/ (m_device (dev r) = false /\ m_swapChain (dev r) = false).
Proof.
  unfold coherent, device_ready. intros (_ & -> & -> & _).
  destruct (m_device (dev r)); auto.
Qed.

(** A texture described by positive dimensions and created from an array
    that covers it is backed: the slice pitch does not wrap. *)
Lemma backed_texture_of v bytes :
  non_positive_dims v = false -> covers v bytes = true ->
  backed (Some (texture_of v bytes)).
Proof.
  unfold non_positive_dims, covers, backed, texture_of, to_UINT, INT_MAX.
  cbn [Width Height Depth pSysMem SysMemPitch SysMemSlicePitch].
  intros Hpos Hc.
  apply orb_false_elim in Hpos as [Hpos Hd]. apply orb_false_elim in Hpos as [Hw Hh].
  apply andb_prop in Hc as [Hi Hl].
  apply Z.leb_gt in Hw, Hh, Hd. apply Z.leb_le in Hi, Hl.
  split; [exact Hl|]. split; [reflexivity|].
  apply Z.mod_small. nia.
Qed.

Lemma stored_positive w h d vs :
  0 < w -> 0 < h -> 0 < d -> non_positive_dims (stored w h d vs) = false.
Proof. intros. unfold non_positive_dims, stored. cbn. now apply positive_dims. Qed.

(** [LoadVolumeData] keeps the textures backed when the array it is given
    covers the texture it creates. *)
Lemma LoadVolumeData_backed e data w h d vs r wd :
  (forall bytes, data = Some bytes -> m_device (dev r) = true ->
                 0 < w -> 0 < h -> 0 < d ->
                 covers (stored w h d vs) bytes = true) ->
  backed (m_volumeTexture (volres r)) -> backed (m_volumeSRV (volres r)) ->
  exists b r' wd',
    LoadVolumeData e data w h d vs {| this := r; o_world := wd |}
    = Ret b {| this := r'; o_world := wd' |} /\
    backed (m_volumeTexture (volres r')) /\ backed (m_volumeSRV (volres r')) /\
    m_labelTexture (volres r') = m_labelTexture (volres r) /\
    m_labelSRV (volres r') = m_labelSRV (volres r) /\
    rest_kept r r'.
Proof.
  intros Hcov Bt Bs. unfold LoadVolumeData, CreateVolumeTexture, created, rest_kept.
  rewrite !SUCCEEDED_FAILED.
  destruct data as [bytes|]; run.
  2:{ do 3 eexists. split; [reflexivity|]. auto 10. }
  destruct ((w <=? 0) || (h <=? 0) || (d <=? 0)) eqn:Edims; run.
  { do 3 eexists. split; [reflexivity|]. auto 10. }
  destruct (m_device (dev r)) eqn:Edev; run.
  2:{ do 3 eexists. split; [reflexivity|]. cbn. auto 10. }
  unfold non_positive_dims. cbn [m_volumeWidth m_volumeHeight m_volumeDepth].
  rewrite Edims.
  assert (Hpos : 0 < w /\ 0 < h /\ 0 < d).
  { destruct (Z.leb_spec w 0), (Z.leb_spec h 0), (Z.leb_spec d 0);
      simpl in Edims; try discriminate; lia. }
  destruct Hpos as (Hw & Hh & Hd).
  assert (Bnew : backed (Some (texture_of (stored w h d vs) bytes))).
  { apply backed_texture_of; [now apply stored_positive | now apply Hcov]. }
  destruct (FAILED (hrCreateTexture3D e)); run;
    [|destruct (FAILED (hrCreateShaderResourceView e)); run];
    (do 3 eexists; split; [reflexivity|]);
    cbn [this volres set_volres m_volumeTexture m_volumeSRV m_labelTexture m_labelSRV
         negb andb backed];
    repeat split; try exact I; try exact Bs; apply Bnew.
Qed.

Lemma LoadLabelData_backed e data w h d r wd :
  (forall bytes, data = Some bytes -> m_device (dev r) = true ->
                 0 < w -> 0 < h -> 0 < d -> non_positive_dims (vol r) = false ->
                 covers (vol r) bytes = true) ->
  backed (m_labelTexture (volres r)) -> backed (m_labelSRV (volres r)) ->
  exists b r' wd',
    LoadLabelData e data w h d {| this := r; o_world := wd |}
    = Ret b {| this := r'; o_world := wd' |} /\
    backed (m_labelTexture (volres r')) /\ backed (m_labelSRV (volres r')) /\
    m_volumeTexture (volres r') = m_volumeTexture (volres r) /\
    m_volumeSRV (volres r') = m_volumeSRV (volres r) /\
    rest_kept r r'.
Proof.
  intros Hcov Bt Bs. unfold LoadLabelData, CreateLabelTexture, created, rest_kept.
  rewrite !SUCCEEDED_FAILED.
  destruct data as [bytes|]; run.
  2:{ do 3 eexists. split; [reflexivity|]. auto 10. }
  destruct ((w <=? 0) || (h <=? 0) || (d <=? 0)) eqn:Edims; run.
  { do 3 eexists. split; [reflexivity|]. auto 10. }
  destruct (m_device (dev r)) eqn:Edev; run.
  2:{ do 3 eexists. split; [reflexivity|]. auto 10. }
  destruct (non_positive_dims (vol r)) eqn:Evol; run.
  { do 3 eexists. split; [reflexivity|]. auto 10. }
  assert (Hpos : 0 < w /\ 0 < h /\ 0 < d).
  { destruct (Z.leb_spec w 0), (Z.leb_spec h 0), (Z.leb_spec d 0);
      simpl in Edims; try discriminate; lia. }
  destruct Hpos as (Hw & Hh & Hd).
  assert (Bnew : backed (Some (texture_of (vol r) bytes))).
  { apply backed_texture_of; [exact Evol | now apply Hcov]. }
  destruct (FAILED (hrCreateTexture3D e)); run;
    [|destruct (FAILED (hrCreateShaderResourceView e)); run];
    (do 3 eexists; split; [reflexivity|]);
    cbn [this volres set_volres m_volumeTexture m_volumeSRV m_labelTexture m_labelSRV
         negb andb backed];
    repeat split; try exact I; try exact Bs; apply Bnew.
Qed.

Lemma keeps_sound_drop {A} (m : M Proc A) p :
  (exists a p', m p = Ret a p' /\ sound p') ->
  exists p', (m ≫= fun _ => mret tt) p = Ret tt p' /\ sound p'.
Proof.
  intros (a & p' & E & S'). exists p'. split; [|exact S'].
  now rewrite (bind_Ret _ _ _ _ _ E).
Qed.

Lemma sound_Initialize e hwnd w h p :
  sound p -> well_behaved p (call_Initialize e hwnd w h) ->
  exists b p', CTViewer.Initialize e hwnd w h p = Ret b p' /\ sound p'.
Proof.
  destruct p as [g wd]. intros Hs Hwb.
  destruct (CTViewer_Initialize_run e hwnd w h g wd)
    as (b & g' & wd' & H & Hb & _ & Hrej & Hacc).
  exists b. eexists. split; [exact H|]. unfold sound in *. cbn [g_renderer] in *.
  destruct hwnd; [|destruct Hrej as [-> _]; auto].
  destruct (Z.le_gt_cases w 0); [destruct Hrej as [-> _]; auto|].
  destruct (Z.le_gt_cases h 0); [destruct Hrej as [-> _]; auto|].
  destruct (Hacc eq_refl ltac:(lia) ltac:(lia)) as (r' & -> & _ & Hv & Hfull & _).
  apply (coherent_fully_initialized w h (indeterminate e)); [|exact Hv].
  apply Hfull, Hb. cbn in Hwb. auto with zarith.
Qed.

Lemma keeps_sound_Shutdown : keeps_sound CTViewer.Shutdown.
Proof.
  intros [g wd] _. destruct (CTViewer_Shutdown_run g wd) as (wd' & H & _).
  exists tt. eexists. split; [exact H|]. exact I.
Qed.

Lemma keeps_sound_Render e : keeps_sound (CTViewer.Render e).
Proof.
  intros [g wd] Hs. destruct (CTViewer_Render_returns e g wd) as (wd' & H & _).
  exists tt. eexists. split; [exact H|]. exact Hs.
Qed.

Lemma sound_LoadVolumeData e data w h d vs p :
  sound p -> well_behaved p (call_LoadVolumeData e data w h d vs) ->
  exists b p', CTViewer.LoadVolumeData e data w h d vs p = Ret b p' /\ sound p'.
Proof.
  intros Hs Hwb. destruct p as [[r|] wd]; [|do 2 eexists; split; [reflexivity | exact I]].
  pose proof Hs as (Hl & Hc & Hsw & B1 & B2 & B3 & B4).
  unfold CTViewer.LoadVolumeData, try_catch, CTViewer.renderer. run.
  destruct data as [bytes|]; run.
  2:{ do 2 eexists. split; [reflexivity | exact Hs]. }
  destruct ((w <=? 0) || (h <=? 0) || (d <=? 0)) eqn:Edims; run.
  { do 2 eexists. split; [reflexivity | exact Hs]. }
  match goal with
  | |- context [call_renderer r ?m {| g_renderer := ?g; g_world := ?w0 |}] =>
    destruct (LoadVolumeData_backed e (Some bytes) w h d vs r w0)
      as (b & r' & w1 & H & Bt & Bs & L1 & L2 & (Hd & _ & Hm & _));
      [intros ? [= <-]; exact Hwb | exact B1 | exact B2 |];
    rewrite (call_renderer_Ret _ _ _ _ _ _ g H)
  end.
  destruct b; run; (do 2 eexists; split; [reflexivity|]);
    unfold sound, coherent; cbn [g_renderer]; rewrite Hd, Hm, L1, L2; auto 10.
Qed.

Lemma CTViewer_LoadLabelData_run e data w h d r wd :
  exists b r' wd',
    CTViewer.LoadLabelData e data w h d {| g_renderer := Some r; g_world := wd |}
    = Ret b {| g_renderer := Some r'; g_world := wd' |} /\
    rest_kept r r' /\ vol r' = vol r /\
    m_volumeTexture (volres r') = m_volumeTexture (volres r) /\
    m_volumeSRV (volres r') = m_volumeSRV (volres r) /\
    issued wd wd' [] /\
    (b = false -> reported_error wd wd') /\
    (b = true -> reported_no_error wd wd').
Proof.
  unfold CTViewer.LoadLabelData, try_catch, CTViewer.renderer. run.
  destruct data as [bytes|]; run.
  2:{ do 3 eexists. split; [reflexivity|]. unfold rest_kept. repeat split; try discriminate.
      - no_calls. - intros _. an_error. }
  destruct ((w <=? 0) || (h <=? 0) || (d <=? 0)) eqn:Edims; run.
  { do 3 eexists. split; [reflexivity|]. unfold rest_kept. repeat split; try discriminate.
    - no_calls. - intros _. an_error. }
  match goal with
  | |- context [call_renderer r ?m {| g_renderer := ?g; g_world := ?w0 |}] =>
    destruct (LoadLabelData_frame e (Some bytes) w h d r w0)
      as (b & r' & w1 & H & K & V & L1 & L2 & G & Hf & Ht);
    rewrite (call_renderer_Ret _ _ _ _ _ _ g H)
  end.
  destruct b; run.
  - do 3 eexists. split; [reflexivity|]. split; [exact K|]. split; [exact V|].
    split; [exact L1|]. split; [exact L2|]. split.
    { unfold issued in *. cbn [gpu] in *. now rewrite G. }
    split; [discriminate|]. intros _.
    eapply reported_no_error_trans; [apply logged_info|].
    eapply reported_no_error_trans; [apply (Ht eq_refl)|]. apply logged_info.
  - do 3 eexists. split; [reflexivity|]. split; [exact K|]. split; [exact V|].
    split; [exact L1|]. split; [exact L2|]. split.
    { unfold issued in *. cbn [gpu] in *. now rewrite G. }
    split; [|discriminate]. intros _.
    eapply reported_error_before; [|apply logged_extends].
    eapply reported_error_after; [apply logged_extends|]. apply (Hf eq_refl).
Qed.

Lemma sound_LoadLabelData e data w h d p :
  sound p -> well_behaved p (call_LoadLabelData e data w h d) ->
  exists b p', CTViewer.LoadLabelData e data w h d p = Ret b p' /\ sound p'.
Proof.
  intros Hs Hwb. destruct p as [[r|] wd]; [|do 2 eexists; split; [reflexivity | exact I]].
  pose proof Hs as (Hl & Hc & Hsw & B1 & B2 & B3 & B4).
  unfold CTViewer.LoadLabelData, try_catch, CTViewer.renderer. run.
  destruct data as [bytes|]; run.
  2:{ do 2 eexists. split; [reflexivity | exact Hs]. }
  destruct ((w <=? 0) || (h <=? 0) || (d <=? 0)) eqn:Edims; run.
  { do 2 eexists. split; [reflexivity | exact Hs]. }
  match goal with
  | |- context [call_renderer r ?m {| g_renderer := ?g; g_world := ?w0 |}] =>
    destruct (LoadLabelData_backed e (Some bytes) w h d r w0)
      as (b & r' & w1 & H & Bt & Bs & L1 & L2 & (Hd & _ & Hm & _));
      [intros ? [= <-]; exact Hwb | exact B3 | exact B4 |];
    rewrite (call_renderer_Ret _ _ _ _ _ _ g H)
  end.
  destruct b; run; (do 2 eexists; split; [reflexivity|]);
    unfold sound, coherent; cbn [g_renderer]; rewrite Hd, Hm, L1, L2; auto 10.
Qed.

Lemma sound_UpdateMaterials hr colors count p :
  sound p -> well_behaved p (call_UpdateMaterials hr colors count) ->
  exists (a : unit) p', CTViewer.UpdateMaterials hr colors count p = Ret a p' /\ sound p'.
Proof.
  destruct p as [g wd]. intros Hs Hwb.
  pose proof (CTViewer_UpdateMaterials_run hr colors count g wd) as Hrun.
  assert (Hret : forall g', sound {| g_renderer := g'; g_world := wd |} ->
            observe g_renderer
              (CTViewer.UpdateMaterials hr colors count {| g_renderer := g; g_world := wd |})
            = Ret tt g' ->
            exists (a : unit) p',
              CTViewer.UpdateMaterials hr colors count {| g_renderer := g; g_world := wd |}
              = Ret a p' /\ sound p').
  { intros g' Hg' E. destruct (observe_Ret_inv _ _ _ _ E) as ([g'' w''] & E' & Hg).
    cbn in Hg. subst g''. exists tt. eexists. split; [exact E'|]. exact Hg'. }
  destruct g as [r|]; [|now apply (Hret None)].
  destruct colors as [cs|]; [|now apply (Hret (Some r))].
  destruct (Z.leb_spec count 0) as [Hc|Hc]; [now apply (Hret (Some r))|].
  cbn in Hwb. specialize (Hwb Hc).
  pose proof Hs as (Hlen & Hdev).
  pose proof (clamp_count_bounds count) as Hb.
  destruct (write_colors_spec cs (Z.to_nat (clamp_count count)) 0 (m_materials (mat r)))
    as (ms & Hw & Hl & _); [lia | lia |].
  rewrite Hw in Hrun. apply (Hret _) in Hrun; [exact Hrun|].
  unfold sound. cbn [g_renderer].
  destruct (upload_rest hr (put_materials ms r)) as (Hd & _ & Hv & _).
  apply (coherent_same_devices r); [rewrite Hd; reflexivity| |rewrite Hv; reflexivity|exact Hs].
  rewrite upload_materials. cbn. exact Hl.
Qed.

Lemma keeps_sound_Resize e w h : keeps_sound (CTViewer.Resize e w h).
Proof.
  intros [[r|] wd] Hs; [|do 2 eexists; split; [reflexivity | exact I]].
  unfold CTViewer.Resize, try_catch, CTViewer.renderer. run.
  destruct ((w <=? 0) || (h <=? 0)) eqn:Edims; run.
  { do 2 eexists. split; [reflexivity | exact Hs]. }
  assert (Hpos : 0 < w /\ 0 < h).
  { destruct (Z.leb_spec w 0), (Z.leb_spec h 0); simpl in Edims; try discriminate; lia. }
  unfold sound in Hs. cbn [g_renderer] in Hs.
  destruct (coherent_ready_or_not r Hs) as [Hr|[Hd Hsc]].
  - match goal with
    | |- context [call_renderer r ?m {| g_renderer := ?g; g_world := ?w0 |}] =>
      destruct (Resize_attempt e w h r w0 (proj1 Hpos) (proj2 Hpos) Hr)
        as (r' & w1 & H & (Hc' & Hd' & Hs') & (_ & Hm & Hv & _) & _);
      rewrite (call_renderer_Ret _ _ _ _ _ _ g H)
    end.
    run. do 2 eexists. split; [reflexivity|].
    unfold sound, coherent. cbn [g_renderer]. rewrite Hm, Hv, Hc', Hd', Hs'.
    destruct Hs as (Hl & _ & _ & HB). auto.
  - match goal with
    | |- context [call_renderer r ?m {| g_renderer := ?g; g_world := ?w0 |}] =>
      destruct (Resize_refuses e w h r w0) as (w1 & H & _);
        [unfold resize_refused; auto|];
      rewrite (call_renderer_Ret _ _ _ _ _ _ g H)
    end.
    run. do 2 eexists. split; [reflexivity|]. exact Hs.
Qed.

Lemma keeps_sound_camera lm dx dy d :
  keeps_sound (CTViewer.RotateCamera lm dx dy) /\
  keeps_sound (CTViewer.ZoomCamera lm d) /\
  keeps_sound CTViewer.ResetCamera.
Proof.
  repeat split; intros [[r|] wd] Hs;
    (do 2 eexists; split; [reflexivity | exact Hs]).
Qed.

Lemma keeps_sound_SetRenderingParams a b c mode show :
  keeps_sound (CTViewer.SetRenderingParams a b c mode show).
Proof.
  intros [[r|] wd] Hs; (do 2 eexists; split; [reflexivity | exact Hs]).
Qed.

Lemma sound_api_call lm c p :
  sound p -> well_behaved p c ->
  exists p', api_call lm c p = Ret tt p' /\ sound p'.
Proof.
  assert (K : forall m : M Proc unit, keeps_sound m ->
            sound p -> exists p', m p = Ret tt p' /\ sound p').
  { intros m Hm Hp. destruct (Hm p Hp) as ([] & p' & H). eauto. }
  intros Hp Hwb. destruct c; cbn [api_call].
  - apply keeps_sound_drop. now apply sound_Initialize.
  - apply K; [apply keeps_sound_Shutdown | exact Hp].
  - apply K; [apply keeps_sound_Render | exact Hp].
  - apply keeps_sound_drop. now apply sound_LoadVolumeData.
  - apply keeps_sound_drop. now apply sound_LoadLabelData.
  - destruct (sound_UpdateMaterials hrMap colors count p Hp Hwb) as ([] & p' & H). eauto.
  - apply K; [apply keeps_sound_Resize | exact Hp].
  - apply K; [apply (keeps_sound_camera lm deltaX deltaY f0_0) | exact Hp].
  - apply K; [apply (keeps_sound_camera lm f0_0 f0_0 delta) | exact Hp].
  - apply K; [apply (keeps_sound_camera lm f0_0 f0_0 f0_0) | exact Hp].
  - apply K; [apply keeps_sound_SetRenderingParams | exact Hp].
Qed.

Lemma sound_api_calls lm cs : forall p,
  sound p -> obeys lm cs p ->
  exists p', api_calls lm cs p = Ret tt p' /\ sound p'.
Proof.
  induction cs as [|c cs IH]; intros p Hp Ho; cbn [api_calls].
  - exists p. split; [reflexivity | exact Hp].
  - destruct Ho as [Hc Hrest].
    destruct (sound_api_call lm c p Hp Hc) as (p1 & E1 & S1).
    rewrite E1 in Hrest.
    destruct (IH p1 S1 Hrest) as (p2 & E2 & S2).
    exists p2. split; [|exact S2]. now rewrite (bind_Ret _ _ _ _ _ E1).
Qed.

(** ** Initialization, frames and sessions *)

Lemma Render_emits e r :
  device_ready r -> (forall c, throws e c = None) ->
  exists before,
    emits r (Render e) (before ++ [DrawIndexed 36; Present 1]) /\
    count_calls is_draw before = 0%nat /\ count_calls is_present before = 0%nat /\
    existsb (binds_texture 0) before = bool_decide (is_Some (m_volumeSRV (volres r))) /\
    existsb (binds_texture 1) before = bool_decide (is_Some (m_labelSRV (volres r))) /\
    existsb (binds_texture 2) before = m_constantBuffer (pipe r) && m_materialSRV (mat r) /\
    existsb binds_sampler before = m_volumeSampler (pipe r) /\
    (m_constantBuffer (pipe r) = true -> In (transform_upload r) before) /\
    (m_constantBuffer (pipe r) = true ->
     SUCCEEDED (hrCreateBuffer_renderParams e) = true -> In (params_upload r) before).
Proof.
  intros Hr Hno. destruct (Render_body_emits e r Hr Hno) as (before & Hb & Hrest).
  exists before. split; [|exact Hrest].
  intros w. destruct (Hb w) as (w' & H & Hi). exists w'. split; [|exact Hi].
  unfold Render, try_catch. now rewrite H.
Qed.

(** X5: [VolumeRenderer::Initialize] always returns, and returns true exactly
    when the window handle is non-null, both dimensions are positive and
    every creation call succeeds.  On success every resource is there for
    the requested size and the material table has 256 entries mirrored on
    the GPU; on failure an error is logged.  In both cases the volume
    properties, the camera, the rendering parameters and the volume and
    label textures are left as they were. *)
Theorem Initialize_succeeds_iff (e : InitEnv) (hwnd : bool) (width height : Z) (o : Obj) :
  exists b o',
    Initialize e hwnd width height o = Ret b o' /\
    (b = true <-> hwnd = true /\ 0 < width /\ 0 < height /\ all_created e = true) /\
    (b = true -> fully_initialized width height (this o')) /\
    (b = false -> reported_error (o_world o) (o_world o')) /\
    same_scene (this o) (this o') /\
    volres (this o') = volres (this o).
Proof.
  destruct (Initialize_cases e hwnd width height o)
    as (b & o' & H & (_ & Herr) & Hiff & Hfull & Hscene & Hvol & _).
  exists b, o'. auto 10.
Qed.

(** X6: [Initialize] does not undo what it created when a later step fails.
    If the device is created and a later creation call fails, [Initialize]
    returns false and leaves the device, its context and the swap chain in
    the object, with the requested size; a following [Render] then passes
    its guard and issues a whole frame, ending in the draw and the
    [Present]. *)
Theorem failed_Initialize_keeps_device (e : InitEnv) (e' : RenderEnv)
    (width height : Z) (o : Obj) :
  0 < width -> 0 < height ->
  device_created e = true -> all_created e = false ->
  (forall c, throws e' c = None) ->
  exists o1 o2 before,
    Initialize e true width height o = Ret false o1 /\
    device_ready (this o1) /\
    view (this o1) = {| m_width := width; m_height := height |} /\
    Render e' o1 = Ret tt o2 /\
    issued (o_world o1) (o_world o2) (before ++ [DrawIndexed 36; Present 1]).
Proof.
  intros Hw Hh Hdev Hall Hno.
  destruct (Initialize_cases e true width height o)
    as (b & [r1 w1] & H & _ & Hiff & _ & _ & _ & Hready & Hview).
  assert (b = false) as ->.
  { destruct b; [|reflexivity]. destruct Hiff as [Hiff _].
    destruct (Hiff eq_refl) as (_ & _ & _ & Hc). congruence. }
  cbn [this] in *.
  destruct (Render_emits e' r1 (Hready eq_refl Hw Hh Hdev) Hno) as (before & Hem & _).
  destruct (Hem w1) as (w2 & Hr & Hi).
  exists {| this := r1; o_world := w1 |}, {| this := r1; o_world := w2 |}, before.
  cbn [this o_world]. auto 10.
Qed.

Lemma failed_Initialize_keeps_device_witness :
  exists o1 o2 before,
    Initialize no_shader true 800 600 new_object = Ret false o1 /\
    device_ready (this o1) /\
    view (this o1) = {| m_width := 800; m_height := 600 |} /\
    Render frame_ok o1 = Ret tt o2 /\
    issued (o_world o1) (o_world o2) (before ++ [DrawIndexed 36; Present 1]).
Proof.
  apply (failed_Initialize_keeps_device no_shader frame_ok 800 600 new_object).
  - lia.
  - lia.
  - vm_compute. reflexivity.
  - vm_compute. reflexivity.
  - intros c. reflexivity.
Defined.

(** X14: a frame on a renderer that holds its device, when no call raises.
    [Render] returns and leaves the renderer as it was; the calls it issues
    end in exactly one [DrawIndexed(36)] followed by [Present(1)], with no
    other draw or present before them; the volume view is bound to slot 0
    exactly when there is one, the label view to slot 1 exactly when there
    is one, the material view to slot 2 exactly when it and the constant
    buffer exist, and a sampler exactly when the volume sampler exists.  The
    draw is issued even when no volume has been loaded.  When the constant
    buffer exists the frame uploads the current camera position, focus point
    and up vector with the aspect ratio of the stored size, and, if the
    parameter buffer can be created, the current rendering parameters. *)
Theorem Render_draws_once (e : RenderEnv) (o : Obj) :
  device_ready (this o) -> (forall c, throws e c = None) ->
  exists o' before,
    Render e o = Ret tt o' /\
    this o' = this o /\
    issued (o_world o) (o_world o') (before ++ [DrawIndexed 36; Present 1]) /\
    count_calls is_draw before = 0%nat /\
    count_calls is_present before = 0%nat /\
    existsb (binds_texture 0) before = bool_decide (is_Some (m_volumeSRV (volres (this o)))) /\
    existsb (binds_texture 1) before = bool_decide (is_Some (m_labelSRV (volres (this o)))) /\
    existsb (binds_texture 2) before
      = m_constantBuffer (pipe (this o)) && m_materialSRV (mat (this o)) /\
    existsb binds_sampler before = m_volumeSampler (pipe (this o)) /\
    (m_constantBuffer (pipe (this o)) = true -> In (transform_upload (this o)) before) /\
    (m_constantBuffer (pipe (this o)) = true ->
     SUCCEEDED (hrCreateBuffer_renderParams e) = true ->
     In (params_upload (this o)) before).
Proof.
  destruct o as [r w]. cbn [this o_world]. intros Hr Hno.
  destruct (Render_emits e r Hr Hno) as (before & Hem & Hrest).
  destruct (Hem w) as (w' & H & Hi).
  exists {| this := r; o_world := w' |}, before. cbn [this o_world]. auto.
Qed.

Lemma Render_draws_once_witness :
  device_ready (this initialized_object) /\
  exists o' before,
    Render frame_ok initialized_object = Ret tt o' /\
    issued (o_world initialized_object) (o_world o') (before ++ [DrawIndexed 36; Present 1]) /\
    existsb (binds_texture 0) before = false /\
    existsb (binds_texture 2) before = true.
Proof.
  assert (Hr : device_ready (this initialized_object)) by (vm_compute; repeat split).
  split; [exact Hr|].
  destruct (Render_draws_once frame_ok initialized_object Hr (fun c => eq_refl))
    as (o' & before & H & _ & Hi & _ & _ & H0 & _ & H2 & _).
  exists o', before. split; [exact H|]. split; [exact Hi|].
  split; [rewrite H0 | rewrite H2]; vm_compute; reflexivity.
Defined.

(** X8: the outcomes of [VolumeRenderer::Resize].  With a non-positive
    dimension, or without a device or a swap chain, it logs an error and
    changes nothing.  On a renderer that holds its device and for positive
    dimensions it returns and keeps the device, the pipeline, the materials,
    the textures and the scene; if every step succeeds the new size is
    stored, both views exist again and the viewport is set once, to the new
    width and height converted to [float]; if a step fails an error is
    logged, the stored size stays the old one, no viewport is set and the
    depth view, released at the start, stays released. *)
Theorem Resize_outcome (e : ResizeEnv) (width height : Z) (o : Obj) :
  (resize_refused width height (this o) ->
     exists o', Resize e width height o = Ret tt o' /\
       this o' = this o /\
       issued (o_world o) (o_world o') [] /\
       reported_error (o_world o) (o_world o')) /\
  (0 < width -> 0 < height -> device_ready (this o) ->
     exists o', Resize e width height o = Ret tt o' /\
       device_ready (this o') /\ others_kept (this o) (this o') /\
       (resized e = true ->
          view (this o') = {| m_width := width; m_height := height |} /\
          m_renderTargetView (dev (this o')) = true /\
          m_depthStencilView (dev (this o')) = Some (width, height) /\
          issued (o_world o) (o_world o')
            [RSSetViewports (F32.of_Z width) (F32.of_Z height)] /\
          reported_no_error (o_world o) (o_world o')) /\
       (resized e = false ->
          view (this o') = view (this o) /\
          m_depthStencilView (dev (this o')) = None /\
          issued (o_world o) (o_world o') [] /\
          reported_error (o_world o) (o_world o'))).
Proof.
  destruct o as [r w]. cbn [this o_world]. split.
  - intros H. destruct (Resize_refuses e width height r w H) as (w' & Hr & Hi & He).
    exists {| this := r; o_world := w' |}. auto.
  - intros Hw Hh Hr.
    destruct (Resize_attempt e width height r w Hw Hh Hr) as (r' & w' & H & Hrest).
    exists {| this := r'; o_world := w' |}. cbn [this o_world]. auto.
Qed.

Lemma Resize_outcome_witness :
  device_ready (this initialized_object) /\
  (exists o',
     Resize resize_buffers_fail 1024 768 initialized_object = Ret tt o' /\
     view (this o') = {| m_width := 800; m_height := 600 |} /\
     m_depthStencilView (dev (this o')) = None) /\
  (exists o',
     Resize resize_ok 16777217 600 initialized_object = Ret tt o' /\
     view (this o') = {| m_width := 16777217; m_height := 600 |} /\
     issued (o_world initialized_object) (o_world o')
       [RSSetViewports (F32.of_Z 16777216) (F32.of_Z 600)]).
Proof.
  assert (Hr : device_ready (this initialized_object)) by (vm_compute; repeat split).
  split; [exact Hr|]. split.
  2:{ destruct (proj2 (Resize_outcome resize_ok 16777217 600 initialized_object)
                  ltac:(lia) ltac:(lia) Hr) as (o' & H & _ & _ & Ht & _).
      destruct (Ht ltac:(vm_compute; reflexivity)) as (Hv & _ & _ & Hi & _).
      exists o'. split; [exact H|]. split; [exact Hv|].
      assert (E : F32.of_Z 16777216 = F32.of_Z 16777217) by (vm_compute; reflexivity).
      rewrite E. exact Hi. }
  destruct (proj2 (Resize_outcome resize_buffers_fail 1024 768 initialized_object)
              ltac:(lia) ltac:(lia) Hr) as (o' & H & _ & _ & _ & Hf).
  destruct (Hf ltac:(vm_compute; reflexivity)) as (Hv & Hd & _).
  exists o'. split; [exact H|]. split; [|exact Hd].
  rewrite Hv. vm_compute. reflexivity.
Defined.

Lemma LoadVolumeData_installs_witness :
  exists r' wd',
    LoadVolumeData texture_fails (Some voxels_8) 2 2 2 f1_0
      {| this := this loaded_object; o_world := quiet |}
    = Ret false {| this := r'; o_world := wd' |} /\
    m_volumeTexture (volres r') = None /\
    is_Some (m_volumeSRV (volres r')).
Proof.
  destruct (LoadVolumeData_installs texture_fails voxels_8 2 2 2 f1_0
              (this loaded_object) quiet ltac:(lia) ltac:(lia) ltac:(lia)
              ltac:(vm_compute; reflexivity))
    as (b & r' & wd' & H & Hb & Ht & Hs & _).
  vm_compute in Hb. subst b.
  exists r', wd'. split; [exact H|]. split; [exact Ht|].
  rewrite Hs. vm_compute. eexists. reflexivity.
Defined.

Lemma LoadLabelData_installs_witness :
  exists r' wd',
    LoadLabelData textures_ok (Some voxels_8) 2 2 2
      {| this := this loaded_object; o_world := quiet |}
    = Ret true {| this := r'; o_world := wd' |} /\
    (Width <$> m_labelTexture (volres r')) = Some 4 /\
    vol r' = vol (this loaded_object).
Proof.
  destruct (LoadLabelData_installs textures_ok voxels_8 2 2 2
              (this loaded_object) quiet ltac:(lia) ltac:(lia) ltac:(lia)
              ltac:(vm_compute; reflexivity) ltac:(vm_compute; reflexivity))
    as (b & r' & wd' & H & Hb & Ht & _ & _ & _ & Hv & _).
  vm_compute in Hb. subst b.
  exists r', wd'. split; [exact H|]. split; [|exact Hv].
  rewrite Ht. vm_compute. reflexivity.
Defined.

(** X12: the exported [LoadVolumeData] and [LoadLabelData] on a process that
    has a renderer, whatever their arguments and whatever the driver
    answers.  Both return; an error is logged when the result is false and
    none when it is true; no call is issued on the device context; the
    device, the pipeline, the materials, the viewport, the camera and the
    rendering parameters are kept.  [LoadVolumeData] keeps the label texture
    and view; [LoadLabelData] keeps the volume texture and view and the
    stored volume dimensions. *)
Theorem loaders_report_failure (e : TexEnv) (data : bytes_ptr) (width height depth : Z)
    (voxelSize : float) (r : VolumeRenderer) (wd : World) :
  let p := {| g_renderer := Some r; g_world := wd |} in
  (exists b r' wd',
     CTViewer.LoadVolumeData e data width height depth voxelSize p
     = Ret b {| g_renderer := Some r'; g_world := wd' |} /\
     (b = false -> reported_error wd wd') /\
     (b = true -> reported_no_error wd wd') /\
     issued wd wd' [] /\ rest_kept r r' /\
     m_labelTexture (volres r') = m_labelTexture (volres r) /\
     m_labelSRV (volres r') = m_labelSRV (volres r)) /\
  (exists b r' wd',
     CTViewer.LoadLabelData e data width height depth p
     = Ret b {| g_renderer := Some r'; g_world := wd' |} /\
     (b = false -> reported_error wd wd') /\
     (b = true -> reported_no_error wd wd') /\
     issued wd wd' [] /\ rest_kept r r' /\ vol r' = vol r /\
     m_volumeTexture (volres r') = m_volumeTexture (volres r) /\
     m_volumeSRV (volres r') = m_volumeSRV (volres r)).
Proof.
  intros p. subst p. split.
  - destruct (CTViewer_LoadVolumeData_run e data width height depth voxelSize r wd)
      as (b & r' & wd' & H & K & L1 & L2 & G & Hf & Ht).
    exists b, r', wd'. auto 10.
  - destruct (CTViewer_LoadLabelData_run e data width height depth r wd)
      as (b & r' & wd' & H & K & V & L1 & L2 & G & Hf & Ht).
    exists b, r', wd'. auto 10.
Qed.

Lemma UpdateMaterials_defined_iff_witness :
  UpdateMaterials S_OK (Some red_green) 3 initialized_object = Undefined /\
  exists o', UpdateMaterials S_OK (Some red_green) 2 initialized_object = Ret tt o' /\
             length (m_materials (mat (this o'))) = 256%nat.
Proof.
  split.
  - apply (proj2 (UpdateMaterials_defined_iff S_OK red_green 3 initialized_object)).
    left. vm_compute. lia.
  - destruct (proj1 (UpdateMaterials_defined_iff S_OK red_green 2 initialized_object))
      as (o' & H & Hl & _).
    + vm_compute. split; lia.
    + exists o'. split; [exact H|]. rewrite Hl. vm_compute. reflexivity.
Defined.

(** X15: the exported [Initialize].  It always returns, and returns true
    exactly when the arguments are valid and every creation call succeeds;
    an error is logged whenever it returns false.  When the window handle is
    null or a dimension is not positive, [g_renderer] is left as it was and
    no device call is issued: a renderer set up before stays in use.  When
    the arguments are valid the renderer owned so far is destroyed and
    [g_renderer] holds a new object with the constructor's camera,
    parameters and volume properties and no texture, whatever was loaded
    before and whether or not initialization then succeeds. *)
Theorem CTViewer_Initialize_replaces_renderer (e : InitEnv) (hwnd : bool)
    (width height : Z) (p : Proc) :
  exists b p',
    CTViewer.Initialize e hwnd width height p = Ret b p' /\
    (b = true <-> hwnd = true /\ 0 < width /\ 0 < height /\ all_created e = true) /\
    (b = false -> reported_error (g_world p) (g_world p')) /\
    (hwnd = false \/ width <= 0 \/ height <= 0 ->
       g_renderer p' = g_renderer p /\ issued (g_world p) (g_world p') []) /\
    (hwnd = true -> 0 < width -> 0 < height ->
       exists r', g_renderer p' = Some r' /\
         same_scene (constructed (indeterminate e)) r' /\
         volres r' = volres (constructed (indeterminate e)) /\
         view r' = {| m_width := width; m_height := height |} /\
         (b = true -> fully_initialized width height r')).
Proof.
  destruct p as [g wd].
  destruct (CTViewer_Initialize_run e hwnd width height g wd)
    as (b & g' & wd' & H & Hb & Herr & Hrej & Hacc).
  exists b. eexists. split; [exact H|]. cbn [g_renderer g_world].
  split; [exact Hb|]. split; [exact Herr|]. split.
  - intros Hbad. destruct (Hrej Hbad) as [-> G]. split; [reflexivity|].
    unfold issued. now rewrite G, app_nil_r.
  - intros H1 H2 H3. destruct (Hacc H1 H2 H3) as (r' & -> & Hs & Hv & Hf & _ & Hview).
    exists r'. auto 10.
Qed.

(** X16: the exported [Shutdown] always returns and leaves [g_renderer]
    null, logging no error, whether or not a renderer existed.  After it
    [Render] logs an error and issues none of its calls, and a second
    [Shutdown] again returns without an error. *)
Theorem CTViewer_Shutdown_resets (e : RenderEnv) (p : Proc) :
  exists p1 p2 p3,
    CTViewer.Shutdown p = Ret tt p1 /\
    g_renderer p1 = None /\
    reported_no_error (g_world p) (g_world p1) /\
    CTViewer.Render e p1 = Ret tt p2 /\
    g_renderer p2 = None /\
    issued (g_world p1) (g_world p2) [] /\
    reported_error (g_world p1) (g_world p2) /\
    CTViewer.Shutdown p2 = Ret tt p3 /\
    g_renderer p3 = None /\
    reported_no_error (g_world p2) (g_world p3).
Proof.
  destruct p as [g wd].
  destruct (CTViewer_Shutdown_run g wd) as (w1 & H1 & E1).
  pose (w2 := {| logs := logs w1 ++
                   [{| severity := LOG_ERROR;
                       message := "Render called but renderer is not initialized" |}];
                 gpu := gpu w1 |}).
  destruct (CTViewer_Shutdown_run None w2) as (w3 & H3 & E3).
  exists {| g_renderer := None; g_world := w1 |}, {| g_renderer := None; g_world := w2 |},
         {| g_renderer := None; g_world := w3 |}.
  cbn [g_renderer g_world].
  split; [exact H1|]. split; [reflexivity|].
  split; [exact E1|].
  split; [reflexivity|]. split; [reflexivity|].
  split; [unfold issued; cbn; now rewrite app_nil_r|].
  split; [eexists; split; [reflexivity | now constructor]|].
  auto.
Qed.

(** X17: no sequence of calls of the exported functions indexes the
    caller's colour array or the material table out of bounds, uses a null
    device or context, or lets an exception out, as long as each call is
    well behaved in the state it is made in: an [Initialize] whose arguments
    are accepted finds all its resources, an array handed to
    [UpdateMaterials] holds the entries that are read, and an array handed
    to [LoadVolumeData] or [LoadLabelData] covers the texture created from
    it ([LoadLabelData] sizes it by the stored volume dimensions) with a
    row-times-height product that fits an [int].  From a state where
    [g_renderer] is null, or owns a renderer whose device, context and swap
    chain exist together, whose material table has 256 entries and whose
    textures are backed by their arrays, every such sequence returns, in a
    state of the same kind.  The DirectX calls of [Render] may raise, and
    texture creation and [Resize] may fail, at any point of the sequence. *)
Theorem api_calls_stay_defined (lm : Libm) (cs : list ApiCall) (p : Proc) :
  sound p -> obeys lm cs p ->
  exists p', api_calls lm cs p = Ret tt p' /\ sound p'.
Proof.
  intros Hp Hcs. destruct (sound_api_calls lm cs p Hp Hcs) as (p' & H & Hs).
  exists p'. auto.
Qed.

Lemma api_calls_stay_defined_witness :
  sound start /\ obeys poly_libm session start /\
  exists p', api_calls poly_libm session start = Ret tt p' /\ sound p'.
Proof.
  assert (Hs : obeys poly_libm session start).
  { vm_compute. repeat split; intros; first [reflexivity | lia]. }
  split; [exact I|]. split; [exact Hs|].
  exact (api_calls_stay_defined poly_libm session start I Hs).
Defined.

(** The condition on the loaders cannot be dropped.  After a 4x4x4 volume,
    [LoadLabelData] with an array of 8 bytes is not well behaved, whatever
    dimensions it is passed: it returns true and leaves a label texture of
    64 texels created from those 8 bytes, a state that is not sound. *)
Lemma short_label_array_excluded :
  exists p p',
    api_calls poly_libm
      [call_Initialize healthy true 800 600;
       call_LoadVolumeData textures_ok (Some voxels_64) 4 4 4 f1_0] start = Ret tt p /\
    sound p /\
    ~ well_behaved p (call_LoadLabelData textures_ok (Some voxels_8) 2 2 2) /\
    CTViewer.LoadLabelData textures_ok (Some voxels_8) 2 2 2 p = Ret true p' /\
    ~ sound p'.
Proof.
  do 2 eexists. split; [vm_compute; reflexivity|].
  split; [vm_compute; repeat split; intros H; discriminate H|].
  split.
  - intros H. cbn [well_behaved g_renderer] in H.
    specialize (H eq_refl ltac:(lia) ltac:(lia) ltac:(lia) eq_refl).
    vm_compute in H. discriminate.
  - split; [vm_compute; reflexivity|].
    intros H. vm_compute in H.
    destruct H as (_ & _ & _ & _ & _ & (Hb & _) & _). now apply Hb.
Qed.
